(** * FlowForge browser client: session, transport, draft editor, list caches

    A shallow embedding of the client-side scripts of FlowForge
    ([src/web/static/js/api.js], which holds the [APIClient], the
    [WorkflowBuilder] and the [App] objects, and [auth.js], which holds
    [Auth] and [Utils]) together with the properties the specification
    states about them.

    Conventions of the embedding.
    - JavaScript values are the untyped [value]s below.  Text is a byte
      string (UTF-8); numbers read from JSON are exact decimals, rounding
      to binary64 is left out there.  The one place where the scripts
      divide, the dashboard success rate, is computed on binary64 floats.
    - What the platform hands to the scripts is an input of the model: the
      content of [localStorage], the answer of [confirm], the reading of
      [Date.now()], and the outcome of every [fetch].
    - An [async] function is a function from the state at its call to a
      [step]: it either finishes or is suspended on a request (on two, in
      a join), holding the continuation that runs when the outcome
      arrives, on the state as it is then.  A call that is not awaited
      leaves its suspended rest in the list of detached tasks.
    - Of the builder, [newWorkflow] and [editWorkflow] only set the draft
      up; the properties speak of every draft, however it was set up, and
      the two are not embedded.  Nor are [runWorkflow], [addCredential]
      and [useTemplate] of the application, of which no property speaks.
    - Presentation (markup written by the [render*] functions, CSS classes)
      is left out; what is kept of a [render*] function is whether it
      throws on the list it is given.  The page is assumed to hold every
      element the scripts look up.  Form fields read by the scripts, the
      texts of the dashboard counters, toasts and console lines are part
      of the state. *)

From Stdlib Require Import ZArith NArith String Ascii List Bool Lia.
From Stdlib Require Import Floats.PrimFloat Floats.SpecFloat Floats.FloatOps.
From Stdlib Require Import Uint63.
From stdpp Require Import base option list gmap strings pretty.

Local Open Scope string_scope.
Local Open Scope list_scope.
Local Open Scope Z_scope.

(** ** JavaScript values and errors *)

#[local] Set Warnings "-register-all".

Inductive value : Type :=
| Undefined
| Null
| Bool (b : bool)
| Num (m : Z) (d : nat)      (* the number m / 10^d; d = 0 or 10 does not divide m *)
| Str (s : string)
| Arr (l : list value)
| Obj (fields : list (string * value)).

(** An [Error] object: its constructor name and its [message]. *)
Record exn : Type := { ename : string; emessage : string }.

Inductive result (A : Type) : Type :=
| Ok (a : A)
| Throw (e : exn).
Arguments Ok {A} a.
Arguments Throw {A} e.

Definition rbind {A B : Type} (m : result A) (f : A -> result B) : result B :=
  match m with
  | Ok a => f a
  | Throw e => Throw e
  end.

Notation "'let*' x ':=' m 'in' k" := (rbind m (fun x => k))
  (at level 10, x name, m at level 100, k at level 200).

Module JS.

(** [new Error(message)]. *)
Definition Error (message : string) : exn :=
  {| ename := "Error"; emessage := message |}.

(** Errors raised by the engine.  Their texts differ between engines;
    the model takes V8's wording. *)
Definition TypeError (message : string) : exn :=
  {| ename := "TypeError"; emessage := message |}.
Definition SyntaxError (message : string) : exn :=
  {| ename := "SyntaxError"; emessage := message |}.

Definition int (z : Z) : value := Num z 0.

(** ToBoolean. *)
Definition truthy (v : value) : bool :=
  match v with
  | Undefined | Null => false
  | Bool b => b
  | Num m _ => negb (m =? 0)
  | Str s => negb (String.eqb s "")
  | Arr _ | Obj _ => true
  end.

(** [a || b]. *)
Definition or (a b : value) : value := if truthy a then a else b.

(** [a === b] where at least one side is a primitive.  Two arrays or two
    objects are compared by identity in JavaScript; the scripts never
    compare two of them, and the model answers [false] there. *)
Definition strict_eq (a b : value) : bool :=
  match a, b with
  | Undefined, Undefined => true
  | Null, Null => true
  | Bool x, Bool y => Bool.eqb x y
  | Num m d, Num m' d' => (m =? m') && Nat.eqb d d'
  | Str x, Str y => String.eqb x y
  | _, _ => false
  end.

Fixpoint assoc (k : string) (fs : list (string * value)) : option value :=
  match fs with
  | [] => None
  | (k', v) :: fs' => if String.eqb k k' then Some v else assoc k fs'
  end.

Definition describe (v : value) : string :=
  match v with Undefined => "undefined" | _ => "null" end.

(** The property read [v.k], for the fixed keys the scripts read; none of
    them is defined on a built-in prototype. *)
Definition get (v : value) (k : string) : result value :=
  match v with
  | Undefined | Null =>
      Throw (TypeError ("Cannot read properties of " +:+ describe v
                          +:+ " (reading '" +:+ k +:+ "')"))
  | Obj fs => Ok (default Undefined (assoc k fs))
  | Arr l => Ok (if String.eqb k "length" then int (Z.of_nat (length l)) else Undefined)
  | Str s => Ok (if String.eqb k "length" then int (Z.of_nat (String.length s)) else Undefined)
  | Bool _ | Num _ _ => Ok Undefined
  end.

(** [v?.k]. *)
Definition get_opt (v : value) (k : string) : value :=
  match get v k with Ok x => x | Throw _ => Undefined end.

Fixpoint join (sep : string) (l : list string) : string :=
  match l with
  | [] => ""
  | [x] => x
  | x :: r => x +:+ sep +:+ join sep r
  end.

Fixpoint zeros (n : nat) : string :=
  match n with O => "" | S n' => String "0" (zeros n') end.

Fixpoint take (n : nat) (s : string) : string :=
  match n, s with
  | S n', String c r => String c (take n' r)
  | _, _ => ""
  end.

Fixpoint drop (n : nat) (s : string) : string :=
  match n, s with
  | S n', String _ r => drop n' r
  | _, _ => s
  end.

Fixpoint rev_acc (s acc : string) : string :=
  match s with
  | "" => acc
  | String c r => rev_acc r (String c acc)
  end.
Definition rev (s : string) : string := rev_acc s "".

Fixpoint drop_zeros (s : string) : string :=
  match s with
  | String "0" r => drop_zeros r
  | _ => s
  end.

(** Number::toString of ECMA-262 for the finite number m / 10^d:
    with digits [ds] (k of them, no trailing zero) and decimal point
    after the n-th digit. *)
Definition number_to_string (m : Z) (d : nat) : string :=
  if m =? 0 then "0" else
  let all := pretty (Z.abs_N m) in
  let n := Z.of_nat (String.length all) - Z.of_nat d in
  let ds := rev (drop_zeros (rev all)) in
  let k := Z.of_nat (String.length ds) in
  let sign := if m <? 0 then "-" else "" in
  let expo := (if 0 <? n - 1 then "e+" else "e-") +:+ pretty (Z.abs_N (n - 1)) in
  sign +:+
  (if (k <=? n) && (n <=? 21) then ds +:+ zeros (Z.to_nat (n - k))
   else if (0 <? n) && (n <=? 21) then
     take (Z.to_nat n) ds +:+ "." +:+ drop (Z.to_nat n) ds
   else if (-6 <? n) && (n <=? 0) then "0." +:+ zeros (Z.to_nat (- n)) +:+ ds
   else if k =? 1 then ds +:+ expo
   else take 1 ds +:+ "." +:+ drop 1 ds +:+ expo).

Definition cannot_convert : exn :=
  TypeError "Cannot convert object to primitive value".

(** ToString.  An object answers through [Object.prototype.toString]
    unless it carries a [toString] property of its own, which (coming
    from JSON) is no function; an array joins its elements. *)
Fixpoint to_string (v : value) : result string :=
  match v with
  | Undefined => Ok "undefined"
  | Null => Ok "null"
  | Bool b => Ok (if b then "true" else "false")
  | Num m d => Ok (number_to_string m d)
  | Str s => Ok s
  | Arr l =>
      let* parts :=
        (fix go (l : list value) : result (list string) :=
           match l with
           | [] => Ok []
           | x :: r =>
               let* sx := match x with
                          | Undefined | Null => Ok ""
                          | _ => to_string x
                          end in
               let* sr := go r in
               Ok (sx :: sr)
           end) l in
      Ok (join "," parts)
  | Obj fs =>
      match assoc "toString" fs with
      | Some _ => Throw cannot_convert
      | None => Ok "[object Object]"
      end
  end.

Definition is_js_space (p : string) : bool :=
  existsb (String.eqb p)
    [ String (ascii_of_nat 9) ""; String (ascii_of_nat 10) "";
      String (ascii_of_nat 11) ""; String (ascii_of_nat 12) "";
      String (ascii_of_nat 13) ""; " " ].

(** The white space [trim] removes: the one-byte characters and the
    UTF-8 forms of U+00A0, U+1680, U+2000..U+200A, U+2028, U+2029,
    U+202F, U+205F, U+3000 and U+FEFF. *)
Definition space_at (s : string) : option nat :=
  match s with
  | String c r =>
      let b := nat_of_ascii c in
      if is_js_space (String c "") then Some 1%nat
      else match r with
      | String c1 r1 =>
          let b1 := nat_of_ascii c1 in
          if Nat.eqb b 194 && Nat.eqb b1 160 then Some 2%nat
          else match r1 with
          | String c2 _ =>
              let b2 := nat_of_ascii c2 in
              if (Nat.eqb b 225 && Nat.eqb b1 154 && Nat.eqb b2 128)
                 || (Nat.eqb b 226 && Nat.eqb b1 128
                     && ((Nat.leb 128 b2 && Nat.leb b2 138)
                         || Nat.eqb b2 168 || Nat.eqb b2 169 || Nat.eqb b2 175))
                 || (Nat.eqb b 226 && Nat.eqb b1 129 && Nat.eqb b2 159)
                 || (Nat.eqb b 227 && Nat.eqb b1 128 && Nat.eqb b2 128)
                 || (Nat.eqb b 239 && Nat.eqb b1 187 && Nat.eqb b2 191)
              then Some 3%nat else None
          | _ => None
          end
      | _ => None
      end
  | _ => None
  end.

Fixpoint trim_start_fuel (fuel : nat) (s : string) : string :=
  match fuel with
  | O => s
  | S fuel' =>
      match space_at s with
      | Some n => trim_start_fuel fuel' (drop n s)
      | None => s
      end
  end.
Definition trimStart (s : string) : string := trim_start_fuel (String.length s) s.

(** The same test read from the end of the text: [s] is reversed. *)
Definition space_at_end (s : string) : option nat :=
  match space_at (rev (take 1 s)) with
  | Some n => Some n
  | None =>
      match space_at (rev (take 2 s)) with
      | Some 2%nat => Some 2%nat
      | _ => match space_at (rev (take 3 s)) with
             | Some 3%nat => Some 3%nat
             | _ => None
             end
      end
  end.

Fixpoint trim_end_fuel (fuel : nat) (s : string) : string :=
  match fuel with
  | O => s
  | S fuel' =>
      match space_at_end s with
      | Some n => trim_end_fuel fuel' (drop n s)
      | None => s
      end
  end.

(** [s.trim()]. *)
Definition trim (s : string) : string :=
  let s1 := trimStart s in
  rev (trim_end_fuel (String.length s1) (rev s1)).

(** [v.method(...)] where [v] is no array: the read of the method
    fails on [null] and [undefined], the call fails on the rest. *)
Definition not_an_array (what method : string) (v : value) : exn :=
  match v with
  | Undefined | Null =>
      TypeError ("Cannot read properties of " +:+ describe v
                   +:+ " (reading '" +:+ method +:+ "')")
  | _ => TypeError (what +:+ "." +:+ method +:+ " is not a function")
  end.

Fixpoint filter_list (p : value -> result bool) (l : list value) : result (list value) :=
  match l with
  | [] => Ok []
  | x :: r =>
      let* keep := p x in
      let* rest := filter_list p r in
      Ok (if keep then x :: rest else rest)
  end.

(** [v.filter(p)]; [what] is the text of the expression [v]. *)
Definition filter (what : string) (v : value) (p : value -> result bool) : result (list value) :=
  match v with
  | Arr l => filter_list p l
  | _ => Throw (not_an_array what "filter" v)
  end.

Fixpoint each (f : value -> result unit) (l : list value) : result unit :=
  match l with
  | [] => Ok tt
  | x :: r => let* _ := f x in each f r
  end.

(** [v.forEach(f)], for an [f] that writes markup only. *)
Definition forEach (what : string) (v : value) (f : value -> result unit) : result unit :=
  match v with
  | Arr l => each f l
  | _ => Throw (not_an_array what "forEach" v)
  end.

Fixpoint find_list (p : value -> result bool) (l : list value) : result value :=
  match l with
  | [] => Ok Undefined
  | x :: r => let* hit := p x in if hit then Ok x else find_list p r
  end.

(** [v.find(p)]. *)
Definition find (what : string) (v : value) (p : value -> result bool) : result value :=
  match v with
  | Arr l => find_list p l
  | _ => Throw (not_an_array what "find" v)
  end.

(** [[a, b] = v] for the two-element array a join yields. *)
Definition pair_of (v : value) : value * value :=
  match v with
  | Arr (a :: b :: _) => (a, b)
  | Arr [a] => (a, Undefined)
  | _ => (Undefined, Undefined)
  end.

(** A value put into a template literal or joined to a text. *)
Definition shown (v : value) : result unit :=
  let* _ := to_string v in Ok tt.

End JS.


(** ** JSON text *)

Module JSON.

Definition code (c : ascii) : Z := Z.of_nat (nat_of_ascii c).
Definition char (n : Z) : ascii := ascii_of_nat (Z.to_nat n).

Definition dquote : ascii := "034"%char.
Definition backslash : ascii := "092"%char.

Definition is_ws (c : ascii) : bool :=
  let n := code c in (n =? 32) || (n =? 9) || (n =? 10) || (n =? 13).

Fixpoint skip_ws (s : string) : string :=
  match s with
  | String c r => if is_ws c then skip_ws r else s
  | EmptyString => s
  end.

Definition digit (c : ascii) : option Z :=
  let n := code c in
  if (48 <=? n) && (n <=? 57) then Some (n - 48) else None.

(** The longest run of digits at the head of [s], read onto [acc]:
    the number, how many digits were read, and the rest. *)
Fixpoint digits (s : string) (acc : Z) (count : nat) : Z * nat * string :=
  match s with
  | String c r =>
      match digit c with
      | Some v => digits r (10 * acc + v) (S count)
      | None => (acc, count, s)
      end
  | EmptyString => (acc, count, s)
  end.

(** m / 10^k without trailing zero decimals. *)
Fixpoint normalise (m : Z) (k : nat) : value :=
  match k with
  | O => Num m 0
  | S k' => if m mod 10 =? 0 then normalise (m / 10) k' else Num m k
  end.

(** The number m * 10^(e - d). *)
Definition make_num (m : Z) (d : nat) (e : Z) : value :=
  let p := e - Z.of_nat d in
  if 0 <=? p then Num (m * 10 ^ p) 0 else normalise m (Z.to_nat (- p)).

Definition fraction (ip : Z) (s : string) : option (Z * nat * string) :=
  match s with
  | String "." r =>
      let '(m, d, rest) := digits r ip 0 in
      if Nat.eqb d 0 then None else Some (m, d, rest)
  | _ => Some (ip, O, s)
  end.

Definition exponent (s : string) : option (Z * string) :=
  match s with
  | String c r =>
      if (code c =? 101) || (code c =? 69) then
        let '(neg, r1) :=
          match r with
          | String "-" r' => (true, r')
          | String "+" r' => (false, r')
          | _ => (false, r)
          end in
        let '(e, n, rest) := digits r1 0 0 in
        if Nat.eqb n 0 then None else Some (if neg then - e else e, rest)
      else Some (0, s)
  | EmptyString => Some (0, s)
  end.

(** number = [-] int [frac] [exp], where int has no leading zero. *)
Definition parse_number (s : string) : option (value * string) :=
  let '(neg, s1) :=
    match s with
    | String "-" r => (true, r)
    | _ => (false, s)
    end in
  match s1 with
  | String c r =>
      match digit c with
      | None => None
      | Some v0 =>
          let '(ip, _, s2) := if v0 =? 0 then (0, 1%nat, r) else digits s1 0 0 in
          match fraction ip s2 with
          | None => None
          | Some (m, d, s3) =>
              match exponent s3 with
              | None => None
              | Some (e, s4) => Some (make_num (if neg then - m else m) d e, s4)
              end
          end
      end
  | EmptyString => None
  end.

Definition hex (c : ascii) : option Z :=
  let n := code c in
  if (48 <=? n) && (n <=? 57) then Some (n - 48)
  else if (97 <=? n) && (n <=? 102) then Some (n - 87)
  else if (65 <=? n) && (n <=? 70) then Some (n - 55)
  else None.

Definition hex4 (s : string) : option (Z * string) :=
  match s with
  | String a (String b (String c (String d r))) =>
      match hex a, hex b, hex c, hex d with
      | Some x, Some y, Some z, Some w => Some (((x * 16 + y) * 16 + z) * 16 + w, r)
      | _, _, _, _ => None
      end
  | _ => None
  end.

(** The UTF-8 bytes of a code point, first byte last (for an accumulator
    that is read backwards). *)
Definition utf8_rev (cp : Z) : list ascii :=
  if cp <? 128 then [char cp]
  else if cp <? 2048 then [char (128 + cp mod 64); char (192 + cp / 64)]
  else if cp <? 65536 then
    [char (128 + cp mod 64); char (128 + (cp / 64) mod 64); char (224 + cp / 4096)]
  else
    [char (128 + cp mod 64); char (128 + (cp / 64) mod 64);
     char (128 + (cp / 4096) mod 64); char (240 + cp / 262144)].

Definition push_all (cs : list ascii) (acc : string) : string :=
  fold_right String acc cs.

(** A \u escape, after the [u]: one code unit, or a surrogate pair
    written as two escapes. *)
Definition unicode_escape (s : string) : option (Z * string) :=
  match hex4 s with
  | None => None
  | Some (hi, r) =>
      if (55296 <=? hi) && (hi <=? 56319) then
        match r with
        | String b (String u r') =>
            if Ascii.eqb b backslash && Ascii.eqb u "u" then
              match hex4 r' with
              | Some (lo, r'') =>
                  if (56320 <=? lo) && (lo <=? 57343)
                  then Some (65536 + (hi - 55296) * 1024 + (lo - 56320), r'')
                  else Some (hi, r)
              | None => Some (hi, r)
              end
            else Some (hi, r)
        | _ => Some (hi, r)
        end
      else Some (hi, r)
  end.

(** The characters of a string literal after its opening quote; [acc]
    holds what was read, backwards. *)
Fixpoint parse_string (fuel : nat) (s acc : string) : option (string * string) :=
  match fuel with
  | O => None
  | S fuel' =>
      match s with
      | EmptyString => None
      | String c r =>
          if Ascii.eqb c dquote then Some (JS.rev acc, r)
          else if Ascii.eqb c backslash then
            match r with
            | EmptyString => None
            | String e r' =>
                let n := code e in
                if (n =? 34) || (n =? 92) || (n =? 47) then parse_string fuel' r' (String e acc)
                else if n =? 98 then parse_string fuel' r' (String (char 8) acc)
                else if n =? 102 then parse_string fuel' r' (String (char 12) acc)
                else if n =? 110 then parse_string fuel' r' (String (char 10) acc)
                else if n =? 114 then parse_string fuel' r' (String (char 13) acc)
                else if n =? 116 then parse_string fuel' r' (String (char 9) acc)
                else if n =? 117 then
                  match unicode_escape r' with
                  | Some (cp, r'') => parse_string fuel' r'' (push_all (utf8_rev cp) acc)
                  | None => None
                  end
                else None
            end
          else if code c <? 32 then None
          else parse_string fuel' r (String c acc)
      end
  end.

(** The keys that are array indices: canonical decimal numbers below
    2^32 - 1.  An object lists them first, in ascending order. *)
Definition index_of (k : string) : option Z :=
  match k with
  | EmptyString => None
  | String c r =>
      if code c =? 48 then (if String.eqb r "" then Some 0 else None)
      else
        let '(v, _, rest) := digits k 0 0 in
        if String.eqb rest "" && (v <=? 4294967294) then Some v else None
  end.

Fixpoint obj_replace (k : string) (v : value) (fs : list (string * value)) :=
  match fs with
  | [] => []
  | (k', v') :: r =>
      if String.eqb k k' then (k', v) :: r else (k', v') :: obj_replace k v r
  end.

Fixpoint obj_insert_index (i : Z) (k : string) (v : value) (fs : list (string * value)) :=
  match fs with
  | [] => [(k, v)]
  | (k', v') :: r =>
      match index_of k' with
      | Some j => if j <? i then (k', v') :: obj_insert_index i k v r
                  else (k, v) :: fs
      | None => (k, v) :: fs
      end
  end.

(** Defining the property [k] of an object. *)
Definition obj_set (k : string) (v : value) (fs : list (string * value)) :=
  match JS.assoc k fs with
  | Some _ => obj_replace k v fs
  | None =>
      match index_of k with
      | Some i => obj_insert_index i k v fs
      | None => fs ++ [(k, v)]
      end
  end.

Definition literal (word : string) (v : value) (s : string) : option (value * string) :=
  if String.eqb (JS.take (String.length word) s) word
  then Some (v, JS.drop (String.length word) s) else None.

Fixpoint parse_value (fuel : nat) (s : string) : option (value * string) :=
  match fuel with
  | O => None
  | S fuel' =>
      match skip_ws s with
      | EmptyString => None
      | String c r =>
          let n := code c in
          if n =? 123 then
            match skip_ws r with
            | String "}" r' => Some (Obj [], r')
            | r' => parse_members fuel' r' []
            end
          else if n =? 91 then
            match skip_ws r with
            | String "]" r' => Some (Arr [], r')
            | r' => parse_elements fuel' r' []
            end
          else if n =? 34 then
            match parse_string (String.length r) r "" with
            | Some (str, r') => Some (Str str, r')
            | None => None
            end
          else if n =? 116 then literal "true" (Bool true) (String c r)
          else if n =? 102 then literal "false" (Bool false) (String c r)
          else if n =? 110 then literal "null" Null (String c r)
          else parse_number (String c r)
      end
  end
with parse_elements (fuel : nat) (s : string) (acc : list value) : option (value * string) :=
  match fuel with
  | O => None
  | S fuel' =>
      match parse_value fuel' s with
      | None => None
      | Some (v, r) =>
          match skip_ws r with
          | String "," r' => parse_elements fuel' r' (acc ++ [v])
          | String "]" r' => Some (Arr (acc ++ [v]), r')
          | _ => None
          end
      end
  end
with parse_members (fuel : nat) (s : string) (acc : list (string * value)) : option (value * string) :=
  match fuel with
  | O => None
  | S fuel' =>
      match skip_ws s with
      | String c r =>
          if Ascii.eqb c dquote then
            match parse_string (String.length r) r "" with
            | None => None
            | Some (k, r1) =>
                match skip_ws r1 with
                | String ":" r2 =>
                    match parse_value fuel' r2 with
                    | None => None
                    | Some (v, r3) =>
                        match skip_ws r3 with
                        | String "," r4 => parse_members fuel' r4 (obj_set k v acc)
                        | String "}" r4 => Some (Obj (obj_set k v acc), r4)
                        | _ => None
                        end
                    end
                | _ => None
                end
            end
          else None
      | EmptyString => None
      end
  end.

(** The engine's report of a text that is no JSON; engines add the
    offending token and its position. *)
Definition not_json : exn := JS.SyntaxError "Unexpected token in JSON".

(** [JSON.parse(text)].  Every call of the parser below consumes a
    character before it calls itself, so twice the length of the text
    is fuel enough. *)
Definition parse (text : string) : result value :=
  match parse_value (2 * String.length text + 2) text with
  | Some (v, r) => if String.eqb (skip_ws r) "" then Ok v else Throw not_json
  | None => Throw not_json
  end.

Definition hex_digit (n : Z) : ascii :=
  if n <? 10 then char (48 + n) else char (87 + n).

Definition escape (c : ascii) : string :=
  let n := code c in
  if n =? 34 then String backslash (String dquote "")
  else if n =? 92 then String backslash (String backslash "")
  else if n =? 8 then String backslash "b"
  else if n =? 12 then String backslash "f"
  else if n =? 10 then String backslash "n"
  else if n =? 13 then String backslash "r"
  else if n =? 9 then String backslash "t"
  else if n <? 32 then
    String backslash ("u00" +:+ String (hex_digit (n / 16)) (String (hex_digit (n mod 16)) ""))
  else String c "".

Fixpoint escape_all (s : string) : string :=
  match s with
  | EmptyString => ""
  | String c r => escape c +:+ escape_all r
  end.

Definition quote (s : string) : string :=
  String dquote (escape_all s +:+ String dquote "").

(** The text of a value, [None] where [JSON.stringify] answers
    [undefined]. *)
Fixpoint text_of (v : value) : option string :=
  match v with
  | Undefined => None
  | Null => Some "null"
  | Bool b => Some (if b then "true" else "false")
  | Num m d => Some (JS.number_to_string m d)
  | Str s => Some (quote s)
  | Arr l =>
      Some ("[" +:+ JS.join "," (List.map (fun x => default "null" (text_of x)) l) +:+ "]")
  | Obj fs =>
      Some ("{" +:+
            JS.join ","
              (List.concat
                 (List.map (fun kv => match text_of (snd kv) with
                                      | Some t => [quote (fst kv) +:+ ":" +:+ t]
                                      | None => []
                                      end) fs))
            +:+ "}")
  end.

(** [JSON.stringify(v)]. *)
Definition stringify (v : value) : value :=
  match text_of v with
  | Some t => Str t
  | None => Undefined
  end.

End JSON.

(** JSON texts are written below with an apostrophe where the text has a
    double quote. *)
Fixpoint dq (s : string) : string :=
  match s with
  | EmptyString => ""
  | String c r => String (if Ascii.eqb c "'" then JSON.dquote else c) (dq r)
  end.


(** ** The page: what the scripts read and write *)

(** The argument of [fetch]: the address and the members of the options
    object ([method] is GET where the caller names none). *)
Record request : Type :=
  { url : string;
    method : string;
    headers : list (string * value);
    body : option string }.

Record response : Type :=
  { status : Z;
    statusText : string;
    text : string }.

(** [response.ok]. *)
Definition ok (r : response) : bool := (200 <=? status r) && (status r <=? 299).

(** What becomes of a [fetch]: the promise is rejected (no connection,
    a header that cannot be sent) or fulfilled with a response. *)
Inductive fetch_outcome : Type :=
| Rejected (e : exn)
| Responded (r : response).

(** The fields of [window.api]. *)
Record api_t : Type :=
  { baseURL : string;
    token : value;
    user : value }.

(** The fields of [WorkflowBuilder]. *)
Record builder_t : Type :=
  { currentWorkflow : value;
    currentSteps : value;
    availableServices : value;
    availableConnectors : value }.

(** The fields of [App]. *)
Record app_t : Type :=
  { workflows : value;
    credentials : value;
    executions : value;
    templates : value }.

(** The fields of the form [step-form]. *)
Record step_form_t : Type :=
  { step_service : string;
    step_action : string;
    step_config : string }.

(** The page elements the scripts read back or that show a result. *)
Record dom_t : Type :=
  { workflow_name : string;
    workflow_description : string;
    workflow_trigger : string;
    workflow_status : string;
    step_form : step_form_t;
    step_form_default : step_form_t;   (* what [reset()] restores *)
    step_modal_active : bool;
    total_workflows : string;
    active_workflows : string;
    total_executions : string;
    success_rate : string;
    view : string }.                   (* the view last asked of [showView] *)

Record state : Type :=
  { storage : gmap string string;      (* localStorage *)
    api : api_t;
    builder : builder_t;
    app : app_t;
    dom : dom_t;
    toasts : list (string * string);   (* Utils.showToast(message, type) *)
    console : list (string * exn);     (* console.error(label, error) *)
    issued : list request }.           (* the calls of fetch *)

Definition with_storage (f : gmap string string -> gmap string string) (s : state) : state :=
  {| storage := f (storage s); api := api s; builder := builder s; app := app s;
     dom := dom s; toasts := toasts s; console := console s; issued := issued s |}.

Definition with_api (f : api_t -> api_t) (s : state) : state :=
  {| storage := storage s; api := f (api s); builder := builder s; app := app s;
     dom := dom s; toasts := toasts s; console := console s; issued := issued s |}.

Definition with_builder (f : builder_t -> builder_t) (s : state) : state :=
  {| storage := storage s; api := api s; builder := f (builder s); app := app s;
     dom := dom s; toasts := toasts s; console := console s; issued := issued s |}.

Definition with_app (f : app_t -> app_t) (s : state) : state :=
  {| storage := storage s; api := api s; builder := builder s; app := f (app s);
     dom := dom s; toasts := toasts s; console := console s; issued := issued s |}.

Definition with_dom (f : dom_t -> dom_t) (s : state) : state :=
  {| storage := storage s; api := api s; builder := builder s; app := app s;
     dom := f (dom s); toasts := toasts s; console := console s; issued := issued s |}.

Definition console_error (label : string) (e : exn) (s : state) : state :=
  {| storage := storage s; api := api s; builder := builder s; app := app s;
     dom := dom s; toasts := toasts s; console := console s ++ [(label, e)];
     issued := issued s |}.

Definition issue (q : request) (s : state) : state :=
  {| storage := storage s; api := api s; builder := builder s; app := app s;
     dom := dom s; toasts := toasts s; console := console s;
     issued := issued s ++ [q] |}.

Definition set_token (v : value) (a : api_t) : api_t :=
  {| baseURL := baseURL a; token := v; user := user a |}.
Definition set_user (v : value) (a : api_t) : api_t :=
  {| baseURL := baseURL a; token := token a; user := v |}.

Definition set_currentSteps (v : value) (b : builder_t) : builder_t :=
  {| currentWorkflow := currentWorkflow b; currentSteps := v;
     availableServices := availableServices b;
     availableConnectors := availableConnectors b |}.
Definition set_availableServices (v : value) (b : builder_t) : builder_t :=
  {| currentWorkflow := currentWorkflow b; currentSteps := currentSteps b;
     availableServices := v; availableConnectors := availableConnectors b |}.
Definition set_availableConnectors (v : value) (b : builder_t) : builder_t :=
  {| currentWorkflow := currentWorkflow b; currentSteps := currentSteps b;
     availableServices := availableServices b; availableConnectors := v |}.

Definition set_workflows (v : value) (a : app_t) : app_t :=
  {| workflows := v; credentials := credentials a; executions := executions a;
     templates := templates a |}.
Definition set_credentials (v : value) (a : app_t) : app_t :=
  {| workflows := workflows a; credentials := v; executions := executions a;
     templates := templates a |}.
Definition set_executions (v : value) (a : app_t) : app_t :=
  {| workflows := workflows a; credentials := credentials a; executions := v;
     templates := templates a |}.
Definition set_templates (v : value) (a : app_t) : app_t :=
  {| workflows := workflows a; credentials := credentials a;
     executions := executions a; templates := v |}.

Definition set_step_form (f : step_form_t) (d : dom_t) : dom_t :=
  {| workflow_name := workflow_name d; workflow_description := workflow_description d;
     workflow_trigger := workflow_trigger d; workflow_status := workflow_status d;
     step_form := f; step_form_default := step_form_default d;
     step_modal_active := step_modal_active d;
     total_workflows := total_workflows d; active_workflows := active_workflows d;
     total_executions := total_executions d; success_rate := success_rate d;
     view := view d |}.
Definition set_step_modal_active (b : bool) (d : dom_t) : dom_t :=
  {| workflow_name := workflow_name d; workflow_description := workflow_description d;
     workflow_trigger := workflow_trigger d; workflow_status := workflow_status d;
     step_form := step_form d; step_form_default := step_form_default d;
     step_modal_active := b;
     total_workflows := total_workflows d; active_workflows := active_workflows d;
     total_executions := total_executions d; success_rate := success_rate d;
     view := view d |}.
Definition set_counters (tw aw te sr : string) (d : dom_t) : dom_t :=
  {| workflow_name := workflow_name d; workflow_description := workflow_description d;
     workflow_trigger := workflow_trigger d; workflow_status := workflow_status d;
     step_form := step_form d; step_form_default := step_form_default d;
     step_modal_active := step_modal_active d;
     total_workflows := tw; active_workflows := aw;
     total_executions := te; success_rate := sr;
     view := view d |}.
Definition set_view (v : string) (d : dom_t) : dom_t :=
  {| workflow_name := workflow_name d; workflow_description := workflow_description d;
     workflow_trigger := workflow_trigger d; workflow_status := workflow_status d;
     step_form := step_form d; step_form_default := step_form_default d;
     step_modal_active := step_modal_active d;
     total_workflows := total_workflows d; active_workflows := active_workflows d;
     total_executions := total_executions d; success_rate := success_rate d;
     view := v |}.

(** ** Tasks *)

(** Where a call stands when it hands control back: finished with a
    result; suspended on the request [req] until its outcome arrives; or
    suspended on two requests at once, going on with [first] when the
    outcome of [req1] is the first to arrive and with [second] when that
    of [req2] is.  [detached] lists the calls it started without awaiting
    them, each suspended as well. *)
Inductive step : Type :=
| Finished (r : result value) (s : state) (detached : list step)
| Suspended (s : state) (detached : list step) (req : request)
            (k : fetch_outcome -> state -> step)
| Racing (s : state) (detached : list step) (req1 req2 : request)
         (first second : fetch_outcome -> state -> step).

Definition async : Type := state -> step.

Definition also (bg : list step) (m : step) : step :=
  match m with
  | Finished r s bg' => Finished r s (bg ++ bg')
  | Suspended s bg' q k => Suspended s (bg ++ bg') q k
  | Racing s bg' q1 q2 k1 k2 => Racing s (bg ++ bg') q1 q2 k1 k2
  end.

Definition now (m : step) : state :=
  match m with
  | Finished _ s _ => s
  | Suspended s _ _ _ => s
  | Racing s _ _ _ _ _ => s
  end.

(** What follows a call once it is settled, whichever way. *)
Fixpoint after (m : step) (f : result value -> async) : step :=
  match m with
  | Finished r s bg => also bg (f r s)
  | Suspended s bg q k => Suspended s bg q (fun o s' => after (k o s') f)
  | Racing s bg q1 q2 k1 k2 =>
      Racing s bg q1 q2 (fun o s' => after (k1 o s') f) (fun o s' => after (k2 o s') f)
  end.

(** [const x = await m; k x]. *)
Definition await (m : async) (k : value -> async) : async :=
  fun s => after (m s) (fun r => match r with
                                 | Ok v => k v
                                 | Throw e => fun s' => Finished (Throw e) s' []
                                 end).

(** [try { m } catch (error) { h error }]. *)
Definition try_catch (m : async) (h : exn -> async) : async :=
  fun s => after (m s) (fun r => match r with
                                 | Ok v => fun s' => Finished (Ok v) s' []
                                 | Throw e => h e
                                 end).

(** The tasks a call leaves behind when it is started and not awaited. *)
Definition pending (m : step) : list step :=
  match m with
  | Finished _ _ bg => bg
  | Suspended s bg q k => bg ++ [Suspended s [] q k]
  | Racing s bg q1 q2 k1 k2 => bg ++ [Racing s [] q1 q2 k1 k2]
  end.

(** A call of an async function as a statement of its own: it runs up to
    its first suspension, the caller goes on, and the promise is dropped. *)
Definition detach (m : async) : async :=
  fun s => Finished (Ok Undefined) (now (m s)) (pending (m s)).

Definition ret (v : value) : async := fun s => Finished (Ok v) s [].
Definition throw (e : exn) : async := fun s => Finished (Throw e) s [].
Definition modify (f : state -> state) : async := fun s => Finished (Ok Undefined) (f s) [].

(** A value that is computed without the state, or the exception thrown
    on the way. *)
Definition eval {A : Type} (r : result A) (k : A -> async) : async :=
  match r with
  | Ok a => k a
  | Throw e => throw e
  end.

Notation "'let!' x ':=' m 'in' k" := (await m (fun x => k))
  (at level 10, x name, m at level 100, k at level 200).
Notation "'let?' x ':=' r 'in' k" := (eval r (fun x => k))
  (at level 10, x name, r at level 100, k at level 200).
Notation "m ';;' k" := (await m (fun _ => k))
  (at level 100, k at level 200, right associativity).

(** One side of a join has settled with [r] while the other side, which
    waits for [q] to go on with [k], has not: a failure ends the join at
    once and leaves the other side to settle on its own; a value waits
    for the other side.  [pair] puts the two values in the order of the
    calls. *)
Definition join_rest (pair : value -> value -> value) (q : request)
           (k : fetch_outcome -> state -> step) (r : result value) : async :=
  fun s1 =>
    match r with
    | Throw e => Finished (Throw e) s1 [Suspended s1 [] q k]
    | Ok v =>
        after (Suspended s1 [] q k)
          (fun r' s2 =>
             match r' with
             | Throw e => Finished (Throw e) s2 []
             | Ok v' => Finished (Ok (pair v v')) s2 []
             end)
    end.

Definition at_state (s : state) (m : step) : step :=
  match m with
  | Finished r _ bg => Finished r s bg
  | Suspended _ bg q k => Suspended s bg q k
  | Racing _ bg q1 q2 k1 k2 => Racing s bg q1 q2 k1 k2
  end.

(** [Promise.all([a, b])].  Both calls are started, [a] first.  Two calls
    that are suspended on one request each, as every call of the API
    client is, are joined on whichever outcome arrives first.  (Calls of
    another shape are taken in turn, [a] before [b].) *)
Definition Promise_all2 (a b : async) : async :=
  fun s =>
    let ma := a s in
    let mb := b (now ma) in
    match ma, mb with
    | Suspended _ bga qa ka, Suspended sb bgb qb kb =>
        Racing sb (bga ++ bgb) qa qb
          (fun o s' =>
             after (ka o s') (join_rest (fun va vb => Arr [va; vb]) qb kb))
          (fun o s' =>
             after (kb o s') (join_rest (fun vb va => Arr [va; vb]) qa ka))
    | _, _ =>
        after (at_state (now mb) ma)
          (fun ra s1 =>
             match ra with
             | Throw e => Finished (Throw e) s1 (pending (at_state s1 mb))
             | Ok va =>
                 after (at_state s1 mb)
                   (fun rb s2 =>
                      match rb with
                      | Throw e => Finished (Throw e) s2 []
                      | Ok vb => Finished (Ok (Arr [va; vb])) s2 []
                      end)
             end)
    end.

(** The outcomes [os] delivered in turn to a task that nothing else
    interleaves with; where the task waits for two requests, the outcome
    is that of the request made first. *)
Fixpoint run (os : list fetch_outcome) (m : step) : step :=
  match os, m with
  | o :: os', Suspended s bg q k => also bg (run os' (k o s))
  | o :: os', Racing s bg q1 q2 k1 k2 => also bg (run os' (k1 o s))
  | _, _ => m
  end.

(** The same where the order of arrival is given: each outcome comes with
    the say whether, of two requests waited for, it answers the second. *)
Fixpoint run_arrivals (os : list (bool * fetch_outcome)) (m : step) : step :=
  match os, m with
  | (_, o) :: os', Suspended s bg q k => also bg (run_arrivals os' (k o s))
  | (second, o) :: os', Racing s bg q1 q2 k1 k2 =>
      also bg (run_arrivals os' ((if second : bool then k2 else k1) o s))
  | _, _ => m
  end.

(** ** api.js: the API client *)

(** The options the callers of [request] pass: a method and a body, or
    neither. *)
Record options_t : Type :=
  { opt_method : option string;
    opt_body : option string }.

Definition no_options : options_t := {| opt_method := None; opt_body := None |}.

(** [{ method: m, body: JSON.stringify(v) }]. *)
Definition with_json (m : string) (v : value) : options_t :=
  {| opt_method := Some m;
     opt_body := match JSON.stringify v with Str t => Some t | _ => None end |}.

Module URLSearchParams.

Definition plain (c : ascii) : bool :=
  let n := JSON.code c in
  ((48 <=? n) && (n <=? 57)) || ((65 <=? n) && (n <=? 90)) || ((97 <=? n) && (n <=? 122))
  || (n =? 42) || (n =? 45) || (n =? 46) || (n =? 95).

Definition upper_hex (n : Z) : ascii :=
  if n <? 10 then JSON.char (48 + n) else JSON.char (55 + n).

(** The application/x-www-form-urlencoded form of a text. *)
Fixpoint encode (s : string) : string :=
  match s with
  | EmptyString => ""
  | String c r =>
      (if plain c then String c ""
       else if JSON.code c =? 32 then "+"
       else String "%" (String (upper_hex (JSON.code c / 16))
                          (String (upper_hex (JSON.code c mod 16)) "")))
      +:+ encode r
  end.

(** [params.toString()]. *)
Definition toString (params : list (string * string)) : string :=
  JS.join "&" (List.map (fun kv => encode (fst kv) +:+ "=" +:+ encode (snd kv)) params).

End URLSearchParams.

Module APIClient.

(** [localStorage.getItem(k)]. *)
Definition getItem (k : string) (st : gmap string string) : value :=
  match st !! k with
  | Some v => Str v
  | None => Null
  end.

(** [new APIClient()], on the page served from [origin] with [st] in
    local storage. *)
Definition constructor (origin : string) (st : gmap string string) : result api_t :=
  let tok := getItem "auth_token" st in
  let* t := JS.to_string (JS.or (getItem "user" st) (Str "null")) in
  let* usr := JSON.parse t in
  Ok {| baseURL := origin; token := tok; user := usr |}.

(** The body of the [try] of [request] from the moment the outcome of
    [fetch] is known.  Reading the body of the response is a second
    [await] in the source; nothing of the state is read or written
    between the two, and they are one here. *)
Definition answer (o : fetch_outcome) : result value :=
  match o with
  | Rejected e => Throw e
  | Responded r =>
      if negb (ok r) then
        let error := match JSON.parse (text r) with
                     | Ok v => v
                     | Throw _ => Obj [("detail", Str (statusText r))]
                     end in
        let* detail := JS.get error "detail" in
        let* cause := if JS.truthy detail then Ok detail
                      else let* message := JS.get error "message" in
                           Ok (JS.or message (Str "Request failed")) in
        let* message := JS.to_string cause in
        Throw (JS.Error message)
      else JSON.parse (text r)
  end.

(** The argument [request] hands to [fetch]. *)
Definition build (endpoint : string) (options : options_t) (s : state) : request :=
  {| url := baseURL (api s) +:+ endpoint;
     method := default "GET" (opt_method options);
     headers := ("Content-Type", Str "application/json")
                :: (if JS.truthy (token (api s))
                    then [("X-API-Key", token (api s))] else []);
     body := opt_body options |}.

Definition request (endpoint : string) (options : options_t) : async :=
  fun s =>
    let q := build endpoint options s in
    Suspended (issue q s) [] q
      (fun o s' =>
         match answer o with
         | Ok v => Finished (Ok v) s' []
         | Throw e => Finished (Throw e) (console_error "API Request failed:" e s') []
         end).

Definition setAuth (tok usr : value) : async :=
  modify (with_api (set_token tok)) ;;
  modify (with_api (set_user usr)) ;;
  (let? t := JS.to_string tok in
   modify (with_storage (insert "auth_token" t))) ;;
  (let? u := JS.to_string (JSON.stringify usr) in
   modify (with_storage (insert "user" u))).

Definition signup (name email : string) (organization : value) (password : string) : async :=
  let! data := request "/auth/signup"
                 (with_json "POST" (Obj [("name", Str name); ("email", Str email);
                                          ("organization", organization);
                                          ("password", Str password)])) in
  let? key := JS.get data "api_key" in
  if JS.truthy key
  then (let? usr := JS.get data "user" in setAuth key usr) ;; ret data
  else ret data.

Definition login (email password : string) : async :=
  let! data := request "/auth/login"
                 (with_json "POST" (Obj [("email", Str email);
                                          ("password", Str password)])) in
  let? key := JS.get data "api_key" in
  if JS.truthy key
  then (let? usr := JS.get data "user" in setAuth key usr) ;; ret data
  else ret data.

Definition logout (s : state) : state :=
  with_storage (delete "user")
    (with_storage (delete "auth_token")
       (with_api (set_user Null) (with_api (set_token Null) s))).

Definition isAuthenticated (s : state) : bool := JS.truthy (token (api s)).

Definition getWorkflows : async := request "/workflows" no_options.

Definition getWorkflow (id : value) : async :=
  let? i := JS.to_string id in request ("/workflows/" +:+ i) no_options.

Definition createWorkflow (workflow : value) : async :=
  request "/workflows" (with_json "POST" workflow).

Definition updateWorkflow (id workflow : value) : async :=
  let? i := JS.to_string id in
  request ("/workflows/" +:+ i) (with_json "PUT" workflow).

Definition deleteWorkflow (id : value) : async :=
  let? i := JS.to_string id in
  request ("/workflows/" +:+ i) {| opt_method := Some "DELETE"; opt_body := None |}.

Definition executeWorkflow (id triggerData : value) : async :=
  let? i := JS.to_string id in
  request ("/workflows/" +:+ i +:+ "/execute")
    (with_json "POST" (Obj [("trigger_data", triggerData)])).

Definition getCredentials (service : value) : async :=
  let? query := if JS.truthy service
                then (let* t := JS.to_string service in Ok ("?service=" +:+ t))
                else Ok "" in
  request ("/credentials" +:+ query) no_options.

Definition deleteCredential (id : value) : async :=
  let? i := JS.to_string id in
  request ("/credentials/" +:+ i) {| opt_method := Some "DELETE"; opt_body := None |}.

Definition getServices (category search : value) : async :=
  let? c := if JS.truthy category
            then (let* t := JS.to_string category in Ok [("category", t)]) else Ok [] in
  let? f := if JS.truthy search
            then (let* t := JS.to_string search in Ok [("search", t)]) else Ok [] in
  let params := URLSearchParams.toString (c ++ f) in
  request ("/services" +:+ (if String.eqb params "" then "" else "?" +:+ params)) no_options.

Definition getConnectors : async := request "/api/connectors" no_options.

Definition getTemplates (category : value) : async :=
  let? query := if JS.truthy category
                then (let* t := JS.to_string category in Ok ("?category=" +:+ t))
                else Ok "" in
  request ("/templates" +:+ query) no_options.

Definition getRuns (workflowId : value) (limit : Z) : async :=
  let? w := if JS.truthy workflowId
            then (let* t := JS.to_string workflowId in Ok [("workflow_id", t)]) else Ok [] in
  request ("/runs?" +:+ URLSearchParams.toString
                          (("limit", JS.number_to_string limit 0) :: w)) no_options.

Definition createCredential (credential : value) : async :=
  request "/credentials" (with_json "POST" credential).

End APIClient.

(** ** auth.js: utilities *)

Module Utils.

Definition showToast (message type : string) (s : state) : state :=
  {| storage := storage s; api := api s; builder := builder s; app := app s;
     dom := dom s; toasts := toasts s ++ [(message, type)]; console := console s;
     issued := issued s |}.

(** [formatDate(dateString)] writes a text; what the model keeps is
    whether building the [Date] throws. *)
Definition formatDate (dateString : value) : result unit :=
  if JS.truthy dateString then JS.shown dateString else Ok tt.

End Utils.

(** A check that reads the state and may throw. *)
Definition check (f : state -> result unit) : async :=
  fun s => match f s with
           | Ok _ => Finished (Ok Undefined) s []
           | Throw e => Finished (Throw e) s []
           end.

(** ** api.js: the application *)

Module App.

(** [Math.round(x)]: the integer nearest to x, a tie going up.  The
    answer is [None] for NaN and the infinities. *)
Definition Math_round (x : float) : option Z :=
  match Prim2SF x with
  | S754_zero _ => Some 0
  | S754_finite sign m e =>
      let v := if sign then Z.neg m else Z.pos m in
      Some (if 0 <=? e then v * 2 ^ e else (2 * v + 2 ^ (- e)) / 2 ^ (- e + 1))
  | S754_infinity _ | S754_nan => None
  end.

Definition number (z : Z) : float := PrimFloat.of_uint63 (Uint63.of_Z z).

(** [length > 0 ? Math.round((successfulRuns / length) * 100) : 0]. *)
Definition successRate (successfulRuns total : Z) : option Z :=
  if 0 <? total
  then Math_round (PrimFloat.mul (PrimFloat.div (number successfulRuns) (number total))
                     (number 100))
  else Some 0.

(** [successRate + '%']. *)
Definition percent (rate : option Z) : string :=
  match rate with
  | Some z => JS.number_to_string z 0 +:+ "%"
  | None => "NaN%"
  end.

Definition has_status (wanted : string) (x : value) : result bool :=
  let* st := JS.get x "status" in Ok (JS.strict_eq st (Str wanted)).

(** [v?.length || 0]. *)
Definition count_of (v : value) : value :=
  JS.or (JS.get_opt v "length") (JS.int 0).

(** The reads and conversions of [renderWorkflowCard], in their order. *)
Definition renderWorkflowCard (workflow : value) : result unit :=
  let* st := JS.get workflow "status" in
  let* _ := JS.shown st in
  let* steps := JS.get workflow "steps" in
  let stepsCount := count_of steps in
  let* name := JS.get workflow "name" in
  let* _ := JS.shown name in
  let* description := JS.get workflow "description" in
  let* _ := JS.shown (JS.or description (Str "No description")) in
  let* _ := JS.shown st in
  let* _ := JS.shown stepsCount in
  let* created := JS.get workflow "created_at" in
  let* _ := Utils.formatDate created in
  let* id := JS.get workflow "id" in
  JS.shown id.

Definition is_empty (what : value) : result bool :=
  let* n := JS.get what "length" in Ok (JS.strict_eq n (JS.int 0)).

Definition renderRecentWorkflows (s : state) : result unit :=
  let* none := is_empty (workflows (app s)) in
  if none then Ok tt
  else match workflows (app s) with
       | Arr l => JS.each renderWorkflowCard (List.firstn 5 l)
       | Str _ => Throw (JS.TypeError "recentWorkflows.forEach is not a function")
       | v => Throw (JS.not_an_array "this.workflows" "slice" v)
       end.

Definition renderWorkflows (s : state) : result unit :=
  let* none := is_empty (workflows (app s)) in
  if none then Ok tt
  else JS.forEach "this.workflows" (workflows (app s)) renderWorkflowCard.

Definition renderCredentials (s : state) : result unit :=
  let* none := is_empty (credentials (app s)) in
  if none then Ok tt
  else JS.forEach "this.credentials" (credentials (app s))
         (fun credential =>
            let* name := JS.get credential "name" in
            let* _ := JS.shown name in
            let* service := JS.get credential "service" in
            let* _ := JS.shown service in
            let* type := JS.get credential "credential_type" in
            let* _ := JS.shown type in
            let* created := JS.get credential "created_at" in
            let* _ := Utils.formatDate created in
            let* id := JS.get credential "id" in
            JS.shown id).

Definition renderExecutions (s : state) : result unit :=
  let* none := is_empty (executions (app s)) in
  if none then Ok tt
  else JS.forEach "this.executions" (executions (app s))
         (fun execution =>
            let* st := JS.get execution "status" in
            let* _ := JS.shown st in
            let* workflow :=
              JS.find "this.workflows" (workflows (app s))
                (fun w => let* id := JS.get w "id" in
                          let* wid := JS.get execution "workflow_id" in
                          Ok (JS.strict_eq id wid)) in
            let* _ := JS.shown (JS.or (JS.get_opt workflow "name") (Str "Unknown Workflow")) in
            let* started := JS.get execution "started_at" in
            let* _ := Utils.formatDate started in
            let* completed := JS.get execution "completed_at" in
            let* _ := if JS.truthy completed
                      then (let* ms := JS.get execution "duration_ms" in
                            if JS.truthy ms then JS.shown ms else Ok tt)
                      else Ok tt in
            JS.shown st).

Definition renderTemplates (s : state) : result unit :=
  let* none := is_empty (templates (app s)) in
  if none then Ok tt
  else JS.forEach "this.templates" (templates (app s))
         (fun template =>
            let* name := JS.get template "name" in
            let* _ := JS.shown name in
            let* description := JS.get template "description" in
            let* _ := JS.shown (JS.or description (Str "No description")) in
            let* category := JS.get template "category" in
            let* _ := if JS.truthy category then JS.shown category else Ok tt in
            let* steps := JS.get template "steps" in
            let* _ := JS.shown (count_of steps) in
            let* id := JS.get template "id" in
            JS.shown id).

(** The counters of the dashboard, from the two caches. *)
Definition updateStats : async :=
  fun s =>
    (let? active := JS.filter "this.workflows" (workflows (app s)) (has_status "active") in
     let activeWorkflows := Z.of_nat (length active) in
     let? successful := JS.filter "this.executions" (executions (app s)) (has_status "success") in
     let successfulRuns := Z.of_nat (length successful) in
     let? total_e := JS.get (executions (app s)) "length" in
     let? total_w := JS.get (workflows (app s)) "length" in
     let rate := match total_e with
                 | Num n _ => successRate successfulRuns n
                 | _ => Some 0
                 end in
     let? tw := JS.to_string total_w in
     let? te := JS.to_string total_e in
     modify (with_dom (set_counters tw (JS.number_to_string activeWorkflows 0)
                         te (percent rate)))) s.

Definition loadDashboard : async :=
  try_catch
    (let! both := Promise_all2 APIClient.getWorkflows (APIClient.getRuns Null 10) in
     let workflowsData := fst (JS.pair_of both) in
     let runsData := snd (JS.pair_of both) in
     (let? w := JS.get workflowsData "workflows" in
      modify (with_app (set_workflows (JS.or w (Arr []))))) ;;
     (let? r := JS.get runsData "runs" in
      modify (with_app (set_executions (JS.or r (Arr []))))) ;;
     updateStats ;;
     check renderRecentWorkflows)
    (fun error =>
       modify (console_error "Failed to load dashboard:" error) ;;
       modify (Utils.showToast "Failed to load dashboard data" "error")).

Definition loadWorkflows : async :=
  try_catch
    (let! data := APIClient.getWorkflows in
     (let? w := JS.get data "workflows" in
      modify (with_app (set_workflows (JS.or w (Arr []))))) ;;
     check renderWorkflows)
    (fun error =>
       modify (console_error "Failed to load workflows:" error) ;;
       modify (Utils.showToast "Failed to load workflows" "error")).

Definition loadCredentials : async :=
  try_catch
    (let! data := APIClient.getCredentials Null in
     (let? c := JS.get data "credentials" in
      modify (with_app (set_credentials (JS.or c (Arr []))))) ;;
     check renderCredentials)
    (fun error =>
       modify (console_error "Failed to load credentials:" error) ;;
       modify (Utils.showToast "Failed to load credentials" "error")).

Definition loadExecutions : async :=
  try_catch
    (let! data := APIClient.getRuns Null 100 in
     (let? r := JS.get data "runs" in
      modify (with_app (set_executions (JS.or r (Arr []))))) ;;
     check renderExecutions)
    (fun error =>
       modify (console_error "Failed to load executions:" error) ;;
       modify (Utils.showToast "Failed to load executions" "error")).

Definition loadTemplates : async :=
  try_catch
    (let! data := APIClient.getTemplates Null in
     (let? t := JS.get data "templates" in
      modify (with_app (set_templates (JS.or t (Arr []))))) ;;
     check renderTemplates)
    (fun error =>
       modify (console_error "Failed to load templates:" error) ;;
       modify (Utils.showToast "Failed to load templates" "error")).

Definition showView (viewName : string) : async :=
  modify (with_dom (set_view viewName)) ;;
  if String.eqb viewName "dashboard" then detach loadDashboard
  else if String.eqb viewName "workflows" then detach loadWorkflows
  else if String.eqb viewName "credentials" then detach loadCredentials
  else if String.eqb viewName "executions" then detach loadExecutions
  else if String.eqb viewName "templates" then detach loadTemplates
  else ret Undefined.

(** [confirmed] is the answer of [confirm(...)]. *)
Definition deleteWorkflow (confirmed : bool) (id : value) : async :=
  if negb confirmed then ret Undefined
  else
    try_catch
      (APIClient.deleteWorkflow id ;;
       modify (Utils.showToast "Workflow deleted successfully" "success") ;;
       detach loadWorkflows ;;
       detach loadDashboard)
      (fun error =>
         modify (Utils.showToast ("Failed to delete workflow: " +:+ emessage error) "error")).

Definition deleteCredential (confirmed : bool) (id : value) : async :=
  if negb confirmed then ret Undefined
  else
    try_catch
      (APIClient.deleteCredential id ;;
       modify (Utils.showToast "Credential deleted successfully" "success") ;;
       detach loadCredentials)
      (fun error =>
         modify (Utils.showToast ("Failed to delete credential: " +:+ emessage error) "error")).

(** The values of the fields of [credential-form] when [addCredential]
    reads them. *)
Record credential_form_t : Type :=
  { cred_name : string;
    cred_service : string;
    cred_type : string;
    cred_data : string }.

(** [addCredential()].  [hideCredentialModal] closes the dialog and
    resets the form, whose fields are an input of this function. *)
Definition addCredential (form : credential_form_t) : async :=
  let name := JS.trim (cred_name form) in
  let service := JS.trim (cred_service form) in
  let type := cred_type form in
  let dataText := cred_data form in
  if String.eqb name "" || String.eqb service "" || String.eqb type "" then
    modify (Utils.showToast "Please fill all required fields" "error")
  else
    match JSON.parse dataText with
    | Throw _ => modify (Utils.showToast "Invalid JSON data" "error")
    | Ok data =>
        try_catch
          (APIClient.createCredential
             (Obj [("name", Str name); ("service", Str service);
                   ("credential_type", Str type); ("data", data)]) ;;
           modify (Utils.showToast "Credential added successfully" "success") ;;
           detach loadCredentials)
          (fun error =>
             modify (Utils.showToast ("Failed to add credential: " +:+ emessage error) "error"))
    end.

End App.

(** ** api.js: the workflow builder *)

Module WorkflowBuilder.

(** The reads and conversions of [populateServiceDropdown]. *)
Definition populateServiceDropdown (s : state) : result unit :=
  JS.forEach "this.availableConnectors" (availableConnectors (builder s))
    (fun connector =>
       let* name := JS.get connector "name" in
       let* _ := JS.shown name in
       let* display := JS.get connector "display_name" in
       match JS.or display name with
       | Null => Ok tt
       | shown => JS.shown shown
       end).

(** [init()] up to the registration of the event listeners, which is
    the wiring of the page to the functions below. *)
Definition init : async :=
  try_catch
    (let! both := Promise_all2 (APIClient.getServices Null Null) APIClient.getConnectors in
     let servicesData := fst (JS.pair_of both) in
     let connectorsData := snd (JS.pair_of both) in
     (let? sv := JS.get servicesData "services" in
      modify (with_builder (set_availableServices (JS.or sv (Arr []))))) ;;
     (let? cn := JS.get connectorsData "connectors" in
      modify (with_builder (set_availableConnectors (JS.or cn (Arr []))))) ;;
     check populateServiceDropdown)
    (fun error => modify (console_error "Failed to load services:" error)).

Definition hideStepModal (s : state) : state :=
  with_dom (set_step_form (step_form_default (dom s)))
    (with_dom (set_step_modal_active false) s).

(** The reads and conversions of [renderSteps]. *)
Definition renderSteps (s : state) : result unit :=
  let* none := App.is_empty (currentSteps (builder s)) in
  if none then Ok tt
  else JS.forEach "this.currentSteps" (currentSteps (builder s))
         (fun step =>
            let* service := JS.get step "service" in
            let* _ := JS.shown service in
            let* action := JS.get step "action" in
            let* _ := JS.shown action in
            let* config := JS.get step "config" in
            let* id := JS.get step "id" in
            JS.shown id).

(** [this.currentSteps.push(step)]. *)
Definition push (step : value) : async :=
  fun s => match currentSteps (builder s) with
           | Arr l => modify (with_builder (set_currentSteps (Arr (l ++ [step])))) s
           | v => throw (JS.not_an_array "this.currentSteps" "push" v) s
           end.

(** [`step_${Date.now()}`] *)
Definition step_id (clock : Z) : string := "step_" +:+ JS.number_to_string clock 0.

(** [addStep()]; [clock] is the reading of [Date.now()]. *)
Definition addStep (clock : Z) : async :=
  fun s =>
    let service := step_service (step_form (dom s)) in
    let action := step_action (step_form (dom s)) in
    let configText := step_config (step_form (dom s)) in
    if String.eqb service "" || String.eqb action "" then
      modify (Utils.showToast "Please select service and action" "error") s
    else
      match JSON.parse configText with
      | Throw _ => modify (Utils.showToast "Invalid JSON configuration" "error") s
      | Ok config =>
          let step := Obj [("id", Str (step_id clock)); ("service", Str service);
                           ("action", Str action); ("config", config)] in
          (push step ;;
           check renderSteps ;;
           modify hideStepModal) s
      end.

Definition removeStep (stepId : value) : async :=
  fun s =>
    (let? kept := JS.filter "this.currentSteps" (currentSteps (builder s))
                    (fun x => let* id := JS.get x "id" in
                              Ok (negb (JS.strict_eq id stepId))) in
     modify (with_builder (set_currentSteps (Arr kept))) ;;
     check renderSteps) s.

Definition saveWorkflow (andRun : bool) : async :=
  fun s =>
    let name := JS.trim (workflow_name (dom s)) in
    let description := JS.trim (workflow_description (dom s)) in
    let triggerType := workflow_trigger (dom s) in
    let status := workflow_status (dom s) in
    if String.eqb name "" then
      modify (Utils.showToast "Please enter a workflow name" "error") s
    else
      (let? none := App.is_empty (currentSteps (builder s)) in
       if none : bool then
         modify (Utils.showToast "Please add at least one step" "error")
       else
         let workflow := Obj [("name", Str name); ("description", Str description);
                              ("trigger", Obj [("type", Str triggerType)]);
                              ("steps", currentSteps (builder s));
                              ("status", Str status)] in
         try_catch
           (let! result :=
              (if JS.truthy (currentWorkflow (builder s)) then
                 let! result :=
                   (let? id := JS.get (currentWorkflow (builder s)) "id" in
                    APIClient.updateWorkflow id workflow) in
                 modify (Utils.showToast "Workflow updated successfully" "success") ;;
                 ret result
               else
                 let! result := APIClient.createWorkflow workflow in
                 modify (Utils.showToast "Workflow created successfully" "success") ;;
                 ret result) in
            (if andRun then
               let? saved := JS.get result "workflow" in
               if JS.truthy saved then
                 (let? id := JS.get saved "id" in
                  APIClient.executeWorkflow id (Obj [])) ;;
                 modify (Utils.showToast "Workflow execution started" "success")
               else ret Undefined
             else ret Undefined) ;;
            detach App.loadWorkflows ;;
            App.showView "workflows")
           (fun error =>
              modify (Utils.showToast ("Failed to save workflow: " +:+ emessage error) "error"))) s.

Fixpoint collect {A : Type} (f : value -> result A) (l : list value) : result (list A) :=
  match l with
  | [] => Ok []
  | x :: r => let* y := f x in let* ys := collect f r in Ok (y :: ys)
  end.

(** The text an element shows for [textContent = v]. *)
Definition textContent (v : value) : result string :=
  match v with
  | Null | Undefined => Ok ""
  | _ => JS.to_string v
  end.

(** [updateActionDropdown(service)]: the options it puts into the select
    [step-action] after the placeholder, each with its value and its
    text. *)
Definition updateActionDropdown (service : string) (s : state) : result (list (string * string)) :=
  let* connector :=
    JS.find "this.availableConnectors" (availableConnectors (builder s))
      (fun c => let* name := JS.get c "name" in Ok (JS.strict_eq name (Str service))) in
  if JS.truthy connector then
    let* actions := JS.get connector "actions" in
    if JS.truthy actions then
      match actions with
      | Arr l =>
          collect (fun action =>
                     let* name := JS.get action "name" in
                     let* v := JS.to_string name in
                     let* display := JS.get action "display_name" in
                     let* t := textContent (JS.or display name) in
                     Ok (v, t)) l
      | other => Throw (JS.not_an_array "connector.actions" "forEach" other)
      end
    else Ok []
  else Ok [].

End WorkflowBuilder.

(** ** auth.js: authentication *)

Module Auth.

(** The reads and conversions of [showApp] for the user shown in the
    sidebar. *)
Definition userInfo (s : state) : result unit :=
  if JS.truthy (user (api s)) then
    let* name := JS.get (user (api s)) "name" in
    let* _ := JS.shown (JS.or name (Str "User")) in
    let* email := JS.get (user (api s)) "email" in
    JS.shown (JS.or email (Str ""))
  else Ok tt.

(** [showApp()]; which of the two containers is displayed is
    presentation. *)
Definition showApp : async :=
  check userInfo ;;
  detach App.loadDashboard.

(** [init()] up to the registration of the event listeners; [showAuth]
    only switches the containers. *)
Definition init : async :=
  fun s => if APIClient.isAuthenticated s then showApp s else ret Undefined s.

(** [handleLogin()] with the values of the two fields of the form. *)
Definition handleLogin (email password : string) : async :=
  try_catch
    (APIClient.login email password ;;
     modify (Utils.showToast "Login successful!" "success") ;;
     showApp)
    (fun error =>
       modify (Utils.showToast
                 (if String.eqb (emessage error) "" then "Login failed" else emessage error)
                 "error")).

(** [handleSignup()] with the values of the four fields of the form; an
    empty organization is sent as [null]. *)
Definition handleSignup (name email organization password : string) : async :=
  try_catch
    (APIClient.signup name email
       (if String.eqb organization "" then Null else Str organization) password ;;
     modify (Utils.showToast "Account created successfully!" "success") ;;
     showApp)
    (fun error =>
       modify (Utils.showToast
                 (if String.eqb (emessage error) "" then "Signup failed" else emessage error)
                 "error")).


End Auth.

(** ** The page load *)

(** The state once the scripts have run on the page [page], served from
    [origin] with [st] in local storage: [window.api] is constructed, the
    fields of [WorkflowBuilder] and of [App] are those of the two object
    literals. *)
Definition loaded (origin : string) (st : gmap string string) (page : dom_t) : result state :=
  let* client := APIClient.constructor origin st in
  Ok {| storage := st; api := client;
        builder := {| currentWorkflow := Null; currentSteps := Arr [];
                      availableServices := Arr []; availableConnectors := Arr [] |};
        app := {| workflows := Arr []; credentials := Arr []; executions := Arr [];
                  templates := Arr [] |};
        dom := page; toasts := []; console := []; issued := [] |}.

(** [App.init()], run when the document is ready, up to the registration
    of the event listeners. *)
Definition App_init : async :=
  Auth.init ;;
  detach WorkflowBuilder.init.



(** ** Notions the properties are stated with *)

(** The list caches: the four lists of [App] and the catalog held by
    the builder. *)
Definition caches (s : state) : app_t * value * value :=
  (app s, availableServices (builder s), availableConnectors (builder s)).

(** The call [api.get...()] behind an outcome fails: [request] throws. *)
Definition fails (o : fetch_outcome) : Prop :=
  exists e, APIClient.answer o = Throw e.

(** A detached task that waits for one request and, whatever outcome it
    is resumed with and on whatever state, finishes there and leaves the
    caches as they are. *)
Definition idle (t : step) : Prop :=
  match t with
  | Finished _ _ _ => True
  | Suspended _ _ _ k =>
      forall o s', exists r s'', k o s' = Finished r s'' [] /\ caches s'' = caches s'
  | Racing _ _ _ _ _ _ => False
  end.

(** The task [m], found at state [s0], is resumed with the outcomes [os]
    in the order of their arrival, each time on whatever state [s'] the
    page is in by then; where it waits for two requests, the outcome may
    be that of either.  It finishes within [os]; every stretch it runs
    leaves the caches as it found them, and so does every task it
    detaches. *)
Fixpoint settles_unchanged (s0 : state) (os : list fetch_outcome) (m : step) : Prop :=
  match m with
  | Finished _ s bg => caches s = caches s0 /\ Forall idle bg
  | Suspended s bg _ k =>
      caches s = caches s0 /\ Forall idle bg /\
      match os with
      | [] => False
      | o :: os' => forall s', settles_unchanged s' os' (k o s')
      end
  | Racing s bg _ _ k1 k2 =>
      caches s = caches s0 /\ Forall idle bg /\
      match os with
      | [] => False
      | o :: os' =>
          forall s', settles_unchanged s' os' (k1 o s')
                     /\ settles_unchanged s' os' (k2 o s')
      end
  end.

(** The loads of the list caches. *)
Inductive loader : Type :=
| Workflows | Runs | Credentials | Templates | Dashboard | Catalog.

Definition load (l : loader) : async :=
  match l with
  | Workflows => App.loadWorkflows
  | Runs => App.loadExecutions
  | Credentials => App.loadCredentials
  | Templates => App.loadTemplates
  | Dashboard => App.loadDashboard
  | Catalog => WorkflowBuilder.init
  end.

(** How many requests a load joins. *)
Definition constituents (l : loader) : nat :=
  match l with
  | Dashboard | Catalog => 2
  | _ => 1
  end.

(** The ids of the steps of a step list. *)
Definition step_ids (steps : value) : list value :=
  match steps with
  | Arr l => List.map (fun x => JS.get_opt x "id") l
  | _ => []
  end.


(** round(100 * successful / total) on the rationals, a tie going up. *)
Definition exact_rate (successful total : Z) : Z :=
  (200 * successful + total) / (2 * total).

(** An entry of a list that is a record: its properties can be read. *)
Definition is_record (x : value) : Prop := x <> Null /\ x <> Undefined.

Definition status_is (wanted : string) (x : value) : bool :=
  JS.strict_eq (JS.get_opt x "status") (Str wanted).

(** The state [setAuth] leaves. *)
Definition signed_in (tok : string) (usr : value) (t : string) (s : state) : state :=
  with_storage (insert "user" t)
    (with_storage (insert "auth_token" tok)
       (with_api (set_user usr) (with_api (set_token (Str tok)) s))).

(** A call has logged the user in: it hands the reply [data] back, the
    credential and the profile are in the fields of [api] and in local
    storage, and a client constructed anew from that storage holds
    them. *)
Definition logged_in (m : step) (data : value) (tok : string) (usr : value) : Prop :=
  exists s' t,
    m = Finished (Ok data) s' []
    /\ token (api s') = Str tok
    /\ user (api s') = usr
    /\ APIClient.isAuthenticated s' = true
    /\ storage s' !! "auth_token" = Some tok
    /\ storage s' !! "user" = Some t
    /\ JSON.parse t = Ok usr
    /\ forall origin,
         APIClient.constructor origin (storage s')
         = Ok {| baseURL := origin; token := Str tok; user := usr |}.

Definition delete_options : options_t := {| opt_method := Some "DELETE"; opt_body := None |}.

(** The draft as [saveWorkflow] sends it. *)
Definition draft (s : state) : value :=
  Obj [("name", Str (JS.trim (workflow_name (dom s))));
       ("description", Str (JS.trim (workflow_description (dom s))));
       ("trigger", Obj [("type", Str (workflow_trigger (dom s)))]);
       ("steps", currentSteps (builder s));
       ("status", Str (workflow_status (dom s)))].

Definition create_request (s : state) : request :=
  APIClient.build "/workflows" (with_json "POST" (draft s)) s.

(** The counters of the dashboard for the lists [wl] and [rl]. *)
Definition counted (wl rl : list value) (d : dom_t) : dom_t :=
  set_counters (JS.number_to_string (Z.of_nat (length wl)) 0)
    (JS.number_to_string (Z.of_nat (length (List.filter (status_is "active") wl))) 0)
    (JS.number_to_string (Z.of_nat (length rl)) 0)
    (App.percent (App.successRate (Z.of_nat (length (List.filter (status_is "success") rl)))
                    (Z.of_nat (length rl)))) d.

(** The replies to the two requests of the dashboard in the order of
    their arrival. *)
Definition dashboard_arrivals (runs_first : bool) (o1 o2 : fetch_outcome) :=
  if runs_first then [(true, o2); (false, o1)] else [(false, o1); (false, o2)].

(** ** A page to run the scripts on *)

Module Sample.

Definition form : step_form_t :=
  {| step_service := "slack"; step_action := "send_message";
     step_config := dq "{'channel':'#ops'}" |}.

Definition blank : step_form_t :=
  {| step_service := ""; step_action := ""; step_config := "" |}.

Definition page : dom_t :=
  {| workflow_name := "Nightly report"; workflow_description := "";
     workflow_trigger := "manual"; workflow_status := "draft";
     step_form := form; step_form_default := blank;
     step_modal_active := true;
     total_workflows := "0"; active_workflows := "0";
     total_executions := "0"; success_rate := "0%";
     view := "builder" |}.

(** The page after its scripts have loaded, nobody logged in. *)
Definition start : state :=
  {| storage := ∅;
     api := {| baseURL := "https://flowforge.test"; token := Null; user := Null |};
     builder := {| currentWorkflow := Null; currentSteps := Arr [];
                   availableServices := Arr []; availableConnectors := Arr [] |};
     app := {| workflows := Arr []; credentials := Arr []; executions := Arr [];
               templates := Arr [] |};
     dom := page; toasts := []; console := []; issued := [] |}.

(** The user fills the step form in again. *)
Definition fill (f : step_form_t) (s : state) : state :=
  with_dom (set_step_modal_active true) (with_dom (set_step_form f) s).

Definition respond (code : Z) (reason body : string) : fetch_outcome :=
  Responded {| status := code; statusText := reason; text := dq body |}.

Definition run_of (st : string) : value := Obj [("status", Str st)].

(** Ten runs, seven of them successful. *)
Definition ten_runs : list value :=
  [run_of "success"; run_of "success"; run_of "failed"; run_of "success";
   run_of "success"; run_of "running"; run_of "success"; run_of "failed";
   run_of "success"; run_of "success"].

Definition ten_runs_text : string :=
  "{'runs':[{'status':'success'},{'status':'success'},{'status':'failed'},"
  +:+ "{'status':'success'},{'status':'success'},{'status':'running'},"
  +:+ "{'status':'success'},{'status':'failed'},{'status':'success'},"
  +:+ "{'status':'success'}]}".

Definition one_workflow : list value :=
  [Obj [("id", Str "w1"); ("status", Str "active")]].

End Sample.

(** ** Further notions *)

(** A step that [removeStep(stepId)] keeps. *)
Definition other_id (stepId x : value) : bool :=
  negb (JS.strict_eq (JS.get_opt x "id") stepId).

(** The request of a save of the workflow [i] being edited. *)
Definition update_request (i : string) (s : state) : request :=
  APIClient.build ("/workflows/" +:+ i) (with_json "PUT" (draft s)) s.

(** What [saveWorkflow] does once the create call has succeeded and no
    run follows. *)
Definition after_save (s : state) : state :=
  let s1 := Utils.showToast "Workflow created successfully" "success"
              (issue (create_request s) s) in
  now (App.loadWorkflows (with_dom (set_view "workflows") (now (App.loadWorkflows s1)))).

(** What [saveWorkflow] does once the create call and the execute call
    for the workflow [i] have succeeded. *)
Definition after_save_and_run (i : string) (s : state) : state :=
  let s1 := Utils.showToast "Workflow created successfully" "success"
              (issue (create_request s) s) in
  let s2 := Utils.showToast "Workflow execution started" "success"
              (issue (APIClient.build ("/workflows/" +:+ i +:+ "/execute")
                        (with_json "POST" (Obj [("trigger_data", Obj [])])) s1) s1) in
  now (App.loadWorkflows (with_dom (set_view "workflows") (now (App.loadWorkflows s2)))).

(** The method and the address of a request. *)
Definition called (q : request) : string * string := (method q, url q).

(** The credential as [addCredential] sends it. *)
Definition credential_of (form : App.credential_form_t) (data : value) : value :=
  Obj [("name", Str (JS.trim (App.cred_name form))); ("service", Str (JS.trim (App.cred_service form)));
       ("credential_type", Str (App.cred_type form)); ("data", data)].

Definition credential_request (form : App.credential_form_t) (data : value) (s : state) : request :=
  APIClient.build "/credentials" (with_json "POST" (credential_of form data)) s.

(** The request of a login. *)
Definition login_request (email password : string) (s : state) : request :=
  APIClient.build "/auth/login"
    (with_json "POST" (Obj [("email", Str email); ("password", Str password)])) s.

(** A connector named after the service. *)
Definition named (service : string) (c : value) : bool :=
  JS.strict_eq (JS.get_opt c "name") (Str service).

(** The option an action is listed as: its value is the name, its text
    the display name, or the name where it has none. *)
Definition listed_as (action : value) (o : string * string) : Prop :=
  JS.get_opt action "name" = Str (fst o)
  /\ ((JS.truthy (JS.get_opt action "display_name") = true
       /\ JS.get_opt action "display_name" = Str (snd o))
      \/ (JS.truthy (JS.get_opt action "display_name") = false /\ snd o = fst o)).

(** ** Examples *)

Module Example.

(** The server is down. *)
Definition down : fetch_outcome :=
  Sample.respond 503 "Service Unavailable" "{'detail':'down'}".

(** The reply to a login: the key "tok1" and the profile of A. *)
Definition welcome : fetch_outcome :=
  Sample.respond 200 "OK" "{'api_key':'tok1','user':{'id':1,'name':'A'}}".

Definition profile : value := Obj [("id", JS.int 1); ("name", Str "A")].

Definition step_of (id : string) : value :=
  Obj [("id", Str id); ("service", Str "slack"); ("action", Str "send_message");
       ("config", Obj [("channel", Str "#ops")])].

(** The draft of the sample page with one step, then with two. *)
Definition one_step : state := now (WorkflowBuilder.addStep 1 Sample.start).

Definition two_steps : state :=
  now (WorkflowBuilder.addStep 2 (Sample.fill Sample.form one_step)).

(** The store takes the draft as the workflow "w1". *)
Definition saved : fetch_outcome := Sample.respond 200 "OK" "{'workflow':{'id':'w1'}}".

Definition send_message : value :=
  Obj [("name", Str "send_message"); ("display_name", Str "Send message")].

Definition list_channels : value := Obj [("name", Str "list_channels")].

Definition slack : value :=
  Obj [("name", Str "slack"); ("display_name", Str "Slack");
       ("actions", Arr [send_message; list_channels])].

(** The page once the catalog holds the connector of Slack. *)
Definition with_slack : state :=
  with_builder (set_availableConnectors (Arr [slack])) Sample.start.

Definition slack_token : App.credential_form_t :=
  {| App.cred_name := " Slack bot "; App.cred_service := "slack";
     App.cred_type := "api_key"; App.cred_data := dq "{'token':'xoxb'}" |}.

Definition unnamed : App.credential_form_t :=
  {| App.cred_name := "  "; App.cred_service := "slack";
     App.cred_type := "api_key"; App.cred_data := "{}" |}.

End Example.

(** * Properties *)

(** ** The step list of the draft *)

Lemma get_opt_id_fresh clock service action config :
  JS.get_opt (Obj [("id", Str (WorkflowBuilder.step_id clock)); ("service", Str service);
                   ("action", Str action); ("config", config)]) "id"
  = Str (WorkflowBuilder.step_id clock).
Proof. reflexivity. Qed.

(** [addStep] on a filled form appends one step, whose id is made of the
    clock reading alone. *)
Lemma addStep_appends clock s l config :
  currentSteps (builder s) = Arr l ->
  step_service (step_form (dom s)) <> "" ->
  step_action (step_form (dom s)) <> "" ->
  JSON.parse (step_config (step_form (dom s))) = Ok config ->
  currentSteps (builder (now (WorkflowBuilder.addStep clock s)))
  = Arr (l ++ [Obj [("id", Str (WorkflowBuilder.step_id clock));
                    ("service", Str (step_service (step_form (dom s))));
                    ("action", Str (step_action (step_form (dom s))));
                    ("config", config)]]).
Proof.
  intros Hl Hs Ha Hc. unfold WorkflowBuilder.addStep.
  apply String.eqb_neq in Hs. apply String.eqb_neq in Ha.
  rewrite Hs, Ha, Hc. cbn [orb].
  unfold await, WorkflowBuilder.push, modify. rewrite Hl. cbn [after also app].
  unfold check.
  match goal with |- context [WorkflowBuilder.renderSteps ?st] =>
    destruct (WorkflowBuilder.renderSteps st) end; reflexivity.
Qed.

Lemma filter_list_app p l x :
  JS.filter_list p (l ++ [x])
  = (let* kept := JS.filter_list p l in
     let* keep := p x in
     Ok (if keep then kept ++ [x] else kept)).
Proof.
  induction l as [|y l IH]; cbn.
  - destruct (p x) as [[]|]; reflexivity.
  - destruct (p y) as [keep|]; cbn; [|reflexivity].
    rewrite IH. destruct (JS.filter_list p l) as [kept|]; cbn; [|reflexivity].
    destruct (p x) as [[]|]; cbn; destruct keep; reflexivity.
Qed.

Lemma filter_list_all p l :
  Forall (fun x => p x = Ok true) l -> JS.filter_list p l = Ok l.
Proof.
  induction 1 as [|x l Hx _ IH]; cbn; [reflexivity|].
  rewrite Hx; cbn. rewrite IH. reflexivity.
Qed.

(** As long as the id of the new step is not yet in the list, removing it
    gives the list back: what [removeStep] keeps is decided by the id
    alone. *)
Lemma addStep_removeStep_fresh clock s l config s1 :
  currentSteps (builder s) = Arr l ->
  step_service (step_form (dom s)) <> "" ->
  step_action (step_form (dom s)) <> "" ->
  JSON.parse (step_config (step_form (dom s))) = Ok config ->
  Forall (fun x => exists id, JS.get x "id" = Ok id
                              /\ JS.strict_eq id (Str (WorkflowBuilder.step_id clock)) = false) l ->
  currentSteps (builder s1) = currentSteps (builder (now (WorkflowBuilder.addStep clock s))) ->
  currentSteps
    (builder (now (WorkflowBuilder.removeStep (Str (WorkflowBuilder.step_id clock)) s1)))
  = Arr l.
Proof.
  intros Hl Hs Ha Hc Hfresh Hs1.
  rewrite (addStep_appends clock s l config Hl Hs Ha Hc) in Hs1.
  unfold WorkflowBuilder.removeStep, eval. rewrite Hs1. unfold JS.filter.
  rewrite filter_list_app.
  rewrite filter_list_all.
  2:{ eapply List.Forall_impl; [|exact Hfresh]. cbn. intros x (id & Hid & Hne).
      rewrite Hid. cbn. rewrite Hne. reflexivity. }
  cbn [rbind JS.get JS.assoc String.eqb Ascii.eqb Bool.eqb default].
  cbn. rewrite String.eqb_refl. cbn.
  unfold await, modify. cbn [after also app]. unfold check.
  match goal with |- context [WorkflowBuilder.renderSteps ?st] =>
    destruct (WorkflowBuilder.renderSteps st) end; reflexivity.
Qed.

Lemma step_ids_app l x : step_ids (Arr (l ++ [x])) = step_ids (Arr l) ++ [JS.get_opt x "id"].
Proof. cbn. apply List.map_app. Qed.

Lemma not_NoDup_repeat {A : Type} (l : list A) (x : A) : In x l -> ~ List.NoDup (l ++ [x]).
Proof.
  intros Hin Hnd. apply List.NoDup_remove_2 in Hnd.
  apply Hnd. rewrite List.app_nil_r. exact Hin.
Qed.

(** C1.  The ids of the steps of a draft are meant to be pairwise
    distinct at every insertion.  The id [addStep] gives a step is the
    reading of the clock and nothing else: a step added in the instant in
    which a step of the list was added gets the id of that step, and the
    ids of the list are no longer distinct. *)
Theorem addStep_same_instant_repeats_id clock s l config :
  currentSteps (builder s) = Arr l ->
  In (Str (WorkflowBuilder.step_id clock)) (step_ids (Arr l)) ->
  step_service (step_form (dom s)) <> "" ->
  step_action (step_form (dom s)) <> "" ->
  JSON.parse (step_config (step_form (dom s))) = Ok config ->
  ~ List.NoDup (step_ids (currentSteps (builder (now (WorkflowBuilder.addStep clock s))))).
Proof.
  intros Hl Hin Hs Ha Hc.
  rewrite (addStep_appends clock s l config Hl Hs Ha Hc), step_ids_app.
  rewrite get_opt_id_fresh. apply not_NoDup_repeat, Hin.
Qed.

(** Two steps added at the clock reading 1700000000000. *)
Lemma addStep_same_instant_repeats_id_witness :
  let s1 := Sample.fill Sample.form
              (now (WorkflowBuilder.addStep 1700000000000 Sample.start)) in
  step_ids (currentSteps (builder (now (WorkflowBuilder.addStep 1700000000000 s1))))
  = [Str "step_1700000000000"; Str "step_1700000000000"]
  /\ ~ List.NoDup
         (step_ids (currentSteps (builder (now (WorkflowBuilder.addStep 1700000000000 s1))))).
Proof.
  split; [vm_compute; reflexivity|].
  eapply (addStep_same_instant_repeats_id 1700000000000 _ _ _);
    [vm_compute; reflexivity | vm_compute; left; reflexivity
    | vm_compute; discriminate | vm_compute; discriminate | vm_compute; reflexivity].
Defined.

(** C2.  Adding a step and removing the step just added is meant to give
    the step list back.  [removeStep] drops every step that carries the
    id: after two steps added in one instant, removing the second one
    takes the first one with it. *)
Theorem addStep_removeStep_loses_twin :
  let s1 := now (WorkflowBuilder.addStep 1700000000000 Sample.start) in
  let s2 := now (WorkflowBuilder.addStep 1700000000000 (Sample.fill Sample.form s1)) in
  let s3 := now (WorkflowBuilder.removeStep (Str (WorkflowBuilder.step_id 1700000000000)) s2) in
  length (step_ids (currentSteps (builder s1))) = 1%nat
  /\ currentSteps (builder s3) = Arr []
  /\ currentSteps (builder s3) <> currentSteps (builder s1).
Proof.
  vm_compute. repeat split; discriminate.
Qed.

(** ** The session *)

(** C3.  Initialisation is meant to take a profile entry that is no JSON
    for an absent session.  The constructor hands the entry to
    [JSON.parse] outside any [try]: the exception of the parser is the
    outcome of [new APIClient()]. *)
Theorem constructor_throws_on_malformed_profile origin (st : gmap string string) entry e :
  st !! "user" = Some entry ->
  entry <> "" ->
  JSON.parse entry = Throw e ->
  APIClient.constructor origin st = Throw e.
Proof.
  intros Hst Hne Hparse. unfold APIClient.constructor, APIClient.getItem.
  rewrite Hst. unfold JS.or. cbn [JS.truthy].
  apply String.eqb_neq in Hne. rewrite Hne. cbn. rewrite Hparse. reflexivity.
Qed.

Lemma constructor_throws_on_malformed_profile_witness :
  APIClient.constructor "https://flowforge.test" {[ "user" := "{bad" ]} = Throw JSON.not_json.
Proof.
  apply (constructor_throws_on_malformed_profile _ _ "{bad");
    [reflexivity | discriminate | vm_compute; reflexivity].
Defined.

(** ** The transport *)

Lemma also_nil m : also [] m = m.
Proof. destruct m; reflexivity. Qed.






(** ** Saving the draft *)

Lemma saveWorkflow_blank_name andRun s :
  JS.trim (workflow_name (dom s)) = "" ->
  WorkflowBuilder.saveWorkflow andRun s
  = Finished (Ok Undefined) (Utils.showToast "Please enter a workflow name" "error" s) [].
Proof.
  intros Hname. unfold WorkflowBuilder.saveWorkflow. rewrite Hname. reflexivity.
Qed.

Lemma saveWorkflow_no_steps andRun s :
  JS.trim (workflow_name (dom s)) <> "" ->
  currentSteps (builder s) = Arr [] ->
  WorkflowBuilder.saveWorkflow andRun s
  = Finished (Ok Undefined) (Utils.showToast "Please add at least one step" "error" s) [].
Proof.
  intros Hname Hsteps. unfold WorkflowBuilder.saveWorkflow.
  apply String.eqb_neq in Hname. rewrite Hname, Hsteps. reflexivity.
Qed.

(** C7.  A draft with an empty name or an empty step list is turned down
    by [saveWorkflow] on the spot: the call finishes without a suspension,
    so without a request, and the state it leaves is the state it found
    plus one error toast. *)
Theorem saveWorkflow_rejects_incomplete_draft andRun s :
  workflow_name (dom s) = "" \/ currentSteps (builder s) = Arr [] ->
  exists message s',
    WorkflowBuilder.saveWorkflow andRun s = Finished (Ok Undefined) s' []
    /\ s' = Utils.showToast message "error" s
    /\ issued s' = issued s
    /\ builder s' = builder s
    /\ dom s' = dom s.
Proof.
  intros H.
  destruct (String.eqb_spec (JS.trim (workflow_name (dom s))) "") as [Hblank|Hname].
  - eexists _, _. split; [apply saveWorkflow_blank_name, Hblank|]. repeat split.
  - destruct H as [Hempty|Hsteps].
    + rewrite Hempty in Hname. exfalso. apply Hname. reflexivity.
    + eexists _, _. split; [apply saveWorkflow_no_steps; assumption|]. repeat split.
Qed.

Lemma saveWorkflow_rejects_incomplete_draft_witness :
  exists message s',
    WorkflowBuilder.saveWorkflow true Sample.start = Finished (Ok Undefined) s' []
    /\ s' = Utils.showToast message "error" Sample.start
    /\ issued s' = issued Sample.start
    /\ builder s' = builder Sample.start
    /\ dom s' = dom Sample.start.
Proof.
  apply (saveWorkflow_rejects_incomplete_draft true Sample.start).
  right. reflexivity.
Defined.

(** ** Logging in *)

#[local] Arguments JSON.parse : simpl never.
#[local] Arguments JSON.stringify : simpl never.
#[local] Arguments JS.trim : simpl never.
#[local] Arguments JS.to_string : simpl never.
#[local] Arguments APIClient.answer : simpl never.
#[local] Arguments APIClient.build : simpl never.
#[local] Arguments with_json : simpl never.

Lemma run_suspended o os s q k :
  run (o :: os) (Suspended s [] q k) = run os (k o s).
Proof. cbn [run]. apply also_nil. Qed.

Lemma run_finished os r s bg : run os (Finished r s bg) = Finished r s bg.
Proof. destruct os; reflexivity. Qed.

Lemma setAuth_signed_in tok usr t s :
  JSON.stringify usr = Str t ->
  APIClient.setAuth (Str tok) usr s = Finished (Ok Undefined) (signed_in tok usr t s) [].
Proof.
  intros Ht. unfold APIClient.setAuth, await, modify, eval. cbn [after also app].
  rewrite Ht. reflexivity.
Qed.

Lemma parse_empty : JSON.parse "" = Throw JSON.not_json.
Proof. reflexivity. Qed.

Lemma constructor_signed_in origin tok usr t s :
  JSON.parse t = Ok usr ->
  APIClient.constructor origin (storage (signed_in tok usr t s))
  = Ok {| baseURL := origin; token := Str tok; user := usr |}.
Proof.
  intros Hparse.
  assert (t <> "") as Hne by (intros ->; rewrite parse_empty in Hparse; discriminate).
  unfold APIClient.constructor, APIClient.getItem, signed_in. cbn [storage with_storage].
  rewrite lookup_insert_eq, lookup_insert_ne by discriminate. rewrite lookup_insert_eq.
  unfold JS.or. cbn [JS.truthy]. apply String.eqb_neq in Hne. rewrite Hne. cbn [negb].
  change (JS.to_string (Str t)) with (Ok (A:=string) t). cbn [rbind].
  rewrite Hparse. reflexivity.
Qed.

Lemma logged_in_signed_in data tok usr t s :
  tok <> "" -> JSON.stringify usr = Str t -> JSON.parse t = Ok usr ->
  logged_in (Finished (Ok data) (signed_in tok usr t s) []) data tok usr.
Proof.
  intros Htok Ht Hparse. exists (signed_in tok usr t s), t.
  split; [reflexivity|]. split; [reflexivity|]. split; [reflexivity|].
  split. { unfold APIClient.isAuthenticated. cbn. apply String.eqb_neq in Htok.
           rewrite Htok. reflexivity. }
  split. { unfold signed_in. cbn [storage with_storage].
           rewrite lookup_insert_ne by discriminate. apply lookup_insert_eq. }
  split. { unfold signed_in. cbn [storage with_storage]. apply lookup_insert_eq. }
  split; [exact Hparse|].
  intros origin. apply constructor_signed_in, Hparse.
Qed.

(** C8, the counterexample.  A successful reply to [login] that carries
    no [api_key]: nothing is stored and nobody is logged in. *)
Lemma login_without_key_stays_logged_out :
  let s' := now (run [Sample.respond 200 "OK" "{'user':{'id':1,'name':'A'}}"]
                   (APIClient.login "a@b.com" "pw" Sample.start)) in
  APIClient.isAuthenticated s' <> true
  /\ storage s' !! "auth_token" = None
  /\ storage s' !! "user" = None.
Proof.
  vm_compute. repeat split. discriminate.
Qed.

(** A reply with a credential and no profile is stored as the text
    "undefined", which the constructor cannot read on the next load. *)
Lemma login_without_profile_breaks_reload :
  let s' := now (run [Sample.respond 200 "OK" "{'api_key':'tok1'}"]
                   (APIClient.login "a@b.com" "pw" Sample.start)) in
  storage s' !! "user" = Some "undefined"
  /\ APIClient.constructor "https://flowforge.test" (storage s') = Throw JSON.not_json.
Proof.
  vm_compute. split; reflexivity.
Qed.

(** C8, as amended.  When the reply to [login] or [signup] is a success
    that carries a non-empty text as [api_key] and a profile that JSON can
    carry, the credential and the profile are in the session and in local
    storage, [isAuthenticated()] holds, and a client constructed anew
    restores both. *)
Theorem login_signup_persist_session s o data tok usr t :
  APIClient.answer o = Ok data ->
  JS.get data "api_key" = Ok (Str tok) ->
  tok <> "" ->
  JS.get data "user" = Ok usr ->
  JSON.stringify usr = Str t ->
  JSON.parse t = Ok usr ->
  (forall email password,
     logged_in (run [o] (APIClient.login email password s)) data tok usr)
  /\ (forall name email organization password,
        logged_in (run [o] (APIClient.signup name email organization password s))
          data tok usr).
Proof.
  intros Ho Hkey Htok Husr Ht Hparse.
  assert (JS.truthy (Str tok) = true) as Htruthy.
  { cbn. apply String.eqb_neq in Htok. rewrite Htok. reflexivity. }
  split; intros.
  - unfold APIClient.login, await, APIClient.request. cbn [after].
    rewrite run_suspended, Ho. cbn [after also app]. unfold eval.
    rewrite Hkey, Htruthy, Husr. cbn [after also app].
    rewrite (setAuth_signed_in tok usr t _ Ht). cbn [after also app ret run].
    apply logged_in_signed_in; assumption.
  - unfold APIClient.signup, await, APIClient.request. cbn [after].
    rewrite run_suspended, Ho. cbn [after also app]. unfold eval.
    rewrite Hkey, Htruthy, Husr. cbn [after also app].
    rewrite (setAuth_signed_in tok usr t _ Ht). cbn [after also app ret run].
    apply logged_in_signed_in; assumption.
Qed.

(** The example of the specification: "tok1" and the profile of A. *)
Lemma login_signup_persist_session_witness :
  logged_in
    (run [Sample.respond 200 "OK" "{'api_key':'tok1','user':{'id':1,'name':'A'}}"]
       (APIClient.login "a@b.com" "pw" Sample.start))
    (Obj [("api_key", Str "tok1"); ("user", Obj [("id", JS.int 1); ("name", Str "A")])])
    "tok1" (Obj [("id", JS.int 1); ("name", Str "A")]).
Proof.
  refine (proj1 (login_signup_persist_session Sample.start
                   (Sample.respond 200 "OK" "{'api_key':'tok1','user':{'id':1,'name':'A'}}")
                   (Obj [("api_key", Str "tok1");
                         ("user", Obj [("id", JS.int 1); ("name", Str "A")])])
                   "tok1" (Obj [("id", JS.int 1); ("name", Str "A")])
                   (dq "{'id':1,'name':'A'}") _ _ _ _ _ _) "a@b.com" "pw");
    [vm_compute; reflexivity | reflexivity | discriminate | reflexivity
    | vm_compute; reflexivity | vm_compute; reflexivity].
Defined.

(** ** Deleting *)

(** C9, the counterexample.  A credential is deleted with the user's
    consent: the credentials are asked for again, the dashboard is not,
    no request for its runs is made. *)
Lemma deleteCredential_leaves_dashboard_alone :
  let m := run [Sample.respond 200 "OK" "{'status':'deleted'}"]
             (App.deleteCredential true (Str "c1") Sample.start) in
  List.map url (issued (now m))
  = ["https://flowforge.test/credentials/c1"; "https://flowforge.test/credentials"]
  /\ ~ In "https://flowforge.test/runs?limit=10" (List.map url (issued (now m)))
  /\ length (pending m) = 1%nat.
Proof.
  vm_compute. split; [reflexivity|]. split; [|reflexivity].
  intros [H|[H|[]]]; discriminate.
Qed.

(** The addresses the loads ask. *)
Lemma getRuns_dashboard : APIClient.getRuns Null 10 = APIClient.request "/runs?limit=10" no_options.
Proof. reflexivity. Qed.

Lemma getRuns_all : APIClient.getRuns Null 100 = APIClient.request "/runs?limit=100" no_options.
Proof. reflexivity. Qed.

Lemma getCredentials_all : APIClient.getCredentials Null = APIClient.request "/credentials" no_options.
Proof. reflexivity. Qed.

Lemma getTemplates_all : APIClient.getTemplates Null = APIClient.request "/templates" no_options.
Proof. reflexivity. Qed.

Lemma getServices_all : APIClient.getServices Null Null = APIClient.request "/services" no_options.
Proof. reflexivity. Qed.

Lemma issued_loadWorkflows s :
  issued (now (App.loadWorkflows s))
  = issued s ++ [APIClient.build "/workflows" no_options s].
Proof. reflexivity. Qed.

Lemma issued_loadCredentials s :
  issued (now (App.loadCredentials s))
  = issued s ++ [APIClient.build "/credentials" no_options s].
Proof. reflexivity. Qed.

Lemma issued_loadDashboard s :
  issued (now (App.loadDashboard s))
  = issued s ++ [APIClient.build "/workflows" no_options s;
                 APIClient.build "/runs?limit=10" no_options s].
Proof.
  unfold App.loadDashboard, try_catch, await, Promise_all2.
  rewrite getRuns_dashboard.
  cbn [APIClient.getWorkflows APIClient.request now after issued issue].
  rewrite <- List.app_assoc. reflexivity.
Qed.

(** C9, as amended.  Without the user's consent a delete does nothing at
    all.  With it, and once the remote delete has succeeded, the list the
    entry belonged to is loaded again; after the delete of a workflow the
    dashboard is loaded again as well. *)
Theorem delete_confirms_then_reloads id i s o v :
  JS.to_string id = Ok i ->
  APIClient.answer o = Ok v ->
  App.deleteWorkflow false id s = Finished (Ok Undefined) s []
  /\ App.deleteCredential false id s = Finished (Ok Undefined) s []
  /\ (let s1 := Utils.showToast "Workflow deleted successfully" "success"
                  (issue (APIClient.build ("/workflows/" +:+ i) delete_options s) s) in
      let s2 := now (App.loadWorkflows s1) in
      run [o] (App.deleteWorkflow true id s)
      = Finished (Ok Undefined) (now (App.loadDashboard s2))
          (pending (App.loadWorkflows s1) ++ pending (App.loadDashboard s2))
      /\ issued (now (App.loadDashboard s2))
         = issued s ++ [APIClient.build ("/workflows/" +:+ i) delete_options s;
                        APIClient.build "/workflows" no_options s;
                        APIClient.build "/workflows" no_options s;
                        APIClient.build "/runs?limit=10" no_options s])
  /\ (let s1 := Utils.showToast "Credential deleted successfully" "success"
                  (issue (APIClient.build ("/credentials/" +:+ i) delete_options s) s) in
      run [o] (App.deleteCredential true id s)
      = Finished (Ok Undefined) (now (App.loadCredentials s1))
          (pending (App.loadCredentials s1))
      /\ issued (now (App.loadCredentials s1))
         = issued s ++ [APIClient.build ("/credentials/" +:+ i) delete_options s;
                        APIClient.build "/credentials" no_options s]).
Proof.
  intros Hid Ho.
  split; [reflexivity|]. split; [reflexivity|]. split.
  - cbn zeta. split.
    + unfold App.deleteWorkflow. cbn [negb]. unfold try_catch at 1.
      unfold await at 1. unfold APIClient.deleteWorkflow, eval. rewrite Hid.
      unfold APIClient.request. cbn [after]. rewrite run_suspended, Ho.
      cbn [after also app]. fold delete_options.
      unfold await at 1. unfold modify at 1. cbn [after also app].
      reflexivity.
    + rewrite issued_loadDashboard, issued_loadWorkflows. cbn [issued Utils.showToast issue].
      rewrite <- !List.app_assoc. reflexivity.
  - cbn zeta. split.
    + unfold App.deleteCredential. cbn [negb]. unfold try_catch at 1.
      unfold await at 1. unfold APIClient.deleteCredential, eval. rewrite Hid.
      unfold APIClient.request. cbn [after]. rewrite run_suspended, Ho.
      cbn [after also app]. fold delete_options.
      unfold await at 1. unfold modify at 1. cbn [after also app].
      reflexivity.
    + rewrite issued_loadCredentials. cbn [issued Utils.showToast issue].
      rewrite <- !List.app_assoc. reflexivity.
Qed.

Lemma delete_confirms_then_reloads_witness :
  let o := Sample.respond 200 "OK" "{'status':'deleted'}" in
  App.deleteWorkflow false (Str "w1") Sample.start = Finished (Ok Undefined) Sample.start []
  /\ List.map url (issued (now (run [o] (App.deleteWorkflow true (Str "w1") Sample.start))))
     = ["https://flowforge.test/workflows/w1"; "https://flowforge.test/workflows";
        "https://flowforge.test/workflows"; "https://flowforge.test/runs?limit=10"]
  /\ length (pending (run [o] (App.deleteWorkflow true (Str "w1") Sample.start))) = 2%nat.
Proof.
  cbn zeta.
  destruct (delete_confirms_then_reloads (Str "w1") "w1" Sample.start
              (Sample.respond 200 "OK" "{'status':'deleted'}")
              (Obj [("status", Str "deleted")]) eq_refl eq_refl)
    as (Hno & _ & (Hrun & Hissued) & _).
  cbn zeta in Hrun, Hissued.
  split; [exact Hno|]. rewrite Hrun. cbn [now]. rewrite Hissued.
  split; vm_compute; reflexivity.
Defined.

Lemma is_empty_cons x l : App.is_empty (Arr (x :: l)) = Ok false.
Proof.
  unfold App.is_empty. cbn [JS.get rbind String.eqb Ascii.eqb Bool.eqb].
  unfold JS.strict_eq, JS.int. cbn [length].
  rewrite Nat2Z.inj_succ. destruct (Z.eqb_spec (Z.succ (Z.of_nat (length l))) 0); [lia|reflexivity].
Qed.

Lemma saveWorkflow_create_fails andRun s o e :
  JS.trim (workflow_name (dom s)) <> "" ->
  App.is_empty (currentSteps (builder s)) = Ok false ->
  JS.truthy (currentWorkflow (builder s)) = false ->
  APIClient.answer o = Throw e ->
  run [o] (WorkflowBuilder.saveWorkflow andRun s)
  = Finished (Ok Undefined)
      (Utils.showToast ("Failed to save workflow: " +:+ emessage e) "error"
         (console_error "API Request failed:" e (issue (create_request s) s))) [].
Proof.
  intros Hname Hsteps Hnew Ho.
  apply String.eqb_neq in Hname.
  unfold WorkflowBuilder.saveWorkflow. rewrite Hname. unfold eval at 1. rewrite Hsteps, Hnew.
  unfold try_catch, await at 1. unfold await at 1. unfold await at 1.
  unfold APIClient.createWorkflow, APIClient.request. cbn [after also app].
  rewrite run_suspended, Ho. cbn [after also app run]. reflexivity.
Qed.

(** C4.  A failure of the run that follows a save is meant to be
    reported apart from the save.  The execute call sits in the [try] of
    the save: when the create call succeeds and the execute call fails
    with [e], the toast of the success is followed by the toast a failed
    save gets with [e], "Failed to save workflow: ...", and neither the
    list is loaded again nor the view changed. *)
Theorem saveWorkflow_execute_failure_reported_as_save_failure
        s x l o1 o2 saved wf id i e :
  JS.trim (workflow_name (dom s)) <> "" ->
  currentSteps (builder s) = Arr (x :: l) ->
  JS.truthy (currentWorkflow (builder s)) = false ->
  APIClient.answer o1 = Ok saved ->
  JS.get saved "workflow" = Ok wf ->
  JS.truthy wf = true ->
  JS.get wf "id" = Ok id ->
  JS.to_string id = Ok i ->
  APIClient.answer o2 = Throw e ->
  exists s',
    run [o1; o2] (WorkflowBuilder.saveWorkflow true s) = Finished (Ok Undefined) s' []
    /\ toasts s' = toasts s ++ [("Workflow created successfully", "success");
                                ("Failed to save workflow: " +:+ emessage e, "error")]
    /\ List.map url (issued s')
       = List.map url (issued s) ++ [baseURL (api s) +:+ "/workflows";
                                     baseURL (api s) +:+ "/workflows/" +:+ i +:+ "/execute"]
    /\ view (dom s') = view (dom s)
    /\ (forall o, APIClient.answer o = Throw e ->
        toasts (now (run [o] (WorkflowBuilder.saveWorkflow true s)))
        = toasts s ++ [("Failed to save workflow: " +:+ emessage e, "error")]).
Proof.
  intros Hname Harr Hnew Ho1 Hwf Htruthy Hid Hi Ho2.
  assert (App.is_empty (currentSteps (builder s)) = Ok false) as Hsteps
    by (rewrite Harr; apply is_empty_cons).
  assert (forall o, APIClient.answer o = Throw e ->
        toasts (now (run [o] (WorkflowBuilder.saveWorkflow true s)))
        = toasts s ++ [("Failed to save workflow: " +:+ emessage e, "error")]) as Hsame.
  { intros o Ho. rewrite (saveWorkflow_create_fails true s o e) by assumption. reflexivity. }
  eexists. split; [|split; [|split; [|split; [|exact Hsame]]]].
  - apply String.eqb_neq in Hname.
    unfold WorkflowBuilder.saveWorkflow. rewrite Hname. unfold eval at 1. rewrite Hsteps, Hnew.
    unfold try_catch, await at 1. unfold await at 1. unfold await at 1.
    unfold APIClient.createWorkflow, APIClient.request. cbn [after also app].
    rewrite run_suspended, Ho1. cbn [after also app].
    unfold modify at 1. cbn [after also app]. unfold ret at 1. cbn [after also app].
    unfold await at 1. unfold eval at 1. rewrite Hwf, Htruthy. unfold await at 1, eval at 1.
    rewrite Hid. unfold APIClient.executeWorkflow, eval at 1. rewrite Hi.
    unfold APIClient.request. cbn [after also app].
    rewrite run_suspended, Ho2. cbn [after also app].
    unfold modify. cbn [run]. reflexivity.
  - cbn [toasts Utils.showToast console_error issue]. rewrite <- List.app_assoc. reflexivity.
  - cbn [issued Utils.showToast console_error issue].
    rewrite !List.map_app, <- List.app_assoc. reflexivity.
  - reflexivity.
Qed.

(** The draft of the sample page, one step in it; the store takes the
    workflow as "w1", the engine is down. *)
Lemma saveWorkflow_execute_failure_reported_as_save_failure_witness :
  let s := now (WorkflowBuilder.addStep 1700000000000 Sample.start) in
  let m := run [Sample.respond 200 "OK" "{'workflow':{'id':'w1'}}";
                Sample.respond 500 "Internal Server Error" "{'detail':'engine down'}"]
             (WorkflowBuilder.saveWorkflow true s) in
  toasts (now m) = [("Workflow created successfully", "success");
                    ("Failed to save workflow: engine down", "error")]
  /\ pending m = []
  /\ view (dom (now m)) = "builder".
Proof.
  cbn zeta.
  destruct (saveWorkflow_execute_failure_reported_as_save_failure
              (now (WorkflowBuilder.addStep 1700000000000 Sample.start))
              (Obj [("id", Str "step_1700000000000"); ("service", Str "slack");
                    ("action", Str "send_message");
                    ("config", Obj [("channel", Str "#ops")])]) []
              (Sample.respond 200 "OK" "{'workflow':{'id':'w1'}}")
              (Sample.respond 500 "Internal Server Error" "{'detail':'engine down'}")
              (Obj [("workflow", Obj [("id", Str "w1")])])
              (Obj [("id", Str "w1")]) (Str "w1") "w1" (JS.Error "engine down"))
    as (s' & Hrun & Htoasts & _ & Hview & _);
    [ vm_compute; discriminate | vm_compute; reflexivity | reflexivity
    | vm_compute; reflexivity | reflexivity | reflexivity | reflexivity | reflexivity
    | vm_compute; reflexivity | ].
  rewrite Hrun. cbn [now pending]. rewrite Htoasts, Hview.
  split; [vm_compute; reflexivity|]. split; [reflexivity|]. vm_compute; reflexivity.
Defined.

(** ** Loading the list caches *)

Lemma settles_finished s0 os r s bg :
  settles_unchanged s0 os (Finished r s bg) <-> caches s = caches s0 /\ Forall idle bg.
Proof. destruct os; reflexivity. Qed.

Lemma run_racing o os s q1 q2 k1 k2 :
  run (o :: os) (Racing s [] q1 q2 k1 k2) = run os (k1 o s).
Proof. cbn [run]. apply also_nil. Qed.

Lemma single_load_fails_unchanged (get : async) body label message s o os e :
  (forall s0, get s0 = Suspended (issue (APIClient.build body no_options s0) s0) []
                     (APIClient.build body no_options s0)
                     (fun o s' => match APIClient.answer o with
                                  | Ok v => Finished (Ok v) s' []
                                  | Throw e => Finished (Throw e) (console_error "API Request failed:" e s') []
                                  end)) ->
  APIClient.answer o = Throw e ->
  forall k,
  settles_unchanged s (o :: os)
    (try_catch (await get k)
       (fun error => modify (console_error label error) ;; modify (Utils.showToast message "error")) s).
Proof.
  intros Hget Ho k. unfold try_catch, await at 1. rewrite Hget. cbn [after also app].
  cbn [settles_unchanged]. split; [reflexivity|]. split; [constructor|].
  intros s'. rewrite Ho. cbn [after also app]. unfold await, modify. cbn [after also app].
  apply settles_finished. split; [reflexivity|constructor].
Qed.

Lemma request_idle s q :
  idle (Suspended s [] q
          (fun o s' => match APIClient.answer o with
                       | Ok v => Finished (Ok v) s' []
                       | Throw e => Finished (Throw e) (console_error "API Request failed:" e s') []
                       end)).
Proof.
  intros o s'. destruct (APIClient.answer o); eexists _, _; split; reflexivity.
Qed.

Lemma fails_two o1 os :
  Exists fails (firstn 2 (o1 :: os)) ->
  (exists e, APIClient.answer o1 = Throw e)
  \/ (exists o2 os' e, os = o2 :: os' /\ APIClient.answer o2 = Throw e).
Proof.
  intros H. cbn [firstn] in H. inversion H as [? ? Hf|? ? Hn]; subst; [left; exact Hf|].
  destruct os as [|o2 os']; [inversion Hn|].
  cbn [firstn] in Hn. inversion Hn as [? ? Hf|? ? Hn']; subst; [|inversion Hn'].
  destruct Hf as [e He]. right. exists o2, os', e. split; [reflexivity|exact He].
Qed.

(** One side of a join settles, in a join whose failure handler [h]
    writes to no cache. *)
Lemma join_side_unchanged pair q0 body k h o1 os s' :
  (forall e s1, exists s2, h e s1 = Finished (Ok Undefined) s2 [] /\ caches s2 = caches s1) ->
  Exists fails (firstn 2 (o1 :: os)) ->
  settles_unchanged s' os
    (after
       (after
          (after
             match APIClient.answer o1 with
             | Ok v => Finished (Ok v) s' []
             | Throw e => Finished (Throw e) (console_error "API Request failed:" e s') []
             end
             (join_rest pair (APIClient.build body no_options q0)
                (fun o s1 =>
                   match APIClient.answer o with
                   | Ok v => Finished (Ok v) s1 []
                   | Throw e => Finished (Throw e) (console_error "API Request failed:" e s1) []
                   end)))
          (fun r => match r with
                    | Ok v => k v
                    | Throw e => fun s1 => Finished (Throw e) s1 []
                    end))
       (fun r => match r with
                 | Ok v => fun s1 => Finished (Ok v) s1 []
                 | Throw e => h e
                 end)).
Proof.
  intros Hh Hfail. apply fails_two in Hfail.
  destruct (APIClient.answer o1) as [v1|e1] eqn:Ho1.
  - destruct Hfail as [[e He]|(o2 & os' & e2 & -> & Ho2)]; [congruence|].
    cbn [after also app join_rest settles_unchanged].
    split; [reflexivity|]. split; [constructor|].
    intros s''. rewrite Ho2. cbn [after also app].
    destruct (Hh e2 (console_error "API Request failed:" e2 s'')) as (s3 & Hs3 & Hc).
    rewrite Hs3. apply settles_finished. split; [exact Hc|constructor].
  - cbn [after also app join_rest].
    destruct (Hh e1 (console_error "API Request failed:" e1 s')) as (s3 & Hs3 & Hc).
    rewrite Hs3. cbn [also app]. apply settles_finished. split; [exact Hc|].
    repeat constructor. apply request_idle.
Qed.

Lemma joined_load_fails_unchanged body1 body2 k h s os :
  (forall e s', exists s'', h e s' = Finished (Ok Undefined) s'' [] /\ caches s'' = caches s') ->
  Exists fails (firstn 2 os) ->
  settles_unchanged s os
    (try_catch (await (Promise_all2 (APIClient.request body1 no_options)
                                    (APIClient.request body2 no_options)) k) h s).
Proof.
  intros Hh Hfail. unfold try_catch, await at 1, Promise_all2, APIClient.request.
  cbn [now after also app].
  destruct os as [|o1 os]; [inversion Hfail|].
  cbn [settles_unchanged]. split; [reflexivity|]. split; [constructor|].
  intros s'. split.
  - apply (join_side_unchanged _ _ body2); assumption.
  - apply (join_side_unchanged _ _ body1); assumption.
Qed.

(** Without interleaving: whatever the order of arrival, a task that
    settles unchanged ends with the caches it started with. *)
Lemma settles_run os : forall m s,
  settles_unchanged s (List.map snd os) m ->
  exists r s' bg, run_arrivals os m = Finished r s' bg /\ caches s' = caches s.
Proof.
  induction os as [|[second o] os IH]; intros m s H.
  - destruct m as [r s1 bg|s1 bg q k|s1 bg q1 q2 k1 k2]; cbn in H.
    + exists r, s1, bg. split; [reflexivity|apply H].
    + destruct H as (_ & _ & []).
    + destruct H as (_ & _ & []).
  - destruct m as [r s1 bg|s1 bg q k|s1 bg q1 q2 k1 k2];
      cbn [settles_unchanged List.map snd] in H.
    + exists r, s1, bg. split; [reflexivity|apply H].
    + destruct H as (Hc & _ & Hk). destruct (IH _ _ (Hk s1)) as (r & s' & bg' & Hrun & Hc').
      exists r, s', (bg ++ bg'). cbn [run_arrivals]. rewrite Hrun.
      split; [reflexivity|congruence].
    + destruct H as (Hc & _ & Hk).
      assert (settles_unchanged s1 (List.map snd os) ((if second then k2 else k1) o s1)) as Hs
        by (destruct second; apply (Hk s1)).
      destruct (IH _ _ Hs) as (r & s' & bg' & Hrun & Hc').
      exists r, s', (bg ++ bg'). cbn [run_arrivals]. rewrite Hrun.
      split; [reflexivity|congruence].
Qed.

Lemma fails_first n o os : Exists fails (firstn (S n) (o :: os)) ->
  (exists e, APIClient.answer o = Throw e) \/ Exists fails (firstn n os).
Proof.
  cbn [firstn]. intros H. inversion H; subst; [left; assumption|right; assumption].
Qed.

(** C5.  A load whose remote call fails commits nothing.  Whichever list
    cache is loaded (the dashboard and the catalog join two calls), once a
    call behind it has failed the load finishes, and no stretch of it, nor
    the call of the join that is still under way, writes to a cache:
    whatever state the page is in when the load is resumed, the caches
    are after the load what they were before it. *)
Theorem failed_load_leaves_caches l s os :
  Exists fails (firstn (constituents l) os) ->
  settles_unchanged s os (load l s).
Proof.
  intros Hfail.
  destruct l; cbn [load constituents] in *.
  - destruct os as [|o os]; [inversion Hfail|].
    apply fails_first in Hfail. destruct Hfail as [[e He]|Hn]; [|inversion Hn].
    eapply (single_load_fails_unchanged APIClient.getWorkflows "/workflows");
      [reflexivity|exact He].
  - destruct os as [|o os]; [inversion Hfail|].
    apply fails_first in Hfail. destruct Hfail as [[e He]|Hn]; [|inversion Hn].
    eapply (single_load_fails_unchanged (APIClient.getRuns Null 100) "/runs?limit=100");
      [reflexivity|exact He].
  - destruct os as [|o os]; [inversion Hfail|].
    apply fails_first in Hfail. destruct Hfail as [[e He]|Hn]; [|inversion Hn].
    eapply (single_load_fails_unchanged (APIClient.getCredentials Null) "/credentials");
      [reflexivity|exact He].
  - destruct os as [|o os]; [inversion Hfail|].
    apply fails_first in Hfail. destruct Hfail as [[e He]|Hn]; [|inversion Hn].
    eapply (single_load_fails_unchanged (APIClient.getTemplates Null) "/templates");
      [reflexivity|exact He].
  - unfold App.loadDashboard. rewrite getRuns_dashboard.
    apply (joined_load_fails_unchanged "/workflows" "/runs?limit=10"); [|exact Hfail].
    intros e s'. eexists. split; reflexivity.
  - unfold WorkflowBuilder.init. rewrite getServices_all.
    apply (joined_load_fails_unchanged "/services" "/api/connectors"); [|exact Hfail].
    intros e s'. eexists. split; reflexivity.
Qed.

(** The dashboard on a page that holds two workflows: the reply to the
    request for the runs arrives first and is a failure; the workflows
    arrive after it. *)
Lemma failed_load_leaves_caches_witness :
  let s := with_app (set_workflows (Arr [Obj [("id", Str "w1")]; Obj [("id", Str "w2")]]))
             Sample.start in
  let os := [(true, Sample.respond 503 "Service Unavailable" "{'detail':'runs are down'}");
             (false, Sample.respond 200 "OK" "{'workflows':[]}")] in
  exists r s' bg,
    run_arrivals os (load Dashboard s) = Finished r s' bg
    /\ caches s' = caches s.
Proof.
  cbn zeta. apply settles_run.
  apply (failed_load_leaves_caches Dashboard).
  left. eexists. vm_compute. reflexivity.
Defined.

(** ** The dashboard *)

Lemma get_record x k : is_record x -> JS.get x k = Ok (JS.get_opt x k).
Proof.
  intros [Hnull Hundef]. unfold JS.get_opt.
  destruct x; try reflexivity; congruence.
Qed.

Lemma filter_status wanted l :
  Forall is_record l ->
  JS.filter_list (App.has_status wanted) l = Ok (List.filter (status_is wanted) l).
Proof.
  induction 1 as [|x l Hx _ IH]; [reflexivity|].
  cbn [JS.filter_list List.filter]. unfold App.has_status at 1.
  rewrite (get_record x "status" Hx). cbn [rbind]. rewrite IH. cbn [rbind].
  change (status_is wanted x) with (JS.strict_eq (JS.get_opt x "status") (Str wanted)).
  destruct (JS.strict_eq _ _); reflexivity.
Qed.

(** On samples of at most 10 runs the binary64 computation is exact. *)
Lemma successRate_exact successful total :
  0 <= successful <= total -> 0 < total <= 10 ->
  App.successRate successful total = Some (exact_rate successful total).
Proof.
  intros Hs Ht.
  assert (total = 1 \/ total = 2 \/ total = 3 \/ total = 4 \/ total = 5 \/ total = 6
          \/ total = 7 \/ total = 8 \/ total = 9 \/ total = 10) as Hcases by lia.
  assert (successful = 0 \/ successful = 1 \/ successful = 2 \/ successful = 3
          \/ successful = 4 \/ successful = 5 \/ successful = 6 \/ successful = 7
          \/ successful = 8 \/ successful = 9 \/ successful = 10) as Hcases' by lia.
  repeat (destruct Hcases as [->|Hcases]);
    try subst total;
    repeat (destruct Hcases' as [->|Hcases']); try subst successful;
    first [lia | vm_compute; reflexivity].
Qed.

Lemma filter_length_le {A} (p : A -> bool) l : (length (List.filter p l) <= length l)%nat.
Proof. apply List.filter_length_le. Qed.

Lemma updateStats_counts s wl rl :
  workflows (app s) = Arr wl -> executions (app s) = Arr rl ->
  Forall is_record wl -> Forall is_record rl ->
  App.updateStats s = Finished (Ok Undefined) (with_dom (counted wl rl) s) [].
Proof.
  intros Hw He Hwl Hrl. unfold App.updateStats. rewrite Hw, He.
  unfold JS.filter. rewrite !filter_status by assumption.
  unfold eval. cbn [JS.get String.eqb Ascii.eqb Bool.eqb JS.int].
  reflexivity.
Qed.

Lemma run_arrivals_suspended second o os s q k :
  run_arrivals ((second, o) :: os) (Suspended s [] q k) = run_arrivals os (k o s).
Proof. cbn [run_arrivals]. apply also_nil. Qed.

Lemma run_arrivals_racing second o os s q1 q2 k1 k2 :
  run_arrivals ((second, o) :: os) (Racing s [] q1 q2 k1 k2)
  = run_arrivals os ((if second then k2 else k1) o s).
Proof. cbn [run_arrivals]. apply also_nil. Qed.

Lemma run_arrivals_in_order os m :
  run_arrivals (List.map (fun o => (false, o)) os) m = run os m.
Proof.
  revert m. induction os as [|o os IH]; intros m; [destruct m; reflexivity|].
  destruct m; cbn [List.map run run_arrivals]; rewrite ?IH; reflexivity.
Qed.

Lemma loadDashboard_counts runs_first s o1 o2 wd rd wv rv wl rl :
  APIClient.answer o1 = Ok wd ->
  JS.get wd "workflows" = Ok wv -> JS.or wv (Arr []) = Arr wl ->
  APIClient.answer o2 = Ok rd ->
  JS.get rd "runs" = Ok rv -> JS.or rv (Arr []) = Arr rl ->
  Forall is_record wl -> Forall is_record rl ->
  exists s',
    now (run_arrivals (dashboard_arrivals runs_first o1 o2) (App.loadDashboard s)) = s'
    /\ issued s' = issued s ++ [APIClient.build "/workflows" no_options s;
                                APIClient.build "/runs?limit=10" no_options s]
    /\ app s' = set_executions (Arr rl) (set_workflows (Arr wl) (app s))
    /\ dom s' = counted wl rl (dom s).
Proof.
  intros Ho1 Hwv Hwl Ho2 Hrv Hrl Hrw Hrr.
  unfold App.loadDashboard. rewrite getRuns_dashboard.
  unfold try_catch, await at 1, Promise_all2, APIClient.getWorkflows, APIClient.request.
  cbn [now after also app].
  destruct runs_first; cbn [dashboard_arrivals];
    rewrite run_arrivals_racing; cbn iota;
    [rewrite Ho2|rewrite Ho1]; cbn [now after also app join_rest];
    rewrite run_arrivals_suspended;
    [rewrite Ho1|rewrite Ho2]; cbn [now after also app run_arrivals JS.pair_of fst snd];
    (unfold await at 1; unfold eval at 1; rewrite Hwv, Hwl; unfold modify at 1;
     cbn [after also app];
     unfold await at 1; unfold eval at 1; rewrite Hrv, Hrl; unfold modify at 1;
     cbn [after also app];
     unfold await at 1;
     erewrite (updateStats_counts _ wl rl); [|reflexivity|reflexivity|assumption|assumption];
     cbn [after also app]; unfold check;
     match goal with |- context [App.renderRecentWorkflows ?st] =>
       destruct (App.renderRecentWorkflows st) end;
     cbn [after also app now]; unfold await, modify; cbn [after also app now];
     (eexists; split; [reflexivity|]);
     (split; [cbn [issued issue with_app with_dom console_error Utils.showToast];
              rewrite <- List.app_assoc; reflexivity|]);
     split; reflexivity).
Qed.

(** C10.  A load of the dashboard asks for the 10 most recent runs
    ([/runs?limit=10]) and takes the runs of the reply as its sample.  The
    rate it shows is [Math.round(successful / total * 100)] computed on
    binary64 numbers, 0 on an empty sample; on a sample of at most 10 runs
    that is the rounding of the exact ratio, and 7 of 10 give 70. *)
Theorem dashboard_success_rate s o1 o2 wd rd wv rv wl rl :
  APIClient.answer o1 = Ok wd ->
  JS.get wd "workflows" = Ok wv -> JS.or wv (Arr []) = Arr wl ->
  APIClient.answer o2 = Ok rd ->
  JS.get rd "runs" = Ok rv -> JS.or rv (Arr []) = Arr rl ->
  Forall is_record wl -> Forall is_record rl ->
  let successful := Z.of_nat (length (List.filter (status_is "success") rl)) in
  let total := Z.of_nat (length rl) in
  forall runs_first,
  let s' := now (run_arrivals (dashboard_arrivals runs_first o1 o2) (App.loadDashboard s)) in
  List.map url (issued s')
  = List.map url (issued s) ++ [baseURL (api s) +:+ "/workflows";
                                baseURL (api s) +:+ "/runs?limit=10"]
  /\ executions (app s') = Arr rl
  /\ success_rate (dom s') = App.percent (App.successRate successful total)
  /\ (total = 0 -> success_rate (dom s') = "0%")
  /\ (0 < total <= 10 ->
      success_rate (dom s') = JS.number_to_string (exact_rate successful total) 0 +:+ "%")
  /\ App.successRate 7 10 = Some 70
  /\ App.successRate 0 0 = Some 0.
Proof.
  intros Ho1 Hwv Hwl Ho2 Hrv Hrl Hrw Hrr successful total runs_first s'.
  destruct (loadDashboard_counts runs_first s o1 o2 wd rd wv rv wl rl)
    as (s1 & Hs1 & Hissued & Happ & Hdom);
    try assumption.
  subst s'. rewrite Hs1.
  assert (success_rate (dom s1) = App.percent (App.successRate successful total)) as Hrate
    by (rewrite Hdom; reflexivity).
  split. { rewrite Hissued, List.map_app. reflexivity. }
  split. { rewrite Happ. reflexivity. }
  split; [exact Hrate|].
  split. { intros H0. rewrite Hrate. unfold App.successRate. rewrite H0. reflexivity. }
  split. { intros Hrange. rewrite Hrate, successRate_exact; [reflexivity| |exact Hrange].
           subst successful total. pose proof (filter_length_le (status_is "success") rl). lia. }
  split; vm_compute; reflexivity.
Qed.

(** Ten runs, seven of them successful; the runs arrive before the
    workflows. *)
Lemma dashboard_success_rate_witness :
  let s' := now (run_arrivals
                   [(true, Sample.respond 200 "OK" Sample.ten_runs_text);
                    (false, Sample.respond 200 "OK"
                              "{'workflows':[{'id':'w1','status':'active'}]}")]
                   (App.loadDashboard Sample.start)) in
  success_rate (dom s') = "70%"
  /\ List.map url (issued s') = ["https://flowforge.test/workflows";
                                 "https://flowforge.test/runs?limit=10"].
Proof.
  cbn zeta.
  destruct (dashboard_success_rate Sample.start
              (Sample.respond 200 "OK" "{'workflows':[{'id':'w1','status':'active'}]}")
              (Sample.respond 200 "OK" Sample.ten_runs_text)
              (Obj [("workflows", Arr Sample.one_workflow)])
              (Obj [("runs", Arr Sample.ten_runs)])
              (Arr Sample.one_workflow) (Arr Sample.ten_runs)
              Sample.one_workflow Sample.ten_runs)
    with (runs_first := true)
    as (Hurl & _ & _ & _ & Hexact & _);
    [ vm_compute; reflexivity | vm_compute; reflexivity | vm_compute; reflexivity
    | vm_compute; reflexivity | vm_compute; reflexivity | vm_compute; reflexivity
    | repeat (constructor; [split; discriminate|]); constructor
    | repeat (constructor; [split; discriminate|]); constructor
    | ].
  split.
  - etransitivity; [apply Hexact; vm_compute; split; [reflexivity|discriminate]|].
    vm_compute. reflexivity.
  - etransitivity; [exact Hurl|]. vm_compute. reflexivity.
Defined.

(** Beyond the 10 runs asked for, the two roundings can part: 29 of 200
    is 14.5 exactly and a little less in binary64. *)
Remark successRate_200 : App.successRate 29 200 = Some 14 /\ exact_rate 29 200 = 15.
Proof. vm_compute. split; reflexivity. Qed.

(** A reply with status 200 whose body is the JSON [null] is no failed
    call: [request] returns it.  [loadDashboard] then writes the workflows
    before it reads the runs off [null], so that list alone is renewed. *)
Remark loadDashboard_null_runs :
  let m := run [Sample.respond 200 "OK" "{'workflows':[{'id':'w1','status':'active'}]}";
                Sample.respond 200 "OK" "null"]
             (App.loadDashboard Sample.start) in
  workflows (app (now m)) = Arr Sample.one_workflow
  /\ executions (app (now m)) = Arr []
  /\ toasts (now m) = [("Failed to load dashboard data", "error")].
Proof. vm_compute. repeat split. Qed.

(** * Further properties *)

(** ** The session, further *)





Lemma run_login_fails s o e email password :
  APIClient.answer o = Throw e ->
  run [o] (APIClient.login email password s)
  = Finished (Throw e)
      (console_error "API Request failed:" e
         (issue (APIClient.build "/auth/login"
                   (with_json "POST" (Obj [("email", Str email); ("password", Str password)])) s) s)) [].
Proof.
  intros Ho. unfold APIClient.login, await, APIClient.request. cbn [after].
  rewrite run_suspended, Ho. reflexivity.
Qed.

Lemma run_signup_fails s o e name email organization password :
  APIClient.answer o = Throw e ->
  run [o] (APIClient.signup name email organization password s)
  = Finished (Throw e)
      (console_error "API Request failed:" e
         (issue (APIClient.build "/auth/signup"
                   (with_json "POST" (Obj [("name", Str name); ("email", Str email);
                                            ("organization", organization);
                                            ("password", Str password)])) s) s)) [].
Proof.
  intros Ho. unfold APIClient.signup, await, APIClient.request. cbn [after].
  rewrite run_suspended, Ho. reflexivity.
Qed.

(** X2.  When the request of [login] or [signup] fails, the call throws
    the error of the request and the session is as it was: the fields of
    the client and local storage are untouched, and no toast is shown by
    the client itself. *)
Theorem login_failure_leaves_session s o e :
  APIClient.answer o = Throw e ->
  (forall email password,
     exists s', run [o] (APIClient.login email password s) = Finished (Throw e) s' []
                /\ api s' = api s /\ storage s' = storage s /\ toasts s' = toasts s)
  /\ (forall name email organization password,
        exists s', run [o] (APIClient.signup name email organization password s)
                   = Finished (Throw e) s' []
                   /\ api s' = api s /\ storage s' = storage s /\ toasts s' = toasts s).
Proof.
  intros Ho. split; intros.
  - eexists. rewrite (run_login_fails s o e) by exact Ho. repeat split.
  - eexists. rewrite (run_signup_fails s o e) by exact Ho. repeat split.
Qed.

(** The server is down while A logs in. *)
Lemma login_failure_leaves_session_witness :
  api (now (run [Example.down] (APIClient.login "a@b.com" "pw" Sample.start)))
  = api Sample.start.
Proof.
  destruct (login_failure_leaves_session Sample.start Example.down (JS.Error "down"))
    as [Hlogin _]; [vm_compute; reflexivity|].
  destruct (Hlogin "a@b.com" "pw") as (s' & Hrun & Hapi & _).
  rewrite Hrun. exact Hapi.
Defined.

Lemma run_login_success s o data tok usr t email password :
  APIClient.answer o = Ok data ->
  JS.get data "api_key" = Ok (Str tok) -> tok <> "" ->
  JS.get data "user" = Ok usr ->
  JSON.stringify usr = Str t ->
  run [o] (APIClient.login email password s)
  = Finished (Ok data)
      (signed_in tok usr t
         (issue (APIClient.build "/auth/login"
                   (with_json "POST" (Obj [("email", Str email); ("password", Str password)])) s) s)) [].
Proof.
  intros Ho Hkey Htok Husr Ht.
  assert (JS.truthy (Str tok) = true) as Htruthy.
  { cbn. apply String.eqb_neq in Htok. rewrite Htok. reflexivity. }
  unfold APIClient.login, await, APIClient.request. cbn [after].
  rewrite run_suspended, Ho. cbn [after also app]. unfold eval.
  rewrite Hkey, Htruthy, Husr. cbn [after also app].
  rewrite (setAuth_signed_in tok usr t _ Ht). cbn [after also app ret run]. reflexivity.
Qed.

(** X3.  After a login that brought a key, every request the client
    builds carries the key in the header [X-API-Key]; after the logout
    that follows, none does. *)
Theorem requests_carry_the_session_key s o data tok usr t email password :
  APIClient.answer o = Ok data ->
  JS.get data "api_key" = Ok (Str tok) -> tok <> "" ->
  JS.get data "user" = Ok usr ->
  JSON.stringify usr = Str t ->
  let s' := now (run [o] (APIClient.login email password s)) in
  (forall endpoint options,
     headers (APIClient.build endpoint options s')
     = [("Content-Type", Str "application/json"); ("X-API-Key", Str tok)])
  /\ (forall endpoint options,
        headers (APIClient.build endpoint options (APIClient.logout s'))
        = [("Content-Type", Str "application/json")]).
Proof.
  intros Ho Hkey Htok Husr Ht s'. subst s'.
  rewrite (run_login_success s o data tok usr t) by assumption. cbn [now].
  split; intros endpoint options.
  - unfold APIClient.build. cbn [headers api signed_in with_storage with_api set_user set_token token].
    cbn [JS.truthy]. apply String.eqb_neq in Htok. rewrite Htok. reflexivity.
  - reflexivity.
Qed.

(** The login that brings "tok1". *)
Lemma requests_carry_the_session_key_witness :
  headers (APIClient.build "/workflows" no_options
             (now (run [Example.welcome] (APIClient.login "a@b.com" "pw" Sample.start))))
  = [("Content-Type", Str "application/json"); ("X-API-Key", Str "tok1")].
Proof.
  pose proof (requests_carry_the_session_key Sample.start Example.welcome
                (Obj [("api_key", Str "tok1"); ("user", Example.profile)])
                "tok1" Example.profile (dq "{'id':1,'name':'A'}") "a@b.com" "pw") as H.
  cbn zeta in H. destruct H as [Hin _];
    [vm_compute; reflexivity | reflexivity | discriminate | reflexivity
    | vm_compute; reflexivity | ].
  exact (Hin "/workflows" no_options).
Defined.

(** X4.  A reply with a status of success whose body is no JSON is a
    failed request: [request] throws the error of the parser and logs it.
    A delete the server has answered with an empty body is therefore
    reported as failed. *)
Theorem success_without_json_fails endpoint options s r e :
  ok r = true ->
  JSON.parse (text r) = Throw e ->
  run [Responded r] (APIClient.request endpoint options s)
  = Finished (Throw e)
      (console_error "API Request failed:" e (issue (APIClient.build endpoint options s) s)) []
  /\ (forall id i, JS.to_string id = Ok i ->
      toasts (now (run [Responded r] (App.deleteWorkflow true id s)))
      = toasts s ++ [("Failed to delete workflow: " +:+ emessage e, "error")]).
Proof.
  intros Hok He.
  assert (APIClient.answer (Responded r) = Throw e) as Ha.
  { unfold APIClient.answer. rewrite Hok. cbn [negb]. exact He. }
  split.
  - unfold APIClient.request. rewrite run_suspended, Ha. reflexivity.
  - intros id i Hid.
    unfold App.deleteWorkflow. cbn [negb]. unfold try_catch at 1.
    unfold await at 1. unfold APIClient.deleteWorkflow, eval. rewrite Hid.
    unfold APIClient.request. cbn [after]. rewrite run_suspended, Ha.
    cbn [after also app]. unfold modify. cbn [run]. reflexivity.
Qed.

(** A delete answered with 204 and no body. *)
Lemma success_without_json_fails_witness :
  toasts (now (run [Sample.respond 204 "No Content" ""]
                 (App.deleteWorkflow true (Str "w1") Sample.start)))
  = [("Failed to delete workflow: Unexpected token in JSON", "error")].
Proof.
  destruct (success_without_json_fails "/workflows/w1" delete_options Sample.start
              {| status := 204; statusText := "No Content"; text := "" |} JSON.not_json)
    as [_ Hdelete]; [reflexivity | exact parse_empty |].
  exact (Hdelete (Str "w1") "w1" eq_refl).
Defined.

(** ** The step list, further *)

(** X5.  [addStep] validates before it touches the draft: without a
    service or an action, or with a configuration that is no JSON, all it
    does is show one toast of an error. *)
Theorem addStep_rejects_invalid_form clock s :
  step_service (step_form (dom s)) = ""
  \/ step_action (step_form (dom s)) = ""
  \/ (exists e, JSON.parse (step_config (step_form (dom s))) = Throw e) ->
  exists message,
    WorkflowBuilder.addStep clock s
    = Finished (Ok Undefined) (Utils.showToast message "error" s) []
    /\ (message = "Please select service and action"
        \/ message = "Invalid JSON configuration").
Proof.
  intros H. unfold WorkflowBuilder.addStep.
  destruct (String.eqb_spec (step_service (step_form (dom s))) "") as [Hs|Hs].
  { eexists. split; [reflexivity|left; reflexivity]. }
  destruct (String.eqb_spec (step_action (step_form (dom s))) "") as [Ha|Ha].
  { eexists. split; [reflexivity|left; reflexivity]. }
  cbn [orb]. destruct H as [H|[H|[e He]]]; [contradiction|contradiction|].
  rewrite He. eexists. split; [reflexivity|right; reflexivity].
Qed.

(** The blank form of the sample page. *)
Lemma addStep_rejects_invalid_form_witness :
  exists message,
    WorkflowBuilder.addStep 1 (Sample.fill Sample.blank Sample.start)
    = Finished (Ok Undefined)
        (Utils.showToast message "error" (Sample.fill Sample.blank Sample.start)) []
    /\ (message = "Please select service and action" \/ message = "Invalid JSON configuration").
Proof.
  exact (addStep_rejects_invalid_form 1 (Sample.fill Sample.blank Sample.start)
           (or_introl eq_refl)).
Defined.

Lemma filter_other_id stepId l :
  Forall is_record l ->
  JS.filter_list (fun x => let* id := JS.get x "id" in Ok (negb (JS.strict_eq id stepId))) l
  = Ok (List.filter (other_id stepId) l).
Proof.
  induction 1 as [|x l Hx _ IH]; [reflexivity|].
  cbn [JS.filter_list List.filter].
  rewrite (get_record x "id" Hx). cbn [rbind]. rewrite IH. cbn [rbind].
  change (other_id stepId x) with (negb (JS.strict_eq (JS.get_opt x "id") stepId)).
  destruct (negb _); reflexivity.
Qed.

Lemma filter_all_true {A} (p : A -> bool) l :
  Forall (fun x => p x = true) l -> List.filter p l = l.
Proof.
  induction 1 as [|x l Hx _ IH]; [reflexivity|]. cbn. rewrite Hx, IH. reflexivity.
Qed.

(** X6.  [removeStep] keeps exactly the steps whose id differs from the
    one given, in their order; when no step carries the id, the list is
    as it was.  The workflow being edited is not touched and no request is
    made. *)
Theorem removeStep_keeps_the_others stepId s l :
  currentSteps (builder s) = Arr l ->
  Forall is_record l ->
  let s' := now (WorkflowBuilder.removeStep stepId s) in
  currentSteps (builder s') = Arr (List.filter (other_id stepId) l)
  /\ (Forall (fun x => other_id stepId x = true) l -> currentSteps (builder s') = Arr l)
  /\ currentWorkflow (builder s') = currentWorkflow (builder s)
  /\ issued s' = issued s.
Proof.
  intros Hl Hrec s'. subst s'.
  unfold WorkflowBuilder.removeStep, eval. rewrite Hl. unfold JS.filter.
  rewrite filter_other_id by exact Hrec.
  unfold await, modify. cbn [after also app]. unfold check.
  match goal with |- context [WorkflowBuilder.renderSteps ?st] =>
    destruct (WorkflowBuilder.renderSteps st) end; cbn [now];
    (split; [reflexivity|]);
    (split; [intros Hall; cbn; rewrite (filter_all_true _ _ Hall); reflexivity|]);
    split; reflexivity.
Qed.

(** Two steps, the first one removed. *)
Lemma removeStep_keeps_the_others_witness :
  currentSteps (builder (now (WorkflowBuilder.removeStep (Str "step_1") Example.two_steps)))
  = Arr [Example.step_of "step_2"].
Proof.
  pose proof (removeStep_keeps_the_others (Str "step_1") Example.two_steps
                [Example.step_of "step_1"; Example.step_of "step_2"]) as H.
  cbn zeta in H. destruct H as [Hkept _];
    [vm_compute; reflexivity
    | repeat (constructor; [split; discriminate|]); constructor | ].
  exact Hkept.
Defined.

Lemma not_in_ids sid l :
  Forall is_record l ->
  ~ In (Str sid) (step_ids (Arr l)) ->
  Forall (fun x => exists id, JS.get x "id" = Ok id /\ JS.strict_eq id (Str sid) = false) l.
Proof.
  induction 1 as [|x l Hx _ IH]; intros Hnot; [constructor|].
  cbn in Hnot. constructor.
  - exists (JS.get_opt x "id"). split; [apply get_record, Hx|].
    destruct (JS.get_opt x "id") eqn:E; try reflexivity.
    cbn. apply String.eqb_neq. intros ->. apply Hnot. left. reflexivity.
  - apply IH. intros Hin. apply Hnot. right. exact Hin.
Qed.

(** X7.  When the id made of the clock reading is not yet in the list,
    [addStep] appends one step with that id, and removing that id gives
    the list back. *)
Theorem addStep_removeStep_round_trip clock s l config :
  currentSteps (builder s) = Arr l ->
  step_service (step_form (dom s)) <> "" ->
  step_action (step_form (dom s)) <> "" ->
  JSON.parse (step_config (step_form (dom s))) = Ok config ->
  Forall is_record l ->
  ~ In (Str (WorkflowBuilder.step_id clock)) (step_ids (Arr l)) ->
  let s1 := now (WorkflowBuilder.addStep clock s) in
  let s2 := now (WorkflowBuilder.removeStep (Str (WorkflowBuilder.step_id clock)) s1) in
  step_ids (currentSteps (builder s1)) = step_ids (Arr l) ++ [Str (WorkflowBuilder.step_id clock)]
  /\ currentSteps (builder s2) = Arr l.
Proof.
  intros Hl Hs Ha Hc Hrec Hfresh s1 s2. subst s1 s2. split.
  - rewrite (addStep_appends clock s l config Hl Hs Ha Hc), step_ids_app. reflexivity.
  - apply (addStep_removeStep_fresh clock s l config); try assumption; [|reflexivity].
    apply not_in_ids; assumption.
Qed.

(** One step added to the empty draft at the clock reading 1. *)
Lemma addStep_removeStep_round_trip_witness :
  currentSteps (builder (now (WorkflowBuilder.removeStep (Str "step_1") Example.one_step)))
  = Arr [].
Proof.
  pose proof (addStep_removeStep_round_trip 1 Sample.start []
                (Obj [("channel", Str "#ops")])) as H.
  cbn zeta in H. destruct H as [_ Hback];
    [reflexivity | vm_compute; discriminate | vm_compute; discriminate
    | vm_compute; reflexivity | constructor | intros [] | ].
  exact Hback.
Defined.

(** ** Saving the draft *)

Lemma saveWorkflow_new_draft andRun s x l :
  JS.trim (workflow_name (dom s)) <> "" ->
  currentSteps (builder s) = Arr (x :: l) ->
  JS.truthy (currentWorkflow (builder s)) = false ->
  exists k, WorkflowBuilder.saveWorkflow andRun s
            = Suspended (issue (create_request s) s) [] (create_request s) k.
Proof.
  intros Hname Harr Hnew.
  assert (App.is_empty (currentSteps (builder s)) = Ok false) as Hsteps
    by (rewrite Harr; apply is_empty_cons).
  apply String.eqb_neq in Hname.
  unfold WorkflowBuilder.saveWorkflow. rewrite Hname. unfold eval at 1.
  rewrite Hsteps, Hnew.
  unfold try_catch, await at 1. unfold await at 1. unfold await at 1.
  unfold APIClient.createWorkflow, APIClient.request. cbn [after also app].
  eexists. reflexivity.
Qed.

(** X8.  A draft with a name and a step is sent to the store: with POST
    to [/workflows] when no workflow is being edited, with PUT to
    [/workflows/<id>] when one is.  The body is the draft in both
    cases. *)
Theorem saveWorkflow_creates_or_updates andRun s x l :
  JS.trim (workflow_name (dom s)) <> "" ->
  currentSteps (builder s) = Arr (x :: l) ->
  (JS.truthy (currentWorkflow (builder s)) = false ->
   exists k, WorkflowBuilder.saveWorkflow andRun s
             = Suspended (issue (create_request s) s) [] (create_request s) k
             /\ method (create_request s) = "POST"
             /\ url (create_request s) = baseURL (api s) +:+ "/workflows")
  /\ (forall id i,
        JS.truthy (currentWorkflow (builder s)) = true ->
        JS.get (currentWorkflow (builder s)) "id" = Ok id ->
        JS.to_string id = Ok i ->
        exists k, WorkflowBuilder.saveWorkflow andRun s
                  = Suspended (issue (update_request i s) s) [] (update_request i s) k
                  /\ method (update_request i s) = "PUT"
                  /\ url (update_request i s) = baseURL (api s) +:+ "/workflows/" +:+ i).
Proof.
  intros Hname Harr.
  assert (App.is_empty (currentSteps (builder s)) = Ok false) as Hsteps
    by (rewrite Harr; apply is_empty_cons).
  split.
  - intros Hnew. destruct (saveWorkflow_new_draft andRun s x l) as [k Hk]; try assumption.
    exists k. split; [exact Hk|]. split; reflexivity.
  - apply String.eqb_neq in Hname. intros id i Hold Hid Hi. unfold WorkflowBuilder.saveWorkflow. rewrite Hname. unfold eval at 1.
    rewrite Hsteps, Hold.
    unfold try_catch, await at 1. unfold await at 1. unfold await at 1.
    unfold eval at 1. rewrite Hid. unfold APIClient.updateWorkflow, eval at 1. rewrite Hi.
    unfold APIClient.request. cbn [after also app].
    eexists. split; [reflexivity|]. split; reflexivity.
Qed.

(** The new draft with one step. *)
Lemma saveWorkflow_creates_or_updates_witness :
  exists k,
    WorkflowBuilder.saveWorkflow false Example.one_step
    = Suspended (issue (create_request Example.one_step) Example.one_step) []
        (create_request Example.one_step) k
    /\ method (create_request Example.one_step) = "POST"
    /\ url (create_request Example.one_step) = "https://flowforge.test/workflows".
Proof.
  destruct (saveWorkflow_creates_or_updates false Example.one_step
              (Example.step_of "step_1") [])
    as [Hnew _]; [vm_compute; discriminate | vm_compute; reflexivity |].
  exact (Hnew eq_refl).
Defined.

Lemma run_save_without_run andRun s x l o saved :
  JS.trim (workflow_name (dom s)) <> "" ->
  currentSteps (builder s) = Arr (x :: l) ->
  JS.truthy (currentWorkflow (builder s)) = false ->
  APIClient.answer o = Ok saved ->
  andRun = false \/ (exists wf, JS.get saved "workflow" = Ok wf /\ JS.truthy wf = false) ->
  exists bg,
    run [o] (WorkflowBuilder.saveWorkflow andRun s) = Finished (Ok Undefined) (after_save s) bg
    /\ length bg = 2%nat.
Proof.
  intros Hname Harr Hnew Ho Hrun.
  assert (App.is_empty (currentSteps (builder s)) = Ok false) as Hsteps
    by (rewrite Harr; apply is_empty_cons).
  apply String.eqb_neq in Hname.
  unfold WorkflowBuilder.saveWorkflow. rewrite Hname. unfold eval at 1. rewrite Hsteps, Hnew.
  unfold try_catch, await at 1. unfold await at 1. unfold await at 1.
  unfold APIClient.createWorkflow, APIClient.request. cbn [after also app].
  rewrite run_suspended, Ho. cbn [after also app].
  unfold modify at 1. cbn [after also app]. unfold ret at 1. cbn [after also app].
  unfold await at 1.
  destruct Hrun as [->|(wf & Hwf & Hfalsy)].
  - unfold ret at 1. cbn [after also app].
    unfold await at 1. unfold detach at 1. cbn [after also app].
    unfold App.showView, await at 1, modify at 1. cbn [after also app String.eqb Ascii.eqb Bool.eqb].
    unfold detach. cbn [after also app run].
    eexists. split; [reflexivity|]. reflexivity.
  - destruct andRun.
    + unfold eval at 1. rewrite Hwf, Hfalsy. unfold ret at 1. cbn [after also app].
      unfold await at 1. unfold detach at 1. cbn [after also app].
      unfold App.showView, await at 1, modify at 1. cbn [after also app String.eqb Ascii.eqb Bool.eqb].
      unfold detach. cbn [after also app run].
      eexists. split; [reflexivity|]. reflexivity.
    + unfold ret at 1. cbn [after also app].
      unfold await at 1. unfold detach at 1. cbn [after also app].
      unfold App.showView, await at 1, modify at 1. cbn [after also app String.eqb Ascii.eqb Bool.eqb].
      unfold detach. cbn [after also app run].
      eexists. split; [reflexivity|]. reflexivity.
Qed.

Lemma after_save_facts s :
  toasts (after_save s) = toasts s ++ [("Workflow created successfully", "success")]
  /\ view (dom (after_save s)) = "workflows"
  /\ List.map called (issued (after_save s))
     = List.map called (issued s) ++ [("POST", baseURL (api s) +:+ "/workflows");
                                      ("GET", baseURL (api s) +:+ "/workflows");
                                      ("GET", baseURL (api s) +:+ "/workflows")]
  /\ builder (after_save s) = builder s
  /\ workflow_name (dom (after_save s)) = workflow_name (dom s)
  /\ api (after_save s) = api s.
Proof.
  unfold after_save. cbn zeta. split; [reflexivity|]. split; [reflexivity|].
  split; [|repeat split].
  rewrite issued_loadWorkflows. cbn [issued with_dom].
  rewrite issued_loadWorkflows. cbn [issued issue Utils.showToast].
  rewrite !List.map_app, <- !List.app_assoc. reflexivity.
Qed.

(** X9.  After a save that succeeded, the list of workflows is asked for
    twice (once by [saveWorkflow], once by the view it switches to), the
    view is that of the workflows, and the builder is as it was: the
    workflow just created is not taken as the one being edited, so saving
    again creates a second one. *)
Theorem saveWorkflow_success_keeps_the_draft s x l o saved :
  JS.trim (workflow_name (dom s)) <> "" ->
  currentSteps (builder s) = Arr (x :: l) ->
  JS.truthy (currentWorkflow (builder s)) = false ->
  APIClient.answer o = Ok saved ->
  let m := run [o] (WorkflowBuilder.saveWorkflow false s) in
  (exists bg, m = Finished (Ok Undefined) (now m) bg /\ length bg = 2%nat)
  /\ toasts (now m) = toasts s ++ [("Workflow created successfully", "success")]
  /\ view (dom (now m)) = "workflows"
  /\ List.map called (issued (now m))
     = List.map called (issued s) ++ [("POST", baseURL (api s) +:+ "/workflows");
                                      ("GET", baseURL (api s) +:+ "/workflows");
                                      ("GET", baseURL (api s) +:+ "/workflows")]
  /\ builder (now m) = builder s
  /\ exists k,
       WorkflowBuilder.saveWorkflow false (now m)
       = Suspended (issue (create_request (now m)) (now m)) [] (create_request (now m)) k
       /\ method (create_request (now m)) = "POST"
       /\ url (create_request (now m)) = baseURL (api s) +:+ "/workflows".
Proof.
  intros Hname Harr Hnew Ho m.
  destruct (run_save_without_run false s x l o saved) as (bg & Hrun & Hbg);
    try assumption; [left; reflexivity|].
  subst m. rewrite Hrun. cbn [now].
  destruct (after_save_facts s) as (Ht & Hv & Hi & Hb & Hn & Ha).
  split; [exists bg; split; [reflexivity|exact Hbg]|].
  split; [exact Ht|]. split; [exact Hv|]. split; [exact Hi|]. split; [exact Hb|].
  destruct (saveWorkflow_new_draft false (after_save s) x l) as [k Hk].
  - rewrite Hn. exact Hname.
  - rewrite Hb. exact Harr.
  - rewrite Hb. exact Hnew.
  - exists k. split; [exact Hk|]. split; [reflexivity|].
    unfold create_request, APIClient.build. cbn [url]. rewrite Ha. reflexivity.
Qed.

(** The new draft, taken by the store as "w1". *)
Lemma saveWorkflow_success_keeps_the_draft_witness :
  let m := run [Example.saved] (WorkflowBuilder.saveWorkflow false Example.one_step) in
  view (dom (now m)) = "workflows"
  /\ builder (now m) = builder Example.one_step.
Proof.
  pose proof (saveWorkflow_success_keeps_the_draft Example.one_step
                (Example.step_of "step_1") [] Example.saved
                (Obj [("workflow", Obj [("id", Str "w1")])])) as H.
  cbn zeta in H. destruct H as (_ & _ & Hview & _ & Hbuilder & _);
    [vm_compute; discriminate | vm_compute; reflexivity | reflexivity
    | vm_compute; reflexivity | ].
  cbn zeta. split; [exact Hview | exact Hbuilder].
Defined.

(** X10.  Save-and-run on a reply that carries no workflow runs
    nothing: what happens is what the plain save does. *)
Theorem saveWorkflow_skips_run_without_workflow s x l o saved wf :
  JS.trim (workflow_name (dom s)) <> "" ->
  currentSteps (builder s) = Arr (x :: l) ->
  JS.truthy (currentWorkflow (builder s)) = false ->
  APIClient.answer o = Ok saved ->
  JS.get saved "workflow" = Ok wf ->
  JS.truthy wf = false ->
  let m := run [o] (WorkflowBuilder.saveWorkflow true s) in
  (exists bg, m = Finished (Ok Undefined) (now m) bg /\ length bg = 2%nat)
  /\ now m = now (run [o] (WorkflowBuilder.saveWorkflow false s))
  /\ toasts (now m) = toasts s ++ [("Workflow created successfully", "success")]
  /\ List.map called (issued (now m))
     = List.map called (issued s) ++ [("POST", baseURL (api s) +:+ "/workflows");
                                      ("GET", baseURL (api s) +:+ "/workflows");
                                      ("GET", baseURL (api s) +:+ "/workflows")].
Proof.
  intros Hname Harr Hnew Ho Hwf Hfalsy m.
  destruct (run_save_without_run true s x l o saved) as (bg & Hrun & Hbg);
    try assumption; [right; exists wf; split; assumption|].
  destruct (run_save_without_run false s x l o saved) as (bg' & Hrun' & _);
    try assumption; [left; reflexivity|].
  subst m. rewrite Hrun, Hrun'. cbn [now].
  destruct (after_save_facts s) as (Ht & Hv & Hi & Hb & Hn & Ha).
  split; [exists bg; split; [reflexivity|exact Hbg]|].
  split; [reflexivity|]. split; assumption.
Qed.

(** A store that answers with no workflow. *)
Lemma saveWorkflow_skips_run_without_workflow_witness :
  toasts (now (run [Sample.respond 200 "OK" "{'workflow':null}"]
                 (WorkflowBuilder.saveWorkflow true Example.one_step)))
  = [("Workflow created successfully", "success")].
Proof.
  pose proof (saveWorkflow_skips_run_without_workflow Example.one_step
                (Example.step_of "step_1") [] (Sample.respond 200 "OK" "{'workflow':null}")
                (Obj [("workflow", Null)]) Null) as H.
  cbn zeta in H. destruct H as (_ & _ & Htoasts & _);
    [vm_compute; discriminate | vm_compute; reflexivity | reflexivity
    | vm_compute; reflexivity | reflexivity | reflexivity | ].
  exact Htoasts.
Defined.

Lemma run_save_and_run s x l o1 o2 saved wf id i started :
  JS.trim (workflow_name (dom s)) <> "" ->
  currentSteps (builder s) = Arr (x :: l) ->
  JS.truthy (currentWorkflow (builder s)) = false ->
  APIClient.answer o1 = Ok saved ->
  JS.get saved "workflow" = Ok wf ->
  JS.truthy wf = true ->
  JS.get wf "id" = Ok id ->
  JS.to_string id = Ok i ->
  APIClient.answer o2 = Ok started ->
  exists bg,
    run [o1; o2] (WorkflowBuilder.saveWorkflow true s)
    = Finished (Ok Undefined) (after_save_and_run i s) bg
    /\ length bg = 2%nat.
Proof.
  intros Hname Harr Hnew Ho1 Hwf Htruthy Hid Hi Ho2.
  assert (App.is_empty (currentSteps (builder s)) = Ok false) as Hsteps
    by (rewrite Harr; apply is_empty_cons).
  apply String.eqb_neq in Hname.
  unfold WorkflowBuilder.saveWorkflow. rewrite Hname. unfold eval at 1. rewrite Hsteps, Hnew.
  unfold try_catch, await at 1. unfold await at 1. unfold await at 1.
  unfold APIClient.createWorkflow, APIClient.request. cbn [after also app].
  rewrite run_suspended, Ho1. cbn [after also app].
  unfold modify at 1. cbn [after also app]. unfold ret at 1. cbn [after also app].
  unfold await at 1. unfold eval at 1. rewrite Hwf, Htruthy. unfold await at 1, eval at 1.
  rewrite Hid. unfold APIClient.executeWorkflow, eval at 1. rewrite Hi.
  unfold APIClient.request. cbn [after also app].
  rewrite run_suspended, Ho2. cbn [after also app].
  unfold modify at 1. cbn [after also app].
  unfold await at 1. unfold detach at 1. cbn [after also app].
  unfold App.showView, await at 1, modify at 1. cbn [after also app String.eqb Ascii.eqb Bool.eqb].
  unfold detach. cbn [after also app run].
  eexists. split; reflexivity.
Qed.

(** X11.  Save-and-run, both calls succeeding: the draft is created,
    the workflow of the reply is executed by its id, two toasts tell so in
    that order, and the list is loaded as after a plain save. *)
Theorem saveWorkflow_and_run s x l o1 o2 saved wf id i started :
  JS.trim (workflow_name (dom s)) <> "" ->
  currentSteps (builder s) = Arr (x :: l) ->
  JS.truthy (currentWorkflow (builder s)) = false ->
  APIClient.answer o1 = Ok saved ->
  JS.get saved "workflow" = Ok wf ->
  JS.truthy wf = true ->
  JS.get wf "id" = Ok id ->
  JS.to_string id = Ok i ->
  APIClient.answer o2 = Ok started ->
  let m := run [o1; o2] (WorkflowBuilder.saveWorkflow true s) in
  (exists bg, m = Finished (Ok Undefined) (now m) bg /\ length bg = 2%nat)
  /\ toasts (now m) = toasts s ++ [("Workflow created successfully", "success");
                                   ("Workflow execution started", "success")]
  /\ view (dom (now m)) = "workflows"
  /\ List.map called (issued (now m))
     = List.map called (issued s)
       ++ [("POST", baseURL (api s) +:+ "/workflows");
           ("POST", baseURL (api s) +:+ "/workflows/" +:+ i +:+ "/execute");
           ("GET", baseURL (api s) +:+ "/workflows");
           ("GET", baseURL (api s) +:+ "/workflows")].
Proof.
  intros Hname Harr Hnew Ho1 Hwf Htruthy Hid Hi Ho2 m.
  destruct (run_save_and_run s x l o1 o2 saved wf id i started) as (bg & Hrun & Hbg);
    try assumption.
  subst m. rewrite Hrun. cbn [now]. unfold after_save_and_run. cbn zeta.
  split; [exists bg; split; [reflexivity|exact Hbg]|].
  split. { cbn [toasts now App.loadWorkflows]. cbn. rewrite <- List.app_assoc. reflexivity. }
  split; [reflexivity|].
  rewrite issued_loadWorkflows. cbn [issued with_dom].
  rewrite issued_loadWorkflows. cbn [issued issue Utils.showToast].
  rewrite !List.map_app, <- !List.app_assoc. reflexivity.
Qed.

(** The store takes the draft as "w1" and the engine starts it. *)
Lemma saveWorkflow_and_run_witness :
  toasts (now (run [Example.saved; Sample.respond 200 "OK" "{'status':'started'}"]
                 (WorkflowBuilder.saveWorkflow true Example.one_step)))
  = [("Workflow created successfully", "success"); ("Workflow execution started", "success")].
Proof.
  pose proof (saveWorkflow_and_run Example.one_step
                (Example.step_of "step_1") [] Example.saved
                (Sample.respond 200 "OK" "{'status':'started'}")
                (Obj [("workflow", Obj [("id", Str "w1")])]) (Obj [("id", Str "w1")])
                (Str "w1") "w1" (Obj [("status", Str "started")])) as H.
  cbn zeta in H. destruct H as (_ & Htoasts & _);
    [vm_compute; discriminate | vm_compute; reflexivity | reflexivity
    | vm_compute; reflexivity | reflexivity | reflexivity | reflexivity | reflexivity
    | vm_compute; reflexivity | ].
  exact Htoasts.
Defined.

(** ** What the loads do *)

Lemma single_load_commits (get : async) body key (setter : value -> app_t -> app_t)
      (render : state -> result unit) label message s o data v :
  (forall s0, get s0 = Suspended (issue (APIClient.build body no_options s0) s0) []
                     (APIClient.build body no_options s0)
                     (fun o s' => match APIClient.answer o with
                                  | Ok v => Finished (Ok v) s' []
                                  | Throw e => Finished (Throw e) (console_error "API Request failed:" e s') []
                                  end)) ->
  APIClient.answer o = Ok data ->
  JS.get data key = Ok v ->
  exists s',
    now (run [o]
           (try_catch
              (let! data := get in
               (let? w := JS.get data key in
                modify (with_app (setter (JS.or w (Arr []))))) ;;
               check render)
              (fun error =>
                 modify (console_error label error) ;;
                 modify (Utils.showToast message "error")) s)) = s'
    /\ app s' = setter (JS.or v (Arr [])) (app s)
    /\ builder s' = builder s
    /\ issued s' = issued s ++ [APIClient.build body no_options s].
Proof.
  intros Hget Ho Hv.
  unfold try_catch, await at 1. rewrite Hget. cbn [after also app].
  rewrite run_suspended, Ho. cbn [after also app].
  unfold await at 1. unfold eval at 1. rewrite Hv. unfold modify at 1. cbn [after also app].
  unfold check. destruct (render _); cbn [after also app run now];
    unfold await, modify; cbn [after also app now]; eexists; repeat split.
Qed.

(** X12.  Each load of a single list replaces its cache by the list of
    the reply, or by the empty list when the reply has none, whether
    or not the list can be rendered afterwards. *)
Theorem load_replaces_the_cache s o data v :
  APIClient.answer o = Ok data ->
  (JS.get data "workflows" = Ok v ->
   app (now (run [o] (App.loadWorkflows s))) = set_workflows (JS.or v (Arr [])) (app s))
  /\ (JS.get data "runs" = Ok v ->
      app (now (run [o] (App.loadExecutions s))) = set_executions (JS.or v (Arr [])) (app s))
  /\ (JS.get data "credentials" = Ok v ->
      app (now (run [o] (App.loadCredentials s))) = set_credentials (JS.or v (Arr [])) (app s))
  /\ (JS.get data "templates" = Ok v ->
      app (now (run [o] (App.loadTemplates s))) = set_templates (JS.or v (Arr [])) (app s)).
Proof.
  intros Ho. repeat split; intros Hv.
  - destruct (single_load_commits APIClient.getWorkflows "/workflows" "workflows" set_workflows
                App.renderWorkflows "Failed to load workflows:" "Failed to load workflows"
                s o data v) as (s' & Hs' & Happ & _); [reflexivity|exact Ho|exact Hv|].
    unfold App.loadWorkflows. rewrite Hs'. exact Happ.
  - destruct (single_load_commits (APIClient.getRuns Null 100) "/runs?limit=100" "runs"
                set_executions App.renderExecutions "Failed to load executions:"
                "Failed to load executions" s o data v) as (s' & Hs' & Happ & _);
      [reflexivity|exact Ho|exact Hv|].
    unfold App.loadExecutions. rewrite Hs'. exact Happ.
  - destruct (single_load_commits (APIClient.getCredentials Null) "/credentials" "credentials"
                set_credentials App.renderCredentials "Failed to load credentials:"
                "Failed to load credentials" s o data v) as (s' & Hs' & Happ & _);
      [reflexivity|exact Ho|exact Hv|].
    unfold App.loadCredentials. rewrite Hs'. exact Happ.
  - destruct (single_load_commits (APIClient.getTemplates Null) "/templates" "templates"
                set_templates App.renderTemplates "Failed to load templates:"
                "Failed to load templates" s o data v) as (s' & Hs' & Happ & _);
      [reflexivity|exact Ho|exact Hv|].
    unfold App.loadTemplates. rewrite Hs'. exact Happ.
Qed.

(** One active workflow on the server. *)
Lemma load_replaces_the_cache_witness :
  workflows (app (now (run [Sample.respond 200 "OK"
                              "{'workflows':[{'id':'w1','status':'active'}]}"]
                         (App.loadWorkflows Sample.start))))
  = Arr Sample.one_workflow.
Proof.
  destruct (load_replaces_the_cache Sample.start
              (Sample.respond 200 "OK" "{'workflows':[{'id':'w1','status':'active'}]}")
              (Obj [("workflows", Arr Sample.one_workflow)]) (Arr Sample.one_workflow))
    as [Hworkflows _]; [vm_compute; reflexivity|].
  rewrite (Hworkflows eq_refl). reflexivity.
Defined.

Lemma single_load_reports (get : async) body label message s o e k :
  (forall s0, get s0 = Suspended (issue (APIClient.build body no_options s0) s0) []
                     (APIClient.build body no_options s0)
                     (fun o s' => match APIClient.answer o with
                                  | Ok v => Finished (Ok v) s' []
                                  | Throw e => Finished (Throw e) (console_error "API Request failed:" e s') []
                                  end)) ->
  APIClient.answer o = Throw e ->
  run [o] (try_catch (await get k)
             (fun error => modify (console_error label error) ;;
                           modify (Utils.showToast message "error")) s)
  = Finished (Ok Undefined)
      (Utils.showToast message "error"
         (console_error label e
            (console_error "API Request failed:" e
               (issue (APIClient.build body no_options s) s)))) [].
Proof.
  intros Hget Ho. unfold try_catch, await at 1. rewrite Hget. cbn [after also app].
  rewrite run_suspended, Ho. cbn [after also app]. reflexivity.
Qed.

(** X13.  A load of a single list whose request fails is reported
    twice on the console (by the client, then by the load) and once to the
    user, with the toast of that list; the view stays. *)
Theorem failed_load_is_reported s o e :
  APIClient.answer o = Throw e ->
  let report (m : step) (what : string) :=
    exists s', m = Finished (Ok Undefined) s' []
               /\ toasts s' = toasts s ++ [("Failed to load " +:+ what, "error")]
               /\ console s' = console s ++ [("API Request failed:", e);
                                             ("Failed to load " +:+ what +:+ ":", e)]
               /\ view (dom s') = view (dom s) in
  report (run [o] (App.loadWorkflows s)) "workflows"
  /\ report (run [o] (App.loadExecutions s)) "executions"
  /\ report (run [o] (App.loadCredentials s)) "credentials"
  /\ report (run [o] (App.loadTemplates s)) "templates".
Proof.
  intros Ho report. subst report. cbn beta.
  repeat split.
  - unfold App.loadWorkflows.
    rewrite (single_load_reports APIClient.getWorkflows "/workflows" _ _ s o e)
      by (reflexivity || exact Ho).
    eexists. split; [reflexivity|]. cbn. rewrite <- List.app_assoc. repeat split.
  - unfold App.loadExecutions.
    rewrite (single_load_reports (APIClient.getRuns Null 100) "/runs?limit=100" _ _ s o e)
      by (reflexivity || exact Ho).
    eexists. split; [reflexivity|]. cbn. rewrite <- List.app_assoc. repeat split.
  - unfold App.loadCredentials.
    rewrite (single_load_reports (APIClient.getCredentials Null) "/credentials" _ _ s o e)
      by (reflexivity || exact Ho).
    eexists. split; [reflexivity|]. cbn. rewrite <- List.app_assoc. repeat split.
  - unfold App.loadTemplates.
    rewrite (single_load_reports (APIClient.getTemplates Null) "/templates" _ _ s o e)
      by (reflexivity || exact Ho).
    eexists. split; [reflexivity|]. cbn. rewrite <- List.app_assoc. repeat split.
Qed.

(** The server is down while the credentials are loaded. *)
Lemma failed_load_is_reported_witness :
  toasts (now (run [Example.down] (App.loadCredentials Sample.start)))
  = [("Failed to load credentials", "error")].
Proof.
  pose proof (failed_load_is_reported Sample.start Example.down (JS.Error "down")) as H.
  cbn zeta beta in H. destruct H as (_ & _ & (s' & Hrun & Htoasts & _) & _);
    [vm_compute; reflexivity|].
  rewrite Hrun. exact Htoasts.
Defined.

(** X14.  A load of the dashboard replaces the workflows shown and
    counts them: all of them, and those whose status is [active]; it
    counts the runs of the reply.  Credentials, templates and the view
    stay.  The order in which the two replies arrive makes no difference
    to the lists or to the page. *)
Theorem dashboard_lists_and_counters s o1 o2 wd rd wv rv wl rl :
  APIClient.answer o1 = Ok wd ->
  JS.get wd "workflows" = Ok wv -> JS.or wv (Arr []) = Arr wl ->
  APIClient.answer o2 = Ok rd ->
  JS.get rd "runs" = Ok rv -> JS.or rv (Arr []) = Arr rl ->
  Forall is_record wl -> Forall is_record rl ->
  forall runs_first,
  let s' := now (run_arrivals (dashboard_arrivals runs_first o1 o2) (App.loadDashboard s)) in
  workflows (app s') = Arr wl
  /\ total_workflows (dom s') = JS.number_to_string (Z.of_nat (length wl)) 0
  /\ active_workflows (dom s')
     = JS.number_to_string (Z.of_nat (length (List.filter (status_is "active") wl))) 0
  /\ total_executions (dom s') = JS.number_to_string (Z.of_nat (length rl)) 0
  /\ credentials (app s') = credentials (app s)
  /\ templates (app s') = templates (app s)
  /\ view (dom s') = view (dom s)
  /\ app s' = app (now (run_arrivals (dashboard_arrivals (negb runs_first) o1 o2)
                          (App.loadDashboard s)))
  /\ dom s' = dom (now (run_arrivals (dashboard_arrivals (negb runs_first) o1 o2)
                          (App.loadDashboard s))).
Proof.
  intros Ho1 Hwv Hwl Ho2 Hrv Hrl Hrw Hrr runs_first s'.
  destruct (loadDashboard_counts runs_first s o1 o2 wd rd wv rv wl rl)
    as (s1 & Hs1 & _ & Happ & Hdom); try assumption.
  destruct (loadDashboard_counts (negb runs_first) s o1 o2 wd rd wv rv wl rl)
    as (s2 & Hs2 & _ & Happ2 & Hdom2); try assumption.
  subst s'. rewrite Hs1, Hs2, Happ, Hdom, Happ2, Hdom2. repeat split.
Qed.

(** One active workflow and ten runs; the runs arrive first. *)
Lemma dashboard_lists_and_counters_witness :
  let s' := now (run_arrivals
                   [(true, Sample.respond 200 "OK" Sample.ten_runs_text);
                    (false, Sample.respond 200 "OK"
                              "{'workflows':[{'id':'w1','status':'active'}]}")]
                   (App.loadDashboard Sample.start)) in
  total_workflows (dom s') = "1" /\ active_workflows (dom s') = "1"
  /\ total_executions (dom s') = "10".
Proof.
  cbn zeta.
  destruct (dashboard_lists_and_counters Sample.start
              (Sample.respond 200 "OK" "{'workflows':[{'id':'w1','status':'active'}]}")
              (Sample.respond 200 "OK" Sample.ten_runs_text)
              (Obj [("workflows", Arr Sample.one_workflow)])
              (Obj [("runs", Arr Sample.ten_runs)])
              (Arr Sample.one_workflow) (Arr Sample.ten_runs)
              Sample.one_workflow Sample.ten_runs)
    with (runs_first := true)
    as (_ & Htotal & Hactive & Hruns & _);
    [ vm_compute; reflexivity | vm_compute; reflexivity | vm_compute; reflexivity
    | vm_compute; reflexivity | vm_compute; reflexivity | vm_compute; reflexivity
    | repeat (constructor; [split; discriminate|]); constructor
    | repeat (constructor; [split; discriminate|]); constructor
    | ].
  split; [|split].
  - etransitivity; [exact Htotal|]. vm_compute. reflexivity.
  - etransitivity; [exact Hactive|]. vm_compute. reflexivity.
  - etransitivity; [exact Hruns|]. vm_compute. reflexivity.
Defined.

Lemma loadDashboard_first_fails second s o e :
  APIClient.answer o = Throw e ->
  exists s' t,
    run_arrivals [(second, o)] (App.loadDashboard s) = Finished (Ok Undefined) s' [t]
    /\ toasts s' = toasts s ++ [("Failed to load dashboard data", "error")]
    /\ console s' = console s ++ [("API Request failed:", e); ("Failed to load dashboard:", e)]
    /\ dom s' = dom s.
Proof.
  intros Ho.
  unfold App.loadDashboard. rewrite getRuns_dashboard.
  unfold try_catch, await at 1, Promise_all2, APIClient.getWorkflows, APIClient.request.
  cbn [now after also app].
  rewrite run_arrivals_racing. destruct second; cbn iota; rewrite Ho;
    cbn [now after also app join_rest run_arrivals]; unfold await, modify;
    cbn [now after also app];
    (eexists; eexists; split; [reflexivity|]);
    (split; [reflexivity|]);
    (split; [cbn [console console_error issue Utils.showToast]; rewrite <- List.app_assoc;
             reflexivity|]);
    reflexivity.
Qed.

Lemma loadDashboard_second_fails second s o1 o2 v e :
  APIClient.answer o1 = Ok v ->
  APIClient.answer o2 = Throw e ->
  exists s',
    run_arrivals [(second, o1); (false, o2)] (App.loadDashboard s) = Finished (Ok Undefined) s' []
    /\ toasts s' = toasts s ++ [("Failed to load dashboard data", "error")]
    /\ console s' = console s ++ [("API Request failed:", e); ("Failed to load dashboard:", e)]
    /\ dom s' = dom s.
Proof.
  intros Ho1 Ho2.
  unfold App.loadDashboard. rewrite getRuns_dashboard.
  unfold try_catch, await at 1, Promise_all2, APIClient.getWorkflows, APIClient.request.
  cbn [now after also app].
  rewrite run_arrivals_racing. destruct second; cbn iota; rewrite Ho1;
    cbn [now after also app join_rest]; rewrite run_arrivals_suspended, Ho2;
    cbn [now after also app join_rest run_arrivals]; unfold await, modify;
    cbn [now after also app];
    (eexists; split; [reflexivity|]);
    (split; [reflexivity|]);
    (split; [cbn [console console_error issue Utils.showToast]; rewrite <- List.app_assoc;
             reflexivity|]);
    reflexivity.
Qed.

(** X15.  When one of the two requests of the dashboard fails, be it
    the first reply to arrive or the second, the load ends with the toast
    "Failed to load dashboard data" and two lines on the console, and the
    counters stay. *)
Theorem dashboard_failure_is_reported s o e :
  APIClient.answer o = Throw e ->
  (forall second,
     exists s' t,
       run_arrivals [(second, o)] (App.loadDashboard s) = Finished (Ok Undefined) s' [t]
       /\ toasts s' = toasts s ++ [("Failed to load dashboard data", "error")]
       /\ console s' = console s ++ [("API Request failed:", e);
                                     ("Failed to load dashboard:", e)]
       /\ dom s' = dom s)
  /\ (forall second o1 v, APIClient.answer o1 = Ok v ->
        exists s',
          run_arrivals [(second, o1); (false, o)] (App.loadDashboard s)
          = Finished (Ok Undefined) s' []
          /\ toasts s' = toasts s ++ [("Failed to load dashboard data", "error")]
          /\ console s' = console s ++ [("API Request failed:", e);
                                        ("Failed to load dashboard:", e)]
          /\ dom s' = dom s).
Proof.
  intros Ho. split.
  - intros second. exact (loadDashboard_first_fails second s o e Ho).
  - intros second o1 v Ho1. exact (loadDashboard_second_fails second s o1 o v e Ho1 Ho).
Qed.

(** The request for the runs is the first to be answered, and fails. *)
Lemma dashboard_failure_is_reported_witness :
  exists s' t,
    run_arrivals [(true, Example.down)] (App.loadDashboard Sample.start)
    = Finished (Ok Undefined) s' [t]
    /\ toasts s' = [("Failed to load dashboard data", "error")].
Proof.
  destruct (dashboard_failure_is_reported Sample.start Example.down (JS.Error "down"))
    as [Hfirst _]; [vm_compute; reflexivity|].
  destruct (Hfirst true) as (s' & t & Hrun & Htoasts & _).
  exists s', t. split; [exact Hrun | exact Htoasts].
Defined.

(** ** The catalog *)

Lemma init_commits second s o1 o2 sd cd sv cv :
  APIClient.answer o1 = Ok sd -> JS.get sd "services" = Ok sv ->
  APIClient.answer o2 = Ok cd -> JS.get cd "connectors" = Ok cv ->
  exists s' bg,
    run_arrivals (if second : bool then [(true, o2); (false, o1)] else [(false, o1); (false, o2)])
      (WorkflowBuilder.init s) = Finished (Ok Undefined) s' bg
    /\ bg = []
    /\ builder s' = set_availableConnectors (JS.or cv (Arr []))
                      (set_availableServices (JS.or sv (Arr [])) (builder s))
    /\ issued s' = issued s ++ [APIClient.build "/services" no_options s;
                                APIClient.build "/api/connectors" no_options s]
    /\ app s' = app s
    /\ toasts s' = toasts s.
Proof.
  intros Ho1 Hsv Ho2 Hcv.
  unfold WorkflowBuilder.init. rewrite getServices_all.
  unfold try_catch, await at 1, Promise_all2, APIClient.getConnectors, APIClient.request.
  cbn [now after also app].
  destruct second;
    rewrite run_arrivals_racing; cbn iota;
    [rewrite Ho2|rewrite Ho1]; cbn [now after also app join_rest];
    rewrite run_arrivals_suspended;
    [rewrite Ho1|rewrite Ho2]; cbn [now after also app run_arrivals JS.pair_of fst snd];
    (unfold await at 1; unfold eval at 1; rewrite Hsv; unfold modify at 1;
     cbn [after also app];
     unfold await at 1; unfold eval at 1; rewrite Hcv; unfold modify at 1;
     cbn [after also app]; unfold check;
     match goal with |- context [WorkflowBuilder.populateServiceDropdown ?st] =>
       destruct (WorkflowBuilder.populateServiceDropdown st) end;
     cbn [after also app now]; unfold modify; cbn [after also app now];
     (eexists; eexists; split; [reflexivity|]);
     (split; [reflexivity|]);
     (split; [reflexivity|]);
     (split; [cbn [issued issue with_app with_dom with_builder console_error Utils.showToast];
              rewrite <- List.app_assoc; reflexivity|]);
     split; reflexivity).
Qed.

(** X16.  The load of the catalog asks for [/services] and
    [/api/connectors] and puts the two lists of the replies into the
    builder, in either order of arrival; the draft, the lists of the
    application and the toasts stay. *)
Theorem catalog_load_fills_the_builder s o1 o2 sd cd sv cv :
  APIClient.answer o1 = Ok sd -> JS.get sd "services" = Ok sv ->
  APIClient.answer o2 = Ok cd -> JS.get cd "connectors" = Ok cv ->
  forall os, os = [(false, o1); (false, o2)] \/ os = [(true, o2); (false, o1)] ->
  exists s',
    run_arrivals os (WorkflowBuilder.init s) = Finished (Ok Undefined) s' []
    /\ availableServices (builder s') = JS.or sv (Arr [])
    /\ availableConnectors (builder s') = JS.or cv (Arr [])
    /\ currentSteps (builder s') = currentSteps (builder s)
    /\ currentWorkflow (builder s') = currentWorkflow (builder s)
    /\ List.map called (issued s')
       = List.map called (issued s) ++ [("GET", baseURL (api s) +:+ "/services");
                                        ("GET", baseURL (api s) +:+ "/api/connectors")]
    /\ app s' = app s
    /\ toasts s' = toasts s.
Proof.
  intros Ho1 Hsv Ho2 Hcv os Hos.
  assert (exists second, os = if second : bool then [(true, o2); (false, o1)]
                              else [(false, o1); (false, o2)]) as [second ->].
  { destruct Hos as [->| ->]; [exists false|exists true]; reflexivity. }
  destruct (init_commits second s o1 o2 sd cd sv cv)
    as (s' & bg & Hrun & -> & Hb & Hi & Ha & Ht); try assumption.
  exists s'. split; [exact Hrun|]. rewrite Hb, Hi, Ha, Ht, List.map_app.
  repeat split.
Qed.

(** One connector and no service; the connectors arrive first. *)
Lemma catalog_load_fills_the_builder_witness :
  exists s',
    run_arrivals [(true, Sample.respond 200 "OK" "{'connectors':[{'name':'slack'}]}");
                  (false, Sample.respond 200 "OK" "{'services':[]}")]
      (WorkflowBuilder.init Sample.start) = Finished (Ok Undefined) s' []
    /\ availableConnectors (builder s') = Arr [Obj [("name", Str "slack")]]
    /\ availableServices (builder s') = Arr [].
Proof.
  destruct (catalog_load_fills_the_builder Sample.start
              (Sample.respond 200 "OK" "{'services':[]}")
              (Sample.respond 200 "OK" "{'connectors':[{'name':'slack'}]}")
              (Obj [("services", Arr [])])
              (Obj [("connectors", Arr [Obj [("name", Str "slack")]])])
              (Arr []) (Arr [Obj [("name", Str "slack")]])
              ltac:(vm_compute; reflexivity) eq_refl ltac:(vm_compute; reflexivity) eq_refl
              _ (or_intror eq_refl))
    as (s' & Hrun & Hservices & Hconnectors & _).
  exists s'. split; [exact Hrun|]. split; [exact Hconnectors | exact Hservices].
Defined.

Lemma init_first_fails second s o e :
  APIClient.answer o = Throw e ->
  exists s' t,
    run_arrivals [(second, o)] (WorkflowBuilder.init s) = Finished (Ok Undefined) s' [t]
    /\ toasts s' = toasts s
    /\ console s' = console s ++ [("API Request failed:", e); ("Failed to load services:", e)]
    /\ builder s' = builder s
    /\ app s' = app s.
Proof.
  intros Ho.
  unfold WorkflowBuilder.init. rewrite getServices_all.
  unfold try_catch, await at 1, Promise_all2, APIClient.getConnectors, APIClient.request.
  cbn [now after also app].
  rewrite run_arrivals_racing. destruct second; cbn iota; rewrite Ho;
    cbn [now after also app join_rest run_arrivals]; unfold modify;
    (eexists; eexists; split; [reflexivity|]);
    (split; [reflexivity|]);
    (split; [cbn [console console_error issue]; rewrite <- List.app_assoc; reflexivity|]);
    split; reflexivity.
Qed.

Lemma init_second_fails second s o1 o2 v e :
  APIClient.answer o1 = Ok v ->
  APIClient.answer o2 = Throw e ->
  exists s',
    run_arrivals [(second, o1); (false, o2)] (WorkflowBuilder.init s) = Finished (Ok Undefined) s' []
    /\ toasts s' = toasts s
    /\ console s' = console s ++ [("API Request failed:", e); ("Failed to load services:", e)]
    /\ builder s' = builder s
    /\ app s' = app s.
Proof.
  intros Ho1 Ho2.
  unfold WorkflowBuilder.init. rewrite getServices_all.
  unfold try_catch, await at 1, Promise_all2, APIClient.getConnectors, APIClient.request.
  cbn [now after also app].
  rewrite run_arrivals_racing. destruct second; cbn iota; rewrite Ho1;
    cbn [now after also app join_rest]; rewrite run_arrivals_suspended, Ho2;
    cbn [now after also app join_rest run_arrivals]; unfold modify;
    (eexists; split; [reflexivity|]);
    (split; [reflexivity|]);
    (split; [cbn [console console_error issue]; rewrite <- List.app_assoc; reflexivity|]);
    split; reflexivity.
Qed.

(** X17.  A failed load of the catalog is not shown to the user: there
    is no toast, only two lines on the console, and the builder stays. *)
Theorem catalog_failure_is_silent s o e :
  APIClient.answer o = Throw e ->
  (forall second,
     exists s' t,
       run_arrivals [(second, o)] (WorkflowBuilder.init s) = Finished (Ok Undefined) s' [t]
       /\ toasts s' = toasts s
       /\ console s' = console s ++ [("API Request failed:", e); ("Failed to load services:", e)]
       /\ builder s' = builder s)
  /\ (forall second o1 v, APIClient.answer o1 = Ok v ->
        exists s',
          run_arrivals [(second, o1); (false, o)] (WorkflowBuilder.init s)
          = Finished (Ok Undefined) s' []
          /\ toasts s' = toasts s
          /\ console s' = console s ++ [("API Request failed:", e);
                                        ("Failed to load services:", e)]
          /\ builder s' = builder s).
Proof.
  intros Ho. split.
  - intros second. destruct (init_first_fails second s o e Ho) as (s' & t & H1 & H2 & H3 & H4 & _).
    exists s', t. repeat split; assumption.
  - intros second o1 v Ho1.
    destruct (init_second_fails second s o1 o v e Ho1 Ho) as (s' & H1 & H2 & H3 & H4 & _).
    exists s'. repeat split; assumption.
Qed.

(** The request for the services fails. *)
Lemma catalog_failure_is_silent_witness :
  exists s' t,
    run_arrivals [(false, Example.down)] (WorkflowBuilder.init Sample.start)
    = Finished (Ok Undefined) s' [t]
    /\ toasts s' = [].
Proof.
  destruct (catalog_failure_is_silent Sample.start Example.down (JS.Error "down"))
    as [Hfirst _]; [vm_compute; reflexivity|].
  destruct (Hfirst false) as (s' & t & Hrun & Htoasts & _).
  exists s', t. split; [exact Hrun | exact Htoasts].
Defined.

(** ** Deleting and adding credentials *)

(** X18.  A delete the user has confirmed and the server has refused
    shows the message of the error in a toast and does nothing else: no
    list is loaded again. *)
Theorem delete_failure_only_reports id i s o e :
  JS.to_string id = Ok i ->
  APIClient.answer o = Throw e ->
  (exists s',
     run [o] (App.deleteWorkflow true id s) = Finished (Ok Undefined) s' []
     /\ toasts s' = toasts s ++ [("Failed to delete workflow: " +:+ emessage e, "error")]
     /\ issued s' = issued s ++ [APIClient.build ("/workflows/" +:+ i) delete_options s]
     /\ app s' = app s /\ dom s' = dom s)
  /\ (exists s',
        run [o] (App.deleteCredential true id s) = Finished (Ok Undefined) s' []
        /\ toasts s' = toasts s ++ [("Failed to delete credential: " +:+ emessage e, "error")]
        /\ issued s' = issued s ++ [APIClient.build ("/credentials/" +:+ i) delete_options s]
        /\ app s' = app s /\ dom s' = dom s).
Proof.
  intros Hid Ho. split.
  - unfold App.deleteWorkflow. cbn [negb]. unfold try_catch at 1.
    unfold await at 1. unfold APIClient.deleteWorkflow, eval. rewrite Hid.
    unfold APIClient.request. cbn [after]. rewrite run_suspended, Ho.
    cbn [after also app]. fold delete_options. unfold modify. cbn [run].
    eexists. split; [reflexivity|]. repeat split.
  - unfold App.deleteCredential. cbn [negb]. unfold try_catch at 1.
    unfold await at 1. unfold APIClient.deleteCredential, eval. rewrite Hid.
    unfold APIClient.request. cbn [after]. rewrite run_suspended, Ho.
    cbn [after also app]. fold delete_options. unfold modify. cbn [run].
    eexists. split; [reflexivity|]. repeat split.
Qed.

(** The server is down while "w1" is deleted. *)
Lemma delete_failure_only_reports_witness :
  exists s',
    run [Example.down] (App.deleteWorkflow true (Str "w1") Sample.start)
    = Finished (Ok Undefined) s' []
    /\ toasts s' = [("Failed to delete workflow: down", "error")]
    /\ List.map url (issued s') = ["https://flowforge.test/workflows/w1"].
Proof.
  destruct (delete_failure_only_reports (Str "w1") "w1" Sample.start Example.down
              (JS.Error "down") eq_refl)
    as [(s' & Hrun & Htoasts & Hissued & _) _]; [vm_compute; reflexivity|].
  exists s'. split; [exact Hrun|]. split; [exact Htoasts|]. rewrite Hissued. reflexivity.
Defined.

(** X19.  [addCredential] validates before it calls the server: a name
    or a service that is blank after trimming, no type, or data that are
    no JSON end in one toast of an error and no request. *)
Theorem addCredential_rejects_invalid_form form s :
  JS.trim (App.cred_name form) = "" \/ JS.trim (App.cred_service form) = "" \/ App.cred_type form = ""
  \/ (exists e, JSON.parse (App.cred_data form) = Throw e) ->
  exists message,
    App.addCredential form s = Finished (Ok Undefined) (Utils.showToast message "error" s) []
    /\ (message = "Please fill all required fields" \/ message = "Invalid JSON data").
Proof.
  intros H. unfold App.addCredential. cbn zeta.
  destruct (String.eqb_spec (JS.trim (App.cred_name form)) "") as [Hn|Hn].
  { eexists. split; [reflexivity|left; reflexivity]. }
  destruct (String.eqb_spec (JS.trim (App.cred_service form)) "") as [Hs|Hs].
  { eexists. split; [reflexivity|left; reflexivity]. }
  destruct (String.eqb_spec (App.cred_type form) "") as [Ht|Ht].
  { eexists. split; [reflexivity|left; reflexivity]. }
  cbn [orb]. destruct H as [H|[H|[H|[e He]]]]; [contradiction|contradiction|contradiction|].
  rewrite He. eexists. split; [reflexivity|right; reflexivity].
Qed.

(** A name of blanks. *)
Lemma addCredential_rejects_invalid_form_witness :
  exists message,
    App.addCredential Example.unnamed Sample.start
    = Finished (Ok Undefined) (Utils.showToast message "error" Sample.start) []
    /\ (message = "Please fill all required fields" \/ message = "Invalid JSON data").
Proof.
  apply (addCredential_rejects_invalid_form Example.unnamed Sample.start).
  left. vm_compute. reflexivity.
Defined.

Lemma addCredential_valid form s data :
  JS.trim (App.cred_name form) <> "" -> JS.trim (App.cred_service form) <> "" ->
  App.cred_type form <> "" -> JSON.parse (App.cred_data form) = Ok data ->
  App.addCredential form s
  = try_catch
      (APIClient.createCredential (credential_of form data) ;;
       modify (Utils.showToast "Credential added successfully" "success") ;;
       detach App.loadCredentials)
      (fun error =>
         modify (Utils.showToast ("Failed to add credential: " +:+ emessage error) "error")) s.
Proof.
  intros Hn Hs Ht Hd. unfold App.addCredential. cbn zeta.
  apply String.eqb_neq in Hn, Hs, Ht. rewrite Hn, Hs, Ht, Hd. reflexivity.
Qed.

(** X20.  A valid credential is sent with POST to [/credentials], name
    and service trimmed.  On success a toast tells so and the credentials
    are loaded again; on failure the toast carries the message of the
    error and nothing is loaded. *)
Theorem addCredential_posts_then_reloads form s data o :
  JS.trim (App.cred_name form) <> "" -> JS.trim (App.cred_service form) <> "" ->
  App.cred_type form <> "" -> JSON.parse (App.cred_data form) = Ok data ->
  (forall v, APIClient.answer o = Ok v ->
     exists s' t,
       run [o] (App.addCredential form s) = Finished (Ok Undefined) s' [t]
       /\ toasts s' = toasts s ++ [("Credential added successfully", "success")]
       /\ issued s' = issued s ++ [credential_request form data s;
                                   APIClient.build "/credentials" no_options s]
       /\ app s' = app s)
  /\ (forall e, APIClient.answer o = Throw e ->
        exists s',
          run [o] (App.addCredential form s) = Finished (Ok Undefined) s' []
          /\ toasts s' = toasts s ++ [("Failed to add credential: " +:+ emessage e, "error")]
          /\ issued s' = issued s ++ [credential_request form data s]
          /\ app s' = app s)
  /\ method (credential_request form data s) = "POST"
  /\ url (credential_request form data s) = baseURL (api s) +:+ "/credentials".
Proof.
  intros Hn Hs Ht Hd.
  rewrite (addCredential_valid form s data Hn Hs Ht Hd).
  split; [|split; [|split; reflexivity]].
  - intros v Ho. unfold try_catch at 1. unfold await at 1.
    unfold APIClient.createCredential, APIClient.request. cbn [after].
    rewrite run_suspended, Ho. cbn [after also app].
    unfold await at 1. unfold modify at 1. cbn [after also app].
    unfold detach, App.loadCredentials. rewrite getCredentials_all.
    unfold try_catch, await, APIClient.request.
    cbn [after also app now pending run].
    eexists. eexists. split; [reflexivity|]. split; [reflexivity|].
    split; [|reflexivity].
    cbn [issued issue Utils.showToast]. rewrite <- List.app_assoc. reflexivity.
  - intros e Ho. unfold try_catch at 1. unfold await at 1.
    unfold APIClient.createCredential, APIClient.request. cbn [after].
    rewrite run_suspended, Ho. cbn [after also app]. unfold modify. cbn [run].
    eexists. split; [reflexivity|]. repeat split.
Qed.

(** A token for Slack. *)
Lemma addCredential_posts_then_reloads_witness :
  exists s' t,
    run [Sample.respond 201 "Created" "{'status':'created'}"]
      (App.addCredential Example.slack_token Sample.start) = Finished (Ok Undefined) s' [t]
    /\ List.map called (issued s') = [("POST", "https://flowforge.test/credentials");
                                      ("GET", "https://flowforge.test/credentials")].
Proof.
  destruct (addCredential_posts_then_reloads Example.slack_token Sample.start
              (Obj [("token", Str "xoxb")])
              (Sample.respond 201 "Created" "{'status':'created'}"))
    as (Hposted & _);
    [vm_compute; discriminate | vm_compute; discriminate | vm_compute; discriminate
    | vm_compute; reflexivity | ].
  destruct (Hposted (Obj [("status", Str "created")])) as (s' & t & Hrun & _ & Hissued & _);
    [vm_compute; reflexivity|].
  exists s', t. split; [exact Hrun|]. rewrite Hissued. reflexivity.
Defined.

(** ** Logging in from the form *)

(** X21.  A login or signup from the form whose request fails shows the
    message of the error, or "Login failed" / "Signup failed" when the
    message is empty; the session stays as it was and the dashboard is
    not asked for. *)
Theorem failed_login_is_reported s o e :
  APIClient.answer o = Throw e ->
  (forall email password,
     exists s',
       run [o] (Auth.handleLogin email password s) = Finished (Ok Undefined) s' []
       /\ toasts s' = toasts s ++ [(if String.eqb (emessage e) "" then "Login failed"
                                    else emessage e, "error")]
       /\ api s' = api s /\ storage s' = storage s
       /\ length (issued s') = S (length (issued s)))
  /\ (forall name email organization password,
        exists s',
          run [o] (Auth.handleSignup name email organization password s)
          = Finished (Ok Undefined) s' []
          /\ toasts s' = toasts s ++ [(if String.eqb (emessage e) "" then "Signup failed"
                                       else emessage e, "error")]
          /\ api s' = api s /\ storage s' = storage s
          /\ length (issued s') = S (length (issued s))).
Proof.
  intros Ho. split; intros.
  - unfold Auth.handleLogin, try_catch at 1. unfold await at 1.
    unfold APIClient.login, await at 1. unfold APIClient.request. cbn [after].
    rewrite run_suspended, Ho. cbn [after also app]. unfold modify. cbn [run].
    eexists. split; [reflexivity|]. split; [reflexivity|]. split; [reflexivity|].
    split; [reflexivity|]. cbn [issued Utils.showToast console_error issue].
    rewrite List.length_app. cbn. lia.
  - unfold Auth.handleSignup, try_catch at 1. unfold await at 1.
    unfold APIClient.signup, await at 1. unfold APIClient.request. cbn [after].
    rewrite run_suspended, Ho. cbn [after also app]. unfold modify. cbn [run].
    eexists. split; [reflexivity|]. split; [reflexivity|]. split; [reflexivity|].
    split; [reflexivity|]. cbn [issued Utils.showToast console_error issue].
    rewrite List.length_app. cbn. lia.
Qed.

(** The server is down while A logs in from the form. *)
Lemma failed_login_is_reported_witness :
  exists s',
    run [Example.down] (Auth.handleLogin "a@b.com" "pw" Sample.start)
    = Finished (Ok Undefined) s' []
    /\ toasts s' = [("down", "error")].
Proof.
  destruct (failed_login_is_reported Sample.start Example.down (JS.Error "down"))
    as [Hlogin _]; [vm_compute; reflexivity|].
  destruct (Hlogin "a@b.com" "pw") as (s' & Hrun & Htoasts & _).
  exists s'. split; [exact Hrun | exact Htoasts].
Defined.

Lemma userInfo_user s1 s2 : user (api s1) = user (api s2) -> Auth.userInfo s1 = Auth.userInfo s2.
Proof. intros H. unfold Auth.userInfo. rewrite H. reflexivity. Qed.

Lemma run_handleLogin s o data tok usr t email password :
  APIClient.answer o = Ok data ->
  JS.get data "api_key" = Ok (Str tok) -> tok <> "" ->
  JS.get data "user" = Ok usr ->
  JSON.stringify usr = Str t ->
  Auth.userInfo (with_api (set_user usr) s) = Ok tt ->
  let s1 := Utils.showToast "Login successful!" "success"
              (signed_in tok usr t (issue (login_request email password s) s)) in
  run [o] (Auth.handleLogin email password s)
  = Finished (Ok Undefined) (now (App.loadDashboard s1)) (pending (App.loadDashboard s1)).
Proof.
  intros Ho Hkey Htok Husr Ht Hshow s1.
  assert (JS.truthy (Str tok) = true) as Htruthy.
  { cbn. apply String.eqb_neq in Htok. rewrite Htok. reflexivity. }
  assert (Auth.userInfo s1 = Ok tt) as Hshow1.
  { rewrite <- Hshow. apply userInfo_user. reflexivity. }
  unfold Auth.handleLogin, try_catch at 1. unfold await at 1.
  unfold APIClient.login, await at 1. unfold APIClient.request. cbn [after].
  rewrite run_suspended, Ho. cbn [after also app]. unfold eval at 1.
  rewrite Hkey, Htruthy. unfold await at 1. unfold eval at 1. rewrite Husr.
  rewrite (setAuth_signed_in tok usr t _ Ht). cbn [after also app]. unfold ret at 1.
  cbn [after also app]. unfold await at 1. unfold modify at 1. cbn [after also app].
  unfold Auth.showApp, await at 1. unfold check at 1.
  fold (login_request email password s). fold s1. rewrite Hshow1.
  cbn [after also app]. unfold detach. cbn [after also app run]. reflexivity.
Qed.

(** X22.  A login from the form that brings a key and a profile that
    can be shown greets the user and loads the dashboard, whose two
    requests already carry the new key. *)
Theorem login_opens_the_dashboard s o data tok usr t email password :
  APIClient.answer o = Ok data ->
  JS.get data "api_key" = Ok (Str tok) -> tok <> "" ->
  JS.get data "user" = Ok usr ->
  JSON.stringify usr = Str t ->
  Auth.userInfo (with_api (set_user usr) s) = Ok tt ->
  exists s' t' q1 q2,
    run [o] (Auth.handleLogin email password s) = Finished (Ok Undefined) s' [t']
    /\ toasts s' = toasts s ++ [("Login successful!", "success")]
    /\ APIClient.isAuthenticated s' = true
    /\ issued s' = issued s ++ [login_request email password s; q1; q2]
    /\ called q1 = ("GET", baseURL (api s) +:+ "/workflows")
    /\ called q2 = ("GET", baseURL (api s) +:+ "/runs?limit=10")
    /\ headers q1 = [("Content-Type", Str "application/json"); ("X-API-Key", Str tok)]
    /\ headers q2 = [("Content-Type", Str "application/json"); ("X-API-Key", Str tok)].
Proof.
  intros Ho Hkey Htok Husr Ht Hshow.
  rewrite (run_handleLogin s o data tok usr t email password) by assumption.
  cbn zeta.
  assert (JS.truthy (Str tok) = true) as Htruthy.
  { cbn. apply String.eqb_neq in Htok. rewrite Htok. reflexivity. }
  unfold App.loadDashboard. rewrite getRuns_dashboard.
  unfold try_catch, await, Promise_all2, APIClient.getWorkflows, APIClient.request.
  cbn [now after also app pending].
  eexists. eexists. eexists. eexists. split; [reflexivity|].
  split; [reflexivity|]. split; [exact Htruthy|].
  split. { cbn [issued issue Utils.showToast signed_in with_storage with_api].
           rewrite <- !List.app_assoc. reflexivity. }
  split; [reflexivity|]. split; [reflexivity|].
  unfold APIClient.build.
  cbn [headers api issue Utils.showToast signed_in with_storage with_api set_user set_token token].
  rewrite Htruthy. split; reflexivity.
Qed.

(** The login that brings "tok1". *)
Lemma login_opens_the_dashboard_witness :
  exists s' t,
    run [Example.welcome] (Auth.handleLogin "a@b.com" "pw" Sample.start)
    = Finished (Ok Undefined) s' [t]
    /\ toasts s' = [("Login successful!", "success")]
    /\ List.map called (issued s') = [("POST", "https://flowforge.test/auth/login");
                                      ("GET", "https://flowforge.test/workflows");
                                      ("GET", "https://flowforge.test/runs?limit=10")].
Proof.
  destruct (login_opens_the_dashboard Sample.start Example.welcome
              (Obj [("api_key", Str "tok1"); ("user", Example.profile)])
              "tok1" Example.profile (dq "{'id':1,'name':'A'}") "a@b.com" "pw")
    as (s' & t & q1 & q2 & Hrun & Htoasts & _ & Hissued & Hq1 & Hq2 & _);
    [vm_compute; reflexivity | reflexivity | discriminate | reflexivity
    | vm_compute; reflexivity | vm_compute; reflexivity | ].
  exists s', t. split; [exact Hrun|]. split; [exact Htoasts|].
  rewrite Hissued. cbn [List.map issued Sample.start List.app]. rewrite Hq1, Hq2. reflexivity.
Defined.

(** ** The page load *)

Lemma loaded_fields origin st page s :
  loaded origin st page = Ok s ->
  baseURL (api s) = origin /\ token (api s) = APIClient.getItem "auth_token" st
  /\ issued s = [] /\ toasts s = [] /\ storage s = st.
Proof.
  unfold loaded, APIClient.constructor. intros H.
  destruct (JS.to_string _) as [t|]; cbn [rbind] in H; [|discriminate].
  destruct (JSON.parse t) as [usr|]; cbn [rbind] in H; [|discriminate].
  injection H as <-. repeat split.
Qed.

Lemma App_init_logged_out s :
  APIClient.isAuthenticated s = false ->
  App_init s = Finished (Ok Undefined) (now (WorkflowBuilder.init s)) (pending (WorkflowBuilder.init s)).
Proof.
  intros H. unfold App_init, await, Auth.init. rewrite H. reflexivity.
Qed.

Lemma App_init_logged_in s :
  APIClient.isAuthenticated s = true ->
  Auth.userInfo s = Ok tt ->
  App_init s
  = Finished (Ok Undefined) (now (WorkflowBuilder.init (now (App.loadDashboard s))))
      (pending (App.loadDashboard s) ++ pending (WorkflowBuilder.init (now (App.loadDashboard s)))).
Proof.
  intros H Hshow. unfold App_init, await at 1. unfold Auth.init. rewrite H.
  unfold Auth.showApp, await at 1. unfold check. rewrite Hshow. cbn [after also app].
  unfold detach. cbn [after also app]. reflexivity.
Qed.

Lemma issued_init s :
  issued (now (WorkflowBuilder.init s))
  = issued s ++ [APIClient.build "/services" no_options s;
                 APIClient.build "/api/connectors" no_options s].
Proof.
  unfold WorkflowBuilder.init, try_catch, await, Promise_all2.
  rewrite getServices_all.
  cbn [APIClient.getConnectors APIClient.request now after issued issue].
  rewrite <- List.app_assoc. reflexivity.
Qed.

Lemma pending_init s : length (pending (WorkflowBuilder.init s)) = 1%nat.
Proof.
  unfold WorkflowBuilder.init, try_catch, await, Promise_all2.
  rewrite getServices_all. reflexivity.
Qed.

Lemma pending_loadDashboard s : length (pending (App.loadDashboard s)) = 1%nat.
Proof.
  unfold App.loadDashboard, try_catch, await, Promise_all2.
  rewrite getRuns_dashboard. reflexivity.
Qed.

Lemma api_loadDashboard s : api (now (App.loadDashboard s)) = api s.
Proof.
  unfold App.loadDashboard, try_catch, await, Promise_all2.
  rewrite getRuns_dashboard. reflexivity.
Qed.

(** X23.  What a page load asks the server.  Without a stored key (or
    with an empty one) only the catalog is asked for, without a key.
    With a stored key the dashboard is asked for first, then the catalog,
    every request carrying the key.  When the stored profile cannot be
    shown, the initialisation ends with that error before any request is
    made. *)
Theorem page_load_requests origin st page s :
  loaded origin st page = Ok s ->
  (st !! "auth_token" = None \/ st !! "auth_token" = Some "" ->
   exists s' t,
     App_init s = Finished (Ok Undefined) s' [t]
     /\ List.map called (issued s') = [("GET", origin +:+ "/services");
                                       ("GET", origin +:+ "/api/connectors")]
     /\ Forall (fun q => headers q = [("Content-Type", Str "application/json")]) (issued s'))
  /\ (forall tok, st !! "auth_token" = Some tok -> tok <> "" ->
      (Auth.userInfo s = Ok tt ->
       exists s' t1 t2,
         App_init s = Finished (Ok Undefined) s' [t1; t2]
         /\ List.map called (issued s') = [("GET", origin +:+ "/workflows");
                                           ("GET", origin +:+ "/runs?limit=10");
                                           ("GET", origin +:+ "/services");
                                           ("GET", origin +:+ "/api/connectors")]
         /\ Forall (fun q => headers q = [("Content-Type", Str "application/json");
                                          ("X-API-Key", Str tok)]) (issued s'))
      /\ (forall e, Auth.userInfo s = Throw e -> App_init s = Finished (Throw e) s [])).
Proof.
  intros Hs. destruct (loaded_fields origin st page s Hs) as (Hbase & Htok & Hissued & _).
  split.
  - intros Hnone.
    assert (JS.truthy (token (api s)) = false) as Hout.
    { rewrite Htok. unfold APIClient.getItem. destruct Hnone as [-> | ->]; reflexivity. }
    rewrite (App_init_logged_out s Hout).
    pose proof (pending_init s) as Hp.
    destruct (pending (WorkflowBuilder.init s)) as [|t [|? ?]]; try discriminate Hp.
    eexists. exists t. split; [reflexivity|]. cbn [now].
    rewrite issued_init, Hissued. cbn [app List.map called].
    unfold APIClient.build. cbn [method url headers default opt_method no_options].
    rewrite Hbase, Hout. split; [reflexivity|]. repeat constructor.
  - intros tok Hsome Hne.
    assert (token (api s) = Str tok) as Htoken.
    { rewrite Htok. unfold APIClient.getItem. rewrite Hsome. reflexivity. }
    assert (JS.truthy (token (api s)) = true) as Hin.
    { rewrite Htoken. cbn. apply String.eqb_neq in Hne. rewrite Hne. reflexivity. }
    split.
    + intros Hshow. rewrite (App_init_logged_in s Hin Hshow).
      pose proof (pending_init (now (App.loadDashboard s))) as Hp.
      pose proof (pending_loadDashboard s) as Hd.
      destruct (pending (WorkflowBuilder.init _)) as [|t2 [|? ?]]; try discriminate Hp.
      destruct (pending (App.loadDashboard s)) as [|t1 [|? ?]]; try discriminate Hd.
      eexists. exists t1, t2. split; [reflexivity|]. cbn [now].
      rewrite issued_init, issued_loadDashboard, Hissued. cbn [app List.map called].
      unfold APIClient.build. cbn [method url headers default opt_method no_options].
      rewrite api_loadDashboard, Hbase, Hin, Htoken. split; [reflexivity|]. repeat constructor.
    + intros e Hthrow. unfold App_init, await at 1. unfold Auth.init.
      change (APIClient.isAuthenticated s) with (JS.truthy (token (api s))). rewrite Hin.
      unfold Auth.showApp, await at 1. unfold check. rewrite Hthrow. reflexivity.
Qed.

(** The sample page, nobody logged in. *)
Lemma page_load_requests_witness :
  exists s' t,
    App_init Sample.start = Finished (Ok Undefined) s' [t]
    /\ List.map called (issued s') = [("GET", "https://flowforge.test/services");
                                      ("GET", "https://flowforge.test/api/connectors")].
Proof.
  destruct (page_load_requests "https://flowforge.test" ∅ Sample.page Sample.start)
    as [Hout _]; [vm_compute; reflexivity|].
  destruct (Hout (or_introl eq_refl)) as (s' & t & Hrun & Hcalled & _).
  exists s', t. split; [exact Hrun | exact Hcalled].
Defined.

(** ** The options of a step *)

Lemma find_list_skips service before rest :
  Forall (fun x => is_record x /\ named service x = false) before ->
  JS.find_list (fun c => let* name := JS.get c "name" in Ok (JS.strict_eq name (Str service)))
    (before ++ rest)
  = JS.find_list (fun c => let* name := JS.get c "name" in Ok (JS.strict_eq name (Str service)))
      rest.
Proof.
  induction 1 as [|x l [Hx Hn] _ IH]; [reflexivity|].
  cbn [List.app JS.find_list]. cbn beta. rewrite (get_record x "name" Hx). cbn [rbind].
  change (JS.strict_eq (JS.get_opt x "name") (Str service)) with (named service x).
  rewrite Hn. exact IH.
Qed.

Lemma listed_as_record action o : listed_as action o -> is_record action.
Proof.
  intros [Hname _]. split; intros ->; discriminate Hname.
Qed.

Lemma collect_listed actions pairs :
  Forall2 listed_as actions pairs ->
  WorkflowBuilder.collect
    (fun action =>
       let* name := JS.get action "name" in
       let* v := JS.to_string name in
       let* display := JS.get action "display_name" in
       let* t := WorkflowBuilder.textContent (JS.or display name) in
       Ok (v, t)) actions
  = Ok pairs.
Proof.
  induction 1 as [|a [v t] actions pairs Ha _ IH]; [reflexivity|].
  cbn [WorkflowBuilder.collect].
  pose proof (listed_as_record a (v, t) Ha) as Hrec.
  destruct Ha as [Hname Hdisplay]. cbn [fst snd] in Hname, Hdisplay.
  rewrite !(get_record a _ Hrec), Hname. cbn [rbind JS.to_string].
  rewrite IH. unfold JS.or.
  destruct Hdisplay as [[Ht Hd]|[Hf ->]].
  - rewrite Ht, Hd. reflexivity.
  - rewrite Hf. reflexivity.
Qed.

(** X24.  For a service no connector of the catalog is named after, the
    select of actions holds its placeholder only. *)
Theorem updateActionDropdown_unknown_service service s l :
  availableConnectors (builder s) = Arr l ->
  Forall (fun x => is_record x /\ named service x = false) l ->
  WorkflowBuilder.updateActionDropdown service s = Ok [].
Proof.
  intros Hl Hall. unfold WorkflowBuilder.updateActionDropdown. rewrite Hl.
  unfold JS.find. rewrite <- (List.app_nil_r l), find_list_skips by exact Hall.
  reflexivity.
Qed.

(** The catalog holds Slack; GitHub is asked for. *)
Lemma updateActionDropdown_unknown_service_witness :
  WorkflowBuilder.updateActionDropdown "github" Example.with_slack = Ok [].
Proof.
  apply (updateActionDropdown_unknown_service "github" Example.with_slack [Example.slack]);
    [reflexivity|].
  constructor; [|constructor]. split; [split; discriminate | reflexivity].
Defined.

(** X25.  The actions offered are those of the first connector named
    after the service, in their order: the value of an option is the name
    of the action, its text the display name or, without one, the name.  A
    connector without actions offers none. *)
Theorem updateActionDropdown_first_match service s before c rest :
  availableConnectors (builder s) = Arr (before ++ c :: rest) ->
  Forall (fun x => is_record x /\ named service x = false) before ->
  is_record c -> named service c = true ->
  (JS.truthy (JS.get_opt c "actions") = false ->
   WorkflowBuilder.updateActionDropdown service s = Ok [])
  /\ (forall actions pairs,
        JS.get_opt c "actions" = Arr actions ->
        Forall2 listed_as actions pairs ->
        WorkflowBuilder.updateActionDropdown service s = Ok pairs
        /\ List.map fst pairs = List.map (fun a => match JS.get_opt a "name" with
                                                   | Str n => n | _ => "" end) actions).
Proof.
  intros Hl Hbefore Hc Hnamed.
  assert (JS.truthy c = true) as Htruthy.
  { destruct Hc as [H1 H2]. destruct c; try reflexivity; try congruence;
      unfold named in Hnamed; cbn in Hnamed; discriminate. }
  unfold WorkflowBuilder.updateActionDropdown. rewrite Hl. unfold JS.find.
  rewrite find_list_skips by exact Hbefore. cbn [JS.find_list]. cbn beta.
  rewrite (get_record c "name" Hc). cbn [rbind].
  change (JS.strict_eq (JS.get_opt c "name") (Str service)) with (named service c).
  rewrite Hnamed. cbn [rbind]. rewrite Htruthy, (get_record c "actions" Hc). cbn [rbind].
  split.
  - intros Hf. rewrite Hf. reflexivity.
  - intros actions pairs Ha Hlisted. rewrite Ha. cbn [JS.truthy].
    split; [apply collect_listed; exact Hlisted|].
    clear -Hlisted. induction Hlisted as [|a [v t] actions pairs [Hname _] _ IH]; [reflexivity|].
    cbn [List.map fst]. cbn [fst] in Hname. rewrite Hname, IH. reflexivity.
Qed.

(** The two actions of Slack, one without a display name. *)
Lemma updateActionDropdown_first_match_witness :
  WorkflowBuilder.updateActionDropdown "slack" Example.with_slack
  = Ok [("send_message", "Send message"); ("list_channels", "list_channels")].
Proof.
  destruct (updateActionDropdown_first_match "slack" Example.with_slack [] Example.slack [])
    as [_ Hlisted]; [reflexivity | constructor | split; discriminate | reflexivity |].
  destruct (Hlisted [Example.send_message; Example.list_channels]
              [("send_message", "Send message"); ("list_channels", "list_channels")])
    as [Hoptions _]; [reflexivity | | exact Hoptions].
  constructor; [split; [reflexivity|left; split; reflexivity]|].
  constructor; [split; [reflexivity|right; split; reflexivity]|]. constructor.
Defined.
